(** * nbapi: a shallow embedding of the National Bank Direct Brokerage client

    The Python class [NationalBank] (src/nbapi/nbapi.py) is a thin client:
    every method issues one or two HTTP calls through a shared session and
    projects fields out of the decoded JSON.  The embedding has four layers:

    - [Py]: the fragment of Python's dynamic semantics the methods rely on
      (exceptions, subscripting, [in], [len], iteration, [str] methods);
    - [Calendar]: [datetime.today() + timedelta(days=n)], [weekday()] and
      [strftime('%Y-%m-%d')];
    - [Http]: the session as a request log and the broker as an oracle;
    - [NationalBank]: the methods themselves, one definition per method.

    [Contract] names what the statements say about a response, and [Fixture]
    is a small broker the client is run against.

    Strings are byte strings; only the ASCII letters are cased, which is the
    alphabet of every literal the client compares against. *)

From Stdlib Require Import ZArith QArith String Ascii List DecimalString.
From stdpp Require Import gmap strings list fin_maps.

#[local] Set Warnings "-register-all,-clear-no-such-hyp".
#[local] Open Scope string_scope.
#[local] Open Scope Z_scope.

(** ** Python values and exceptions *)

Module Py.

(** The exceptions the methods can end with.  The client itself only ever
    executes [raise Exception(msg)]; the other constructors are the built-in
    errors raised by the operations it uses, and [TransportError] stands for
    whatever the HTTP layer or the JSON decoder raises. *)
Inductive exn : Type :=
| Exception (msg : string)
| KeyError
| IndexError
| TypeError
| AttributeError
| OverflowError
| UnboundLocalError
| TransportError (msg : string).

Inductive result (A : Type) : Type :=
| Ok (a : A)
| Raise (e : exn).
Arguments Ok {A} a.
Arguments Raise {A} e.

#[export] Instance result_ret : MRet result := λ A a, Ok a.
#[export] Instance result_bind : MBind result := λ A B f r,
  match r with
  | Ok a => f a
  | Raise e => Raise e
  end.

Definition is_ok {A} (r : result A) : bool :=
  match r with Ok _ => true | Raise _ => false end.

(** A decoded JSON document, as [response.json()] returns it: [None], [bool],
    [int], [float], [str], [list] and [dict] with string keys.  A [float] is
    only ever passed through, never computed with; it is kept as the rational
    it denotes. *)
Inductive json : Type :=
| JNull
| JBool (b : bool)
| JInt (n : Z)
| JFloat (x : Q)
| JStr (s : string)
| JList (l : list json)
| JDict (d : gmap string json).

Fixpoint string_chars (s : string) : list json :=
  match s with
  | EmptyString => []
  | String c s' => JStr (String c EmptyString) :: string_chars s'
  end.

(** [l[i]] on a sequence: a negative index counts from the end. *)
Definition index {A} (l : list A) (i : Z) : result A :=
  let n := Z.of_nat (length l) in
  let i := if i <? 0 then i + n else i in
  if i <? 0 then Raise IndexError
  else match l !! Z.to_nat i with
       | Some v => Ok v
       | None => Raise IndexError
       end.

(** [x[key]].  The keys of a decoded [dict] are all strings, so another
    hashable key is simply absent; a [list] or [dict] key is unhashable; a
    sequence takes an [int] (or a [bool], which is one) and nothing else. *)
Definition subscript (x key : json) : result json :=
  match x, key with
  | JDict d, JStr k => match d !! k with Some v => Ok v | None => Raise KeyError end
  | JDict _, (JList _ | JDict _) => Raise TypeError
  | JDict _, _ => Raise KeyError
  | JList l, JInt i => index l i
  | JList l, JBool b => index l (if b then 1 else 0)
  | JStr s, JInt i => index (string_chars s) i
  | JStr s, JBool b => index (string_chars s) (if b then 1 else 0)
  | _, _ => Raise TypeError
  end.

(** [x['key']] *)
Definition getitem (x : json) (key : string) : result json := subscript x (JStr key).

(** [x[i]] with an integer literal. *)
Definition getindex (x : json) (i : Z) : result json := subscript x (JInt i).

(** [x[key] = v]. *)
Definition setitem (x : json) (key : string) (v : json) : result json :=
  match x with
  | JDict d => Ok (JDict (<[key := v]> d))
  | _ => Raise TypeError
  end.

(** [len(x)]. *)
Definition len (x : json) : result nat :=
  match x with
  | JList l => Ok (length l)
  | JDict d => Ok (size d)
  | JStr s => Ok (String.length s)
  | _ => Raise TypeError
  end.

(** The items a [for item in x] loop visits.  A [dict] yields its keys; their
    order plays no role below, since every loop body subscripts [item] with a
    string first, which a key (a [str]) rejects. *)
Definition iter (x : json) : result (list json) :=
  match x with
  | JList l => Ok l
  | JDict d => Ok (JStr <$> (map_to_list d).*1)
  | JStr s => Ok (string_chars s)
  | _ => Raise TypeError
  end.

(** [needle in hay] for [str] operands: substring search. *)
Fixpoint contains (needle hay : string) : bool :=
  String.prefix needle hay ||
  match hay with
  | EmptyString => false
  | String _ hay' => contains needle hay'
  end.

Definition is_str (s : string) (x : json) : bool :=
  match x with
  | JStr s' => String.eqb s' s
  | _ => false
  end.

(** [needle in x] with a [str] on the left. *)
Definition py_in (needle : string) (x : json) : result bool :=
  match x with
  | JStr hay => Ok (contains needle hay)
  | JList l => Ok (existsb (is_str needle) l)
  | JDict d => Ok (bool_decide (is_Some (d !! needle)))
  | _ => Raise TypeError
  end.

(** [x == s] against a [str]: a value of another type is never equal. *)
Definition eq_str (x : json) (s : string) : bool := is_str s x.

(** *** [str] methods *)

Definition is_lower (c : ascii) : bool :=
  let n := N_of_ascii c in ((97 <=? n) && (n <=? 122))%N.
Definition is_upper (c : ascii) : bool :=
  let n := N_of_ascii c in ((65 <=? n) && (n <=? 90))%N.
Definition to_upper (c : ascii) : ascii :=
  if is_lower c then ascii_of_N (N_of_ascii c - 32) else c.
Definition to_lower (c : ascii) : ascii :=
  if is_upper c then ascii_of_N (N_of_ascii c + 32) else c.

(** [s.upper()] on ASCII text: the letters [a]..[z] are raised and every
    other byte is left as it is.  Outside ASCII [str.upper] follows the
    Unicode tables, which a byte string does not carry: this is [str.upper]
    where [isascii] holds. *)
Fixpoint upper (s : string) : string :=
  match s with
  | EmptyString => EmptyString
  | String c s' => String (to_upper c) (upper s')
  end.

(** [s.title()] on ASCII text: a cased character is upper-cased when the
    character before it is not cased and lower-cased otherwise; the cased
    characters are the ASCII letters. *)
Fixpoint title_from (previous_is_cased : bool) (s : string) : string :=
  match s with
  | EmptyString => EmptyString
  | String c s' =>
      if is_lower c then
        String (if previous_is_cased then c else to_upper c) (title_from true s')
      else if is_upper c then
        String (if previous_is_cased then to_lower c else c) (title_from true s')
      else String c (title_from false s')
  end.
Definition title (s : string) : string := title_from false s.

(** [s.split(sep)] for a one-character separator. *)
Fixpoint split (sep : ascii) (s : string) : list string :=
  match s with
  | EmptyString => [EmptyString]
  | String c s' =>
      if Ascii.eqb c sep then EmptyString :: split sep s'
      else match split sep s' with
           | field :: fields => String c field :: fields
           | [] => [String c EmptyString]
           end
  end.

(** [s.isascii()]: every character is below 128. *)
Fixpoint isascii (s : string) : bool :=
  match s with
  | EmptyString => true
  | String c s' => (N_of_ascii c <? 128)%N && isascii s'
  end.

(** [str(n)] for an [int]. *)
Definition str_of_int (n : Z) : string := NilEmpty.string_of_int (Z.to_int n).

End Py.
Export Py.

(** ** The calendar

    [datetime.today() + timedelta(days=n)] goes through the proleptic
    Gregorian ordinal (day 1 is 0001-01-01, a Monday): the sum is taken on
    [toordinal()], checked against [1 .. MAXORDINAL] and converted back with
    [fromordinal]; the time of day is carried along untouched.  A [datetime]
    is therefore kept as its ordinal and its time of day, and the civil date is
    recovered by [ord2ymd], the conversion [fromordinal] uses. *)

Module Calendar.

Definition MAXORDINAL : Z := 3652059.

Definition DAYS_IN_MONTH : list Z :=
  [-1; 31; 28; 31; 30; 31; 30; 31; 31; 30; 31; 30; 31].
Definition DAYS_BEFORE_MONTH : list Z :=
  [-1; 0; 31; 59; 90; 120; 151; 181; 212; 243; 273; 304; 334].

Definition b2z (b : bool) : Z := if b then 1 else 0.

Definition is_leap (year : Z) : bool :=
  (year mod 4 =? 0) && (negb (year mod 100 =? 0) || (year mod 400 =? 0)).

Definition days_before_year (year : Z) : Z :=
  let y := year - 1 in y * 365 + y / 4 - y / 100 + y / 400.

Definition days_before_month (year month : Z) : Z :=
  nth (Z.to_nat month) DAYS_BEFORE_MONTH 0 + b2z ((2 <? month) && is_leap year).

Definition ymd2ord (year month day : Z) : Z :=
  days_before_year year + days_before_month year month + day.

Definition ord2ymd (n : Z) : Z * Z * Z :=
  let n := n - 1 in
  let n400 := n / 146097 in
  let n := n mod 146097 in
  let year := n400 * 400 + 1 in
  let n100 := n / 36524 in
  let n := n mod 36524 in
  let n4 := n / 1461 in
  let n := n mod 1461 in
  let n1 := n / 365 in
  let n := n mod 365 in
  let year := year + (n100 * 100 + n4 * 4 + n1) in
  if (n1 =? 4) || (n100 =? 4) then (year - 1, 12, 31)
  else
    let leapyear := (n1 =? 3) && (negb (n4 =? 24) || (n100 =? 3)) in
    let month := Z.shiftr (n + 50) 5 in
    let preceding :=
      nth (Z.to_nat month) DAYS_BEFORE_MONTH 0 + b2z ((2 <? month) && leapyear) in
    if n <? preceding then
      let month := month - 1 in
      let preceding :=
        preceding
        - (nth (Z.to_nat month) DAYS_IN_MONTH 0 + b2z ((month =? 2) && leapyear)) in
      (year, month, n - preceding + 1)
    else (year, month, n - preceding + 1).

Record datetime : Type := { toordinal : Z; time_of_day : Z }.

Definition valid (dt : datetime) : Prop := 1 <= toordinal dt <= MAXORDINAL.

(** [dt + timedelta(days=n)]: [timedelta] takes at most 999999999 days either
    way, and the sum has to be a date again. *)
Definition add_days (dt : datetime) (n : Z) : result datetime :=
  if Z.abs n <=? 999999999 then
    let o := toordinal dt + n in
    if (0 <? o) && (o <=? MAXORDINAL)
    then Ok {| toordinal := o; time_of_day := time_of_day dt |}
    else Raise OverflowError
  else Raise OverflowError.

(** [dt.weekday()]: Monday is 0, Saturday 5, Sunday 6. *)
Definition weekday (dt : datetime) : Z := (toordinal dt + 6) mod 7.

(** The weekday of the civil date [year-month-day]. *)
Definition weekday_ymd (year month day : Z) : Z := (ymd2ord year month day + 6) mod 7.

Definition digits (width : nat) (n : Z) : string :=
  let s := str_of_int n in
  String.concat "" (repeat "0" (width - String.length s)) +:+ s.

(** [dt.strftime('%Y-%m-%d')].  Month and day are padded to two digits.  The
    year is the C library's [%Y]: glibc, under CPython 3.11, prints it as the
    number it is, so on four digits from year 1000 on and on fewer before
    ([datetime(999, 6, 3)] gives [999-06-03]). *)
Definition strftime_ymd (dt : datetime) : string :=
  let '(year, month, day) := ord2ymd (toordinal dt) in
  str_of_int year +:+ "-" +:+ digits 2 month +:+ "-" +:+ digits 2 day.

(** [_days_in_month(year, month)] *)
Definition days_in_month (year month : Z) : Z :=
  if (month =? 2) && is_leap year then 29 else nth (Z.to_nat month) DAYS_IN_MONTH 0.

(** The civil dates [date(year, month, day)] accepts. *)
Definition is_date (year month day : Z) : Prop :=
  1 <= year <= 9999 ∧ 1 <= month <= 12 ∧ 1 <= day <= days_in_month year month.

(** The check behind [ord2ymd]'s month and day: the month found for the
    [n]-th day of a year is a real month, the days before it are those of
    [DAYS_BEFORE_MONTH], and the day is not negative. *)
Definition month_day_ok (leapyear : bool) (n : Z) : bool :=
  let month := Z.shiftr (n + 50) 5 in
  let preceding :=
    nth (Z.to_nat month) DAYS_BEFORE_MONTH 0 + b2z ((2 <? month) && leapyear) in
  let '(month, preceding) :=
    if n <? preceding then
      (month - 1,
       preceding - (nth (Z.to_nat (month - 1)) DAYS_IN_MONTH 0
                    + b2z ((month - 1 =? 2) && leapyear)))
    else (month, preceding) in
  (1 <=? month) && (month <=? 12)
  && (nth (Z.to_nat month) DAYS_BEFORE_MONTH 0 + b2z ((2 <? month) && leapyear)
      =? preceding)
  && (0 <=? n - preceding).

(** The same check for the end of the month: the day found for the [n]-th
    day of a year is not past the last day of its month. *)
Definition month_end_ok (leapyear : bool) (n : Z) : bool :=
  let month := Z.shiftr (n + 50) 5 in
  let preceding :=
    nth (Z.to_nat month) DAYS_BEFORE_MONTH 0 + b2z ((2 <? month) && leapyear) in
  let '(month, preceding) :=
    if n <? preceding then
      (month - 1,
       preceding - (nth (Z.to_nat (month - 1)) DAYS_IN_MONTH 0
                    + b2z ((month - 1 =? 2) && leapyear)))
    else (month, preceding) in
  n - preceding + 1
  <=? nth (Z.to_nat month) DAYS_IN_MONTH 0 + b2z ((month =? 2) && leapyear).

End Calendar.
Export Calendar.

(** ** The HTTP session

    The session is the only mutable object of the client.  What matters of it
    here is which requests went out, in which order; the broker is an oracle
    that answers a request given the requests that preceded it, with the
    decoded JSON body or with the exception the transport raised. *)

Module Http.

Inductive request : Type :=
| GET (url : string)
| POST (url : string) (body : json)
| DELETE (url : string).

Definition M (A : Type) : Type := list request → result A * list request.

#[export] Instance M_ret : MRet M := λ A a log, (Ok a, log).
#[export] Instance M_bind : MBind M := λ A B f m log,
  match m log with
  | (Ok a, log') => f a log'
  | (Raise e, log') => (Raise e, log')
  end.

Definition lift {A} (r : result A) : M A := λ log, (r, log).

Definition send (server : list request → request → result json) (req : request) : M json :=
  λ log, (server log req, (log ++ [req])%list).

End Http.
Export Http.

(** ** The client *)

Module NationalBank.

(** The four failures the client signals itself.  Each is a bare
    [raise Exception(msg)]; they are told apart by their message only. *)
Definition AccountNotFoundError : exn := Exception "Error! Unabel to find account".
Definition OrderRejectedError : exn :=
  Exception "An Error Has Occured When Attempting to process your order.".
Definition OrderNotFoundError : exn := Exception "Order not Found.".
Definition NoPositionsError : exn := Exception "Error! No Positions Found.".

Definition account_url : string := "https://orion-api.bnc.ca/orion-api/v1/1/portfolios".
Definition validation_url : string :=
  "https://orion-api.bnc.ca/orion-api/v1/1/stock-orders/validation".
Definition order_url : string := "https://orion-api.bnc.ca/orion-api/v1/1/stock-orders".
Definition orders_url (account_id : string) : string :=
  "https://orion-api.bnc.ca/orion-api/v1/1/orders?acctNo=" +:+ account_id.
Definition pos_url (account_id : string) : string :=
  "https://orion-api.bnc.ca/orion-api/v1/1/accounts/assetsDetail?acctNo=" +:+ account_id.

Definition representative_notice : string :=
  "your order will be processed by one of our representatives".

Definition of_option (limit_price : option Q) : json :=
  match limit_price with
  | Some x => JFloat x
  | None => JNull
  end.

(** *** get_account_id *)

(** [response]: the account list of the first portfolio. *)
Definition account_list_of (r : json) : result json :=
  data ← getitem r "data";
  portfolio ← getindex data 0;
  getitem portfolio "accountList".

(** The [for item in response] loop of [get_account_id], with the [raise]
    that follows it. *)
Fixpoint scan_accounts (currency_type account_type : string) (response : list json)
  : result json :=
  match response with
  | [] => Raise AccountNotFoundError
  | item :: rest =>
      desc ← getitem item "acctTypeDesc";
      has_currency ← py_in currency_type desc;
      if has_currency : bool then
        has_type ← py_in account_type desc;
        if has_type : bool then getitem item "acctNo"
        else scan_accounts currency_type account_type rest
      else scan_accounts currency_type account_type rest
  end.

(** *** validate: the request *)

(** [None] is the local variable [country] left unbound. *)
Definition country_of (currency : string) : option string :=
  if String.eqb currency "USD" then Some "USA"
  else if String.eqb currency "CAD" then Some "CAN"
  else None.

Definition price_type (limit_price : option Q) : string :=
  match limit_price with
  | Some _ => "SPECIFIC"
  | None => "MARKET"
  end.

(** The value of [expiry_date] just before [strftime], in the [else] branch. *)
Definition expiry_datetime (today : datetime) (days_till_expiration : Z) : result datetime :=
  expiry_date ← add_days today days_till_expiration;
  let day := weekday expiry_date in
  if day =? 5 then add_days expiry_date 2
  else if day =? 6 then add_days expiry_date 1
  else Ok expiry_date.

(** The pair [(expiry, expiry_date)]. *)
Definition expiry_of (today : datetime) (days_till_expiration : Z) : result (string * json) :=
  if days_till_expiration =? 0 then Ok ("DAY", JNull)
  else
    expiry_date ← expiry_datetime today days_till_expiration;
    Ok ("DATE", JStr (strftime_ymd expiry_date)).

(** The body of the validation request.  Reading [country] is what fails when
    neither branch of the currency test assigned it. *)
Definition validation_data (today : datetime) (account_id side : string) (qty : Z)
    (symbol currency : string) (limit_price : option Q) (days_till_expiration : Z)
  : result json :=
  let symbol := upper symbol in
  let currency := upper currency in
  let side := upper side in
  let qty := str_of_int qty in
  let country := country_of currency in
  let type := price_type limit_price in
  '(expiry, expiry_date) ← expiry_of today days_till_expiration;
  country ← (match country with Some c => Ok c | None => Raise UnboundLocalError end);
  Ok (JDict {[
    "stockOrder" := JDict {[
      "ordId" := JNull;
      "acctNo" := JStr account_id;
      "operation" := JStr side;
      "ordQty" := JStr qty;
      "expiry" := JStr expiry;
      "expiryDt" := expiry_date;
      "restriction" := JStr "NONE";
      "phone" := JStr "000-000-0000";
      "finInstrument" := JDict {[
        "marketSymbol" := JDict {[
          "symbolCd" := JStr symbol;
          "symbolCurrCd" := JStr currency;
          "symbolCntryCd" := JStr country ]};
        "finInstrumentTypeCd" := JStr "STOCK" ]};
      "limitPrice" := of_option limit_price;
      "priceType" := JStr type;
      "stopLimitPrice" := JNull ]};
    "mode" := JStr "INSERT" ]}).

(** *** validate: the response *)

(** The [for item in response['messageList']] loop. *)
Fixpoint collect_warnings (items : list json) (warning_list : list json)
  : result (list json) :=
  match items with
  | [] => Ok warning_list
  | item :: rest =>
      message ← getitem item "message";
      rejected ← py_in representative_notice message;
      if rejected : bool then Raise OrderRejectedError
      else
        msg_id ← getitem item "msgId";
        collect_warnings rest (warning_list ++ [msg_id])%list
  end.

(** Everything [validate] does after the POST: [order_data] as returned. *)
Definition order_data_of (response : json) (phone : string) : result json :=
  data ← getitem response "data";
  stock_order ← getitem data "stockOrder";
  let order_data : gmap string json := {[ "stockOrder" := stock_order ]} in
  has_messages ← py_in "messageList" response;
  order_data ← (if has_messages : bool then
                  message_list ← getitem response "messageList";
                  items ← iter message_list;
                  warning_list ← collect_warnings items [];
                  Ok (<["warnsNoList" := JList warning_list]> order_data)
                else Ok order_data);
  stock_order ← setitem stock_order "phone" (JStr phone);
  Ok (JDict (<["stockOrder" := stock_order]> order_data)).

(** *** Orders *)

Definition order_id_of (r : json) : result json :=
  response ← getitem r "data";
  stock_order ← getitem response "stockOrder";
  ord_id ← getitem stock_order "ordId";
  Ok (JDict {[ "order_id" := ord_id ]}).

(** [response]: the order list of the account. *)
Definition order_list_of (r : json) : result json :=
  data ← getitem r "data";
  getitem data "orderList".

(** The loop of [get_order]: [order_info] after it. *)
Fixpoint find_order (response : list json) (order_id : string) (order_info : json)
  : result json :=
  match response with
  | [] => Ok order_info
  | item :: rest =>
      ord_id ← getitem item "ordId";
      if eq_str ord_id order_id then Ok item
      else find_order rest order_id order_info
  end.

Definition return_dict_of (order_info : json) : result json :=
  order_id ← getitem order_info "ordId";
  operation ← getitem order_info "operation";
  order_quantity ← getitem order_info "ordQty";
  filled_quantity ← getitem order_info "execQty";
  fill_price ← getitem order_info "avgExecPrice";
  order_open ← getitem order_info "orderOpen";
  Ok (JDict {[
    "order_id" := order_id;
    "operation" := operation;
    "order_quantity" := order_quantity;
    "filled_quantity" := filled_quantity;
    "fill_price" := fill_price;
    "order_open" := order_open ]}).

(** The loop of [get_order_status], with the [raise] that follows it. *)
Fixpoint scan_status (response : list json) (order_id : string) : result json :=
  match response with
  | [] => Raise OrderNotFoundError
  | item :: rest =>
      ord_id ← getitem item "ordId";
      if eq_str ord_id order_id then getitem item "orderOpen"
      else scan_status rest order_id
  end.

(** *** Positions *)

(** [key.split(';')[1]] *)
Definition symbol_of (key : json) : result string :=
  match key with
  | JStr s => index (split ";" s) 1
  | _ => Raise AttributeError
  end.

Definition position_entry (item : json) : result (string * json) :=
  fin_instrument ← getitem item "finInstrument";
  quote_id_key ← getitem fin_instrument "quoteIdKey";
  symbol ← symbol_of quote_id_key;
  eval ← getitem item "positionEval";
  quantity ← getitem item "quantity";
  cost ← getitem eval "avgCostPrice";
  change ← getitem eval "pnlAmt";
  change_per ← getitem eval "pnlPerc";
  market_val ← getitem eval "marketValueAmt";
  Ok (symbol, JDict {[
    "quantity" := quantity;
    "cost" := cost;
    "change" := change;
    "change_per" := change_per;
    "market_val" := market_val ]}).

(** The [for item in pos_list] loop. *)
Fixpoint fill_positions (pos_list : list json) (return_dict : gmap string json)
  : result (gmap string json) :=
  match pos_list with
  | [] => Ok return_dict
  | item :: rest =>
      '(symbol, entry) ← position_entry item;
      fill_positions rest (<[symbol := entry]> return_dict)
  end.

(** [pos_list]: the position list under the account's own currency. *)
Definition pos_list_of (r : json) : result json :=
  data ← getitem r "data";
  details ← getitem data "accountAssetDetailList";
  response ← getindex details 0;
  account ← getitem response "account";
  currency ← getitem account "acctCurrCd";
  by_currency ← getitem response "assetsDetailByCurrencyList";
  assets ← subscript by_currency currency;
  getitem assets "positionList".

Definition positions_of (pos_list : json) : result (gmap string json) :=
  n ← len pos_list;
  if (n =? 0)%nat then Raise NoPositionsError
  else
    items ← iter pos_list;
    fill_positions items ∅.

(** *** The methods *)

Section Methods.

(** The broker, and the reading of the clock [datetime.today()] returns. *)
Variable server : list request → request → result json.
Variable today : datetime.

Definition get_account_id (currency_type account_type : string) : M json :=
  let currency_type := upper currency_type in
  let account_type := title account_type in
  r ← send server (GET account_url);
  lift (response ← account_list_of r;
        items ← iter response;
        scan_accounts currency_type account_type items).

Definition validate (account_id side : string) (qty : Z) (symbol currency phone : string)
    (limit_price : option Q) (days_till_expiration : Z) : M json :=
  validation_data ←
    lift (validation_data today account_id side qty symbol currency
            limit_price days_till_expiration);
  response ← send server (POST validation_url validation_data);
  lift (order_data_of response phone).

Definition place_market_order (symbol account_id currency side : string) (qty : Z)
    (phone : string) : M json :=
  order_data ← validate account_id side qty symbol currency phone None 0;
  r ← send server (POST order_url order_data);
  lift (order_id_of r).

Definition place_limit_order (symbol account_id currency side : string) (qty : Z)
    (phone : string) (limit_price : Q) (days_till_expiration : Z) : M json :=
  order_data ← validate account_id side qty symbol currency phone
                 (Some limit_price) days_till_expiration;
  r ← send server (POST order_url order_data);
  lift (order_id_of r).

Definition order_list (account_id : string) : M (list json) :=
  r ← send server (GET (orders_url account_id));
  lift (response ← order_list_of r;
        iter response).

Definition get_order (account_id order_id : string) : M json :=
  response ← order_list account_id;
  lift (order_info ← find_order response order_id (JList []);
        n ← len order_info;
        if (n =? 0)%nat then Raise OrderNotFoundError
        else return_dict_of order_info).

Definition get_order_status (account_id order_id : string) : M json :=
  response ← order_list account_id;
  lift (scan_status response order_id).

Definition get_positions (account_id : string) : M (gmap string json) :=
  r ← send server (GET (pos_url account_id));
  lift (pos_list ← pos_list_of r;
        positions_of pos_list).

End Methods.

End NationalBank.
Export NationalBank.

(** ** Vocabulary of the statements

    What the statements below say about a response is phrased over the wire
    contract: which fields an account, a broker message, an order or a
    position carries. *)

Module Contract.

(** The value under a chain of keys. *)
Definition field (path : list string) (x : json) : result json :=
  foldl (λ r key, r ≫= (λ v, getitem v key)) (Ok x) path.

Definition str_field (key : string) (item : json) : option string :=
  match item with
  | JDict d => match d !! key with Some (JStr s) => Some s | _ => None end
  | _ => None
  end.

Definition any_field (key : string) (item : json) : option json :=
  match item with
  | JDict d => d !! key
  | _ => None
  end.

(** An account whose description contains both normalized substrings. *)
Definition described_as (currency_type account_type : string) (item : json) : bool :=
  match str_field "acctTypeDesc" item with
  | Some desc => contains (upper currency_type) desc && contains (title account_type) desc
  | None => false
  end.

(** A broker message, and whether it announces manual processing. *)
Definition well_formed_message (item : json) : Prop :=
  is_Some (str_field "message" item) ∧ is_Some (any_field "msgId" item).

Definition mentions_representative (item : json) : bool :=
  match str_field "message" item with
  | Some message => contains representative_notice message
  | None => false
  end.

Definition message_ids (items : list json) : list json := omap (any_field "msgId") items.

(** An order of the order list carrying the requested id. *)
Definition has_ord_id (order_id : string) (item : json) : bool :=
  match any_field "ordId" item with
  | Some v => eq_str v order_id
  | None => false
  end.

(** A position of the position list, as far as [get_positions] reads it. *)
Record position : Type := {
  quoteIdKey : string;
  quantity : json;
  avgCostPrice : json;
  pnlAmt : json;
  pnlPerc : json;
  marketValueAmt : json
}.

Definition view_position (item : json) : option position :=
  fin_instrument ← any_field "finInstrument" item;
  key ← str_field "quoteIdKey" fin_instrument;
  eval ← any_field "positionEval" item;
  quantity ← any_field "quantity" item;
  cost ← any_field "avgCostPrice" eval;
  change ← any_field "pnlAmt" eval;
  change_per ← any_field "pnlPerc" eval;
  market_val ← any_field "marketValueAmt" eval;
  Some {| quoteIdKey := key; quantity := quantity; avgCostPrice := cost;
          pnlAmt := change; pnlPerc := change_per; marketValueAmt := market_val |}.

(** The second semicolon-delimited field of an instrument key. *)
Definition second_field (key : string) : option string := split ";" key !! 1%nat.

(** What the returned mapping carries for a position. *)
Definition entry_of (p : position) : json :=
  JDict {[
    "quantity" := quantity p;
    "cost" := avgCostPrice p;
    "change" := pnlAmt p;
    "change_per" := pnlPerc p;
    "market_val" := marketValueAmt p ]}.

(** A position of the list together with the symbol its key yields. *)
Definition held_as (item : json) (sp : string * position) : Prop :=
  view_position item = Some sp.2 ∧ second_field (quoteIdKey sp.2) = Some sp.1.

(** A request that submits an order. *)
Definition is_submission (req : request) : bool :=
  match req with
  | POST url _ => String.eqb url order_url
  | _ => false
  end.

(** How a placed order relates to the validation it starts with, from the
    session [log] on: when the validation raised, so does the placement, and
    no submission went out; when it returned [order_data], the session sent
    the validation request and then [order_data] itself to the submission
    endpoint, and the result is the [ordId] of the answer to that. *)
Definition validated_then_submitted (server : list request → request → result json)
    (log : list request) (validated placed : result json * list request) : Prop :=
  match validated with
  | (Raise e, log1) =>
      placed = (Raise e, log1) ∧
      ∃ sent, log1 = (log ++ sent)%list ∧ Forall (λ r, is_submission r = false) sent
  | (Ok order_data, log1) =>
      ∃ req,
        log1 = (log ++ [POST validation_url req])%list ∧
        placed.2 = (log ++ [POST validation_url req; POST order_url order_data])%list ∧
        placed.1 = (r ← server log1 (POST order_url order_data);
                    ord_id ← field ["data"; "stockOrder"; "ordId"] r;
                    Ok (JDict {[ "order_id" := ord_id ]}))
  end.

End Contract.
Export Contract.

(** ** A broker to run the client against

    A small broker with one portfolio, two orders and three positions, two of
    them in the same instrument.  It echoes the order of a validation request
    back together with the messages it is configured with. *)

Module Fixture.

Definition tuesday : datetime := {| toordinal := 739923; time_of_day := 0 |}.

Definition message (msg_id text : string) : json :=
  JDict {[ "msgId" := JStr msg_id; "message" := JStr text ]}.

Definition account (description number : string) : json :=
  JDict {[ "acctTypeDesc" := JStr description; "acctNo" := JStr number ]}.

Definition order (ord_id operation : string) (filled : Z) (open : bool) : json :=
  JDict {[
    "ordId" := JStr ord_id;
    "operation" := JStr operation;
    "ordQty" := JInt 10;
    "execQty" := JInt filled;
    "avgExecPrice" := JFloat (5 # 2);
    "orderOpen" := JBool open ]}.

Definition holding (key : string) (qty : Z) (cost : Q) : json :=
  JDict {[
    "finInstrument" := JDict {[ "quoteIdKey" := JStr key ]};
    "quantity" := JInt qty;
    "positionEval" := JDict {[
      "avgCostPrice" := JFloat cost;
      "pnlAmt" := JFloat (1 # 2);
      "pnlPerc" := JFloat (1 # 10);
      "marketValueAmt" := JFloat (7 # 1) ]} ]}.

Definition accounts : list json :=
  [account "Cash CAD" "A1"; account "Cash USD" "A2"; account "Margin USD" "A3"].

Definition orders : list json :=
  [order "O7" "BUY" 0 true; order "O8" "SELL" 10 false; order "O8" "BUY" 3 true].

Definition holdings : list json :=
  [holding "AC;AAPL;USA;" 5 (3 # 1); holding "AC;RY;CAN;" 2 (9 # 1);
   holding "AC;AAPL;USA;" 8 (4 # 1)].

Definition echoed (body : json) : json :=
  match getitem body "stockOrder" with
  | Ok stock_order => stock_order
  | Raise _ => JNull
  end.

Definition broker (messages : list json) (log : list request) (req : request)
  : result json :=
  match req with
  | GET url =>
      if String.eqb url account_url then
        Ok (JDict {[ "data" := JList [JDict {[ "accountList" := JList accounts ]}] ]})
      else if String.eqb url (orders_url "A2") then
        Ok (JDict {[ "data" := JDict {[ "orderList" := JList orders ]} ]})
      else if String.eqb url (pos_url "A2") then
        Ok (JDict {[ "data" := JDict {[ "accountAssetDetailList" := JList [JDict {[
              "account" := JDict {[ "acctCurrCd" := JStr "USD" ]};
              "assetsDetailByCurrencyList" := JDict {[
                "USD" := JDict {[ "positionList" := JList holdings ]};
                "CAD" := JDict {[ "positionList" := JList [] ]} ]} ]}] ]} ]})
      else if String.eqb url (pos_url "A1") then
        Ok (JDict {[ "data" := JDict {[ "accountAssetDetailList" := JList [JDict {[
              "account" := JDict {[ "acctCurrCd" := JStr "CAD" ]};
              "assetsDetailByCurrencyList" := JDict {[
                "CAD" := JDict {[ "positionList" := JList [] ]} ]} ]}] ]} ]})
      else Raise (TransportError "404")
  | POST url body =>
      if String.eqb url validation_url then
        Ok (JDict {[ "data" := JDict {[ "stockOrder" := echoed body ]};
                     "messageList" := JList messages ]})
      else if String.eqb url order_url then
        Ok (JDict {[ "data" := JDict {[ "stockOrder" := JDict {[ "ordId" := JStr "O9" ]} ]} ]})
      else Raise (TransportError "404")
  | DELETE _ => Ok JNull
  end.

(** What [get_positions] reads of [holding key qty cost]. *)
Definition held (key : string) (qty : Z) (cost : Q) : position :=
  {| quoteIdKey := key; quantity := JInt qty; avgCostPrice := JFloat cost;
     pnlAmt := JFloat (1 # 2); pnlPerc := JFloat (1 # 10);
     marketValueAmt := JFloat (7 # 1) |}.

Definition views : list (string * position) :=
  [("AAPL", held "AC;AAPL;USA;" 5 (3 # 1)); ("RY", held "AC;RY;CAN;" 2 (9 # 1));
   ("AAPL", held "AC;AAPL;USA;" 8 (4 # 1))].

Definition slow_market : json := message "W1" "The market is closed".
Definition odd_lot : json := message "W3" "Odd lot order".
Definition manual_review : json :=
  message "W2" "Please note that your order will be processed by one of our representatives.".

(** The value of a computation that is known to return. *)
Definition returned {A} (default : A) (r : result A) : A :=
  match r with
  | Ok a => a
  | Raise _ => default
  end.

End Fixture.

(** ** The other methods

    The queries that read one answer ([get_quote], [get_account_balance],
    [get_latest_order]) and [cancel_order].  For a [DELETE] the answer is
    never decoded, so there the broker raises only what the transport
    raises. *)

Module Queries.

Definition quote_url : string :=
  "https://orion-api.bnc.ca/orion-api/v1/1/quotes/realtime/?ids=".

(** [to_add]: the instrument key, which is also the key of the answer. *)
Definition quote_key (ticker market : string) : string :=
  "AC;" +:+ ticker +:+ ";" +:+ market +:+ ";".

Definition cancel_url (order_id : string) : string :=
  "https://orion-api.bnc.ca/orion-api/v1/1/stock-orders/" +:+ order_id.

Definition quote_of (to_add : string) (r : json) : result json :=
  data ← getitem r "data";
  instrument ← getitem data to_add;
  response ← getitem instrument "finInstrumentPrice";
  bid ← getitem response "bidPrice";
  ask ← getitem response "askPrice";
  Ok (JDict {[ "bid" := bid; "ask" := ask ]}).

Definition balance_of (r : json) : result json :=
  data ← getitem r "data";
  details ← getitem data "accountAssetDetailList";
  response ← getindex details 0;
  account ← getitem response "account";
  currency ← getitem account "acctCurrCd";
  by_currency ← getitem response "assetsDetailByCurrencyList";
  assets ← subscript by_currency currency;
  getitem assets "cashAmt".

Definition latest_of (order_info : json) : result json :=
  n ← len order_info;
  if (n =? 0)%nat then Raise OrderNotFoundError
  else
    order_info ← getindex order_info 0;
    return_dict_of order_info.

Section Methods.

Variable server : list request → request → result json.

Definition get_quote (ticker market : string) : M json :=
  let to_add := quote_key ticker market in
  r ← send server (GET (quote_url +:+ to_add));
  lift (quote_of to_add r).

Definition get_account_balance (account_id : string) : M json :=
  r ← send server (GET (pos_url account_id));
  lift (balance_of r).

Definition get_latest_order (account_id : string) : M json :=
  r ← send server (GET (orders_url account_id));
  lift (order_info ← order_list_of r;
        latest_of order_info).

Definition cancel_order (order_id : string) : M json :=
  _ ← send server (DELETE (cancel_url order_id));
  mret JNull.

End Methods.

End Queries.
Export Queries.

(** ** Logging in

    The object itself: its attributes, and the session [login] builds.  Of a
    session the headers are kept, under the names the client writes them
    with; its cookies are the broker's business.  [login] runs on a new
    [CloudScraper], whose headers are whatever the library chose, and reads
    two things off the broker: whether it accepted the credentials
    ([response.ok]) and the answer of the token endpoint. *)

Module Login.

Definition login_url : string := "https://orion-api.bnc.ca/sso-api/api/session".
Definition token_url : string := "https://orion-api.bnc.ca/sso-api/api/access-token".

Definition AuthenticationError : exn :=
  Exception "Error! Unable To Log Into National Bank Direct Brokerage.".

Record scraper : Type := { headers : gmap string string }.

(** [session.headers.update({name: value})] *)
Definition update_header (name value : string) (s : scraper) : scraper :=
  {| headers := <[name := value]> (headers s) |}.

(** [self]: an attribute that was never assigned is [None]. *)
Record client : Type := {
  user : string;
  passw : string;
  token : option json;
  session : option scraper
}.

Definition set_token (t : json) (self : client) : client :=
  {| user := user self; passw := passw self; token := Some t; session := session self |}.

Definition set_session (s : scraper) (self : client) : client :=
  {| user := user self; passw := passw self; token := token self; session := Some s |}.

(** A method of the object: from [self] and the requests sent so far to a
    result, [self] as the method left it and the requests sent. *)
Definition Obj (A : Type) : Type := client → list request → result A * client * list request.

Definition login_data (self : client) : json :=
  JDict {[
    "userid" := JStr (user self);
    "password" := JStr (passw self);
    "siteCode" := JStr "CEBN" ]}.

Definition access_token_of (r : json) : result json :=
  data ← getitem r "data";
  getitem data "accessToken".

Section Methods.

(** [response.ok] of a request, or what the transport raised; the decoded
    answers; the session [CloudScraper()] returns; and [str()] of a decoded
    value, as the f-string of the [Authorization] header applies it. *)
Variable status : list request → request → result bool.
Variable server : list request → request → result json.
Variable fresh : scraper.
Variable str_of : json → string.

Definition login : Obj scraper := λ self log,
  let session := update_header "Content-Type" "application/json" fresh in
  let post := POST login_url (login_data self) in
  let log1 := (log ++ [post])%list in
  match status log post with
  | Raise e => (Raise e, self, log1)
  | Ok ok =>
      if negb ok then (Raise AuthenticationError, self, log1)
      else
        let log2 := (log1 ++ [GET token_url])%list in
        match server log1 (GET token_url) ≫= access_token_of with
        | Raise e => (Raise e, self, log2)
        | Ok t =>
            let self := set_token t self in
            let session := update_header "Authorization" ("Bearer " +:+ str_of t) session in
            (Ok session, self, log2)
        end
  end.

Definition update_session : Obj json := λ self log,
  match login self log with
  | (Ok s, self, log) => (Ok JNull, set_session s self, log)
  | (Raise e, self, log) => (Raise e, self, log)
  end.

(** [NationalBank(user, passw)]: the object, if the constructor returns. *)
Definition __init__ (user passw : string) : list request → result client * list request :=
  λ log,
    let self := {| user := user; passw := passw; token := None; session := None |} in
    match login self log with
    | (Ok s, self, log) => (Ok (set_session s self), log)
    | (Raise e, _, log) => (Raise e, log)
    end.

End Methods.

End Login.
Export Login.

(** ** Further vocabulary and a second broker *)

Module Terms.

(** The block of an assets answer under the account's own currency. *)
Definition native_block (r : json) : result json :=
  data ← getitem r "data";
  details ← getitem data "accountAssetDetailList";
  response ← getindex details 0;
  account ← getitem response "account";
  currency ← getitem account "acctCurrCd";
  by_currency ← getitem response "assetsDetailByCurrencyList";
  subscript by_currency currency.

(** The object holds a session, and the token it holds is the one that
    session presents. *)
Definition authenticated (str_of : json → string) (self : client) : Prop :=
  ∃ t s,
    token self = Some t ∧ session self = Some s ∧
    headers s !! "Authorization" = Some ("Bearer " +:+ str_of t).

(** The requests of a list that submit an order. *)
Definition submissions (sent : list request) : list request :=
  List.filter is_submission sent.

(** No semicolon in a ticker. *)
Fixpoint plain (s : string) : bool :=
  match s with
  | EmptyString => true
  | String c s' => negb (Ascii.eqb c ";") && plain s'
  end.

(** A lower-case letter somewhere in a string. *)
Fixpoint has_lower (s : string) : bool :=
  match s with
  | EmptyString => false
  | String c s' => is_lower c || has_lower s'
  end.

End Terms.
Export Terms.

Module Desk.

Definition quote (bid ask : Q) : json :=
  JDict {[ "finInstrumentPrice" := JDict {[ "bidPrice" := JFloat bid; "askPrice" := JFloat ask ]} ]}.

Definition assets (cash : Q) : json :=
  JDict {[ "data" := JDict {[ "accountAssetDetailList" := JList [JDict {[
    "account" := JDict {[ "acctCurrCd" := JStr "CAD" ]};
    "assetsDetailByCurrencyList" := JDict {[
      "CAD" := JDict {[ "cashAmt" := JFloat cash; "positionList" := JList [] ]};
      "USD" := JDict {[ "cashAmt" := JFloat 0;
                         "positionList" := JList Fixture.holdings ]} ]} ]}] ]} ]}.

(** A position whose instrument key has a single field. *)
Definition stray : json := Fixture.holding "AAPL" 1 (1 # 1).

(** An order the broker lists without its fill price. *)
Definition unpriced : json :=
  JDict {[
    "ordId" := JStr "O5";
    "operation" := JStr "BUY";
    "ordQty" := JInt 10;
    "execQty" := JInt 0;
    "orderOpen" := JBool true ]}.

Definition desk (log : list request) (req : request) : result json :=
  match req with
  | GET url =>
      if String.eqb url (quote_url +:+ quote_key "AAPL" "USA") then
        Ok (JDict {[ "data" := JDict {[
              quote_key "AAPL" "USA" := quote (3 # 2) (8 # 5);
              quote_key "RY" "CAN" := quote (9 # 1) (10 # 1) ]} ]})
      else if String.eqb url token_url then
        Ok (JDict {[ "data" := JDict {[ "accessToken" := JStr "T0K" ]} ]})
      else if String.eqb url (pos_url "A1") then Ok (assets (25 # 1))
      else if String.eqb url (pos_url "A3") then
        Ok (JDict {[ "data" := JDict {[ "accountAssetDetailList" := JList [JDict {[
              "account" := JDict {[ "acctCurrCd" := JStr "USD" ]};
              "assetsDetailByCurrencyList" := JDict {[
                "USD" := JDict {[ "positionList" :=
                  JList [Fixture.holding "AC;RY;CAN;" 2 (9 # 1); stray] ]} ]} ]}] ]} ]})
      else if String.eqb url (orders_url "A3") then
        Ok (JDict {[ "data" := JDict {[ "orderList" :=
              JList [unpriced; Fixture.order "O5" "BUY" 0 true] ]} ]})
      else if String.eqb url (orders_url "A1") then
        Ok (JDict {[ "data" := JDict {[ "orderList" := JList [] ]} ]})
      else if String.eqb url account_url then
        Ok (JDict {[ "data" := JList [JDict {[ "accountList" := JList [
              Fixture.account "Cash CAD" "A1";
              JDict {[ "acctTypeDesc" := JStr "Cash USD" ]};
              Fixture.account "Cash USD" "A2" ] ]}] ]})
      else Fixture.broker [] log req
  | _ => Fixture.broker [] log req
  end.

(** The broker's door: the credentials are accepted when the password is
    the one given. *)
Definition doorman (password : string) (log : list request) (req : request) : result bool :=
  match req with
  | POST url body =>
      Ok (String.eqb url login_url && is_ok (getitem body "password")
          && is_str password (Fixture.returned JNull (getitem body "password")))
  | _ => Ok true
  end.

Definition chrome : scraper := {| headers := {[ "User-Agent" := "Mozilla/5.0" ]} |}.

(** [str()] where the runs below need it: on a [str]. *)
Definition text (x : json) : string :=
  match x with
  | JStr s => s
  | _ => ""
  end.

End Desk.

(** * Properties *)

(** ** The result and session monads *)

Section Monads.

Context {A B : Type}.

Lemma bind_ok (r : result A) (k : A → result B) (b : B) :
  r ≫= k = Ok b ↔ ∃ a, r = Ok a ∧ k a = Ok b.
Proof.
  destruct r as [a|e]; cbn.
  - split; [eauto|]. intros (a' & [= <-] & Hk). exact Hk.
  - split; [discriminate|]. intros (a' & Hr & _). discriminate.
Qed.

End Monads.

(** ** The calendar *)

Section CalendarFacts.

Lemma month_day_table (leapyear : bool) (n : Z) :
  0 <= n < 365 + b2z leapyear → month_day_ok leapyear n = true.
Proof.
  intros Hn.
  assert (Hall : forallb (λ k, month_day_ok true (Z.of_nat k)
                               && month_day_ok false (Z.of_nat k))
                   (List.seq 0 366) = true) by (vm_compute; reflexivity).
  rewrite forallb_forall in Hall.
  specialize (Hall (Z.to_nat n)).
  rewrite Z2Nat.id in Hall by lia.
  assert (Hin : In (Z.to_nat n) (List.seq 0 366)).
  { apply in_seq. destruct leapyear; simpl in Hn; lia. }
  apply Hall in Hin. apply andb_prop in Hin as [Ht Hf].
  destruct leapyear; [exact Ht|].
  exact Hf.
Qed.

Lemma days_before_year_decomp (a b c e : Z) :
  0 <= b <= 3 → 0 <= c <= 24 → 0 <= e <= 3 →
  days_before_year (400 * a + 100 * b + 4 * c + e + 1)
  = 146097 * a + 36524 * b + 1461 * c + 365 * e.
Proof.
  intros Hb Hc He. unfold days_before_year.
  replace (400 * a + 100 * b + 4 * c + e + 1 - 1)
    with (400 * a + 100 * b + 4 * c + e) by ring.
  cbv zeta.
  Z.div_mod_to_equations. lia.
Qed.

Lemma is_leap_decomp (a b c e : Z) :
  0 <= b <= 3 → 0 <= c <= 24 → 0 <= e <= 3 →
  is_leap (400 * a + 100 * b + 4 * c + e + 1)
  = (e =? 3) && (negb (c =? 24) || (b =? 3)).
Proof.
  intros Hb Hc He. unfold is_leap.
  repeat match goal with
         | |- context [?x =? ?y] => destruct (Z.eqb_spec x y)
         end; cbn; try reflexivity; exfalso; Z.div_mod_to_equations; lia.
Qed.

(** [fromordinal] loses nothing: the civil date [ord2ymd] yields has the
    ordinal it came from. *)
Lemma ymd2ord_ord2ymd (n : Z) :
  1 <= n → let '(year, month, day) := ord2ymd n in ymd2ord year month day = n.
Proof.
  intros Hn. unfold ord2ymd.
  set (n0 := n - 1).
  set (n400 := n0 / 146097). set (r1 := n0 mod 146097).
  set (n100 := r1 / 36524). set (r2 := r1 mod 36524).
  set (n4 := r2 / 1461). set (r3 := r2 mod 1461).
  set (n1 := r3 / 365). set (r := r3 mod 365).
  assert (H0 : n0 = 146097 * n400 + r1 ∧ 0 <= r1 < 146097)
    by (subst n400 r1; split; [apply Z.div_mod; lia | apply Z.mod_pos_bound; lia]).
  assert (H1 : r1 = 36524 * n100 + r2 ∧ 0 <= r2 < 36524)
    by (subst n100 r2; split; [apply Z.div_mod; lia | apply Z.mod_pos_bound; lia]).
  assert (H2 : r2 = 1461 * n4 + r3 ∧ 0 <= r3 < 1461)
    by (subst n4 r3; split; [apply Z.div_mod; lia | apply Z.mod_pos_bound; lia]).
  assert (H3 : r3 = 365 * n1 + r ∧ 0 <= r < 365)
    by (subst n1 r; split; [apply Z.div_mod; lia | apply Z.mod_pos_bound; lia]).
  assert (Hn100 : 0 <= n100) by (subst n100; apply Z.div_pos; lia).
  assert (Hn4 : 0 <= n4) by (subst n4; apply Z.div_pos; lia).
  assert (Hn1 : 0 <= n1) by (subst n1; apply Z.div_pos; lia).
  clearbody n400 r1 n100 r2 n4 r3 n1 r. subst n0.
  destruct (Z.eqb_spec n1 4) as [E1|E1]; [|destruct (Z.eqb_spec n100 4) as [E100|E100]];
    cbn [orb].
  - (* the last day of a leap year that closes a 4-year cycle *)
    unfold ymd2ord, days_before_month.
    assert (Hyear : n400 * 400 + 1 + (n100 * 100 + n4 * 4 + n1) - 1
                    = 400 * n400 + 100 * n100 + 4 * n4 + 3 + 1) by lia.
    rewrite Hyear, days_before_year_decomp, is_leap_decomp by lia.
    change (nth (Z.to_nat 12) DAYS_BEFORE_MONTH 0) with 334.
    destruct (Z.eqb_spec n4 24); [lia|].
    cbn [Z.ltb Z.eqb Z.compare Pos.compare Pos.compare_cont Pos.eqb andb orb negb b2z].
    lia.
  - (* the last day of a 400-year cycle *)
    unfold ymd2ord, days_before_month.
    assert (Hyear : n400 * 400 + 1 + (n100 * 100 + n4 * 4 + n1) - 1
                    = 400 * n400 + 100 * 3 + 4 * 24 + 3 + 1) by lia.
    rewrite Hyear, days_before_year_decomp, is_leap_decomp by lia.
    change (nth (Z.to_nat 12) DAYS_BEFORE_MONTH 0) with 334.
    cbn [Z.ltb Z.eqb Z.compare Pos.compare Pos.compare_cont Pos.eqb andb orb negb b2z].
    lia.
  - set (leapyear := (n1 =? 3) && (negb (n4 =? 24) || (n100 =? 3))).
    assert (Hr : 0 <= r < 365 + b2z leapyear) by (destruct leapyear; cbn; lia).
    pose proof (month_day_table leapyear r Hr) as Hmd.
    unfold month_day_ok in Hmd.
    assert (Hyear : n400 * 400 + 1 + (n100 * 100 + n4 * 4 + n1)
                    = 400 * n400 + 100 * n100 + 4 * n4 + n1 + 1) by ring.
    rewrite Hyear.
    assert (Hleap : is_leap (400 * n400 + 100 * n100 + 4 * n4 + n1 + 1) = leapyear)
      by (apply is_leap_decomp; lia).
    assert (Hdby : days_before_year (400 * n400 + 100 * n100 + 4 * n4 + n1 + 1) + r + 1 = n)
      by (rewrite days_before_year_decomp; lia).
    destruct (r <? _); cbv beta iota zeta in Hmd |- *;
      rewrite !andb_true_iff in Hmd; destruct Hmd as [[[Hlo Hhi] Hp] Hd];
      unfold ymd2ord, days_before_month; rewrite Hleap;
      apply Z.eqb_eq in Hp; lia.
Qed.

Lemma month_end_table (leapyear : bool) (n : Z) :
  0 <= n < 365 + b2z leapyear → month_end_ok leapyear n = true.
Proof.
  intros Hn.
  assert (Hall : forallb (λ k, month_end_ok leapyear (Z.of_nat k))
                   (List.seq 0 (365 + Z.to_nat (b2z leapyear))) = true)
    by (destruct leapyear; vm_compute; reflexivity).
  rewrite forallb_forall in Hall.
  specialize (Hall (Z.to_nat n)).
  rewrite Z2Nat.id in Hall by lia.
  apply Hall, in_seq. destruct leapyear; simpl in Hn |- *; lia.
Qed.

Lemma days_in_month_table (year month : Z) :
  nth (Z.to_nat month) DAYS_IN_MONTH 0 + b2z ((month =? 2) && is_leap year)
  = days_in_month year month.
Proof.
  unfold days_in_month. destruct (Z.eqb_spec month 2) as [->|_]; cbn [andb b2z]; [|lia].
  destruct (is_leap year); reflexivity.
Qed.

(** [fromordinal] yields a date: a year from 1 to 9999, a month from 1 to
    12 and a day of that month. *)
Lemma ord2ymd_is_date (n : Z) :
  1 <= n <= MAXORDINAL → let '(year, month, day) := ord2ymd n in is_date year month day.
Proof.
  intros Hn. unfold MAXORDINAL in Hn. unfold ord2ymd.
  set (n0 := n - 1).
  set (n400 := n0 / 146097). set (r1 := n0 mod 146097).
  set (n100 := r1 / 36524). set (r2 := r1 mod 36524).
  set (n4 := r2 / 1461). set (r3 := r2 mod 1461).
  set (n1 := r3 / 365). set (r := r3 mod 365).
  assert (H0 : n0 = 146097 * n400 + r1 ∧ 0 <= r1 < 146097)
    by (subst n400 r1; split; [apply Z.div_mod; lia | apply Z.mod_pos_bound; lia]).
  assert (H1 : r1 = 36524 * n100 + r2 ∧ 0 <= r2 < 36524)
    by (subst n100 r2; split; [apply Z.div_mod; lia | apply Z.mod_pos_bound; lia]).
  assert (H2 : r2 = 1461 * n4 + r3 ∧ 0 <= r3 < 1461)
    by (subst n4 r3; split; [apply Z.div_mod; lia | apply Z.mod_pos_bound; lia]).
  assert (H3 : r3 = 365 * n1 + r ∧ 0 <= r < 365)
    by (subst n1 r; split; [apply Z.div_mod; lia | apply Z.mod_pos_bound; lia]).
  assert (Hn400 : 0 <= n400) by (subst n400; apply Z.div_pos; lia).
  assert (Hn100 : 0 <= n100) by (subst n100; apply Z.div_pos; lia).
  assert (Hn4 : 0 <= n4) by (subst n4; apply Z.div_pos; lia).
  assert (Hn1 : 0 <= n1) by (subst n1; apply Z.div_pos; lia).
  assert (Hn0 : n0 = n - 1) by reflexivity.
  clearbody n0 n400 r1 n100 r2 n4 r3 n1 r.
  assert (Hyear : 1 <= n400 * 400 + 1 + (n100 * 100 + n4 * 4 + n1) - b2z ((n1 =? 4) || (n100 =? 4))
                  <= 9999).
  { assert (n400 <= 24) by lia. assert (n100 <= 4) by lia.
    assert (n4 <= 24) by lia. assert (n1 <= 4) by lia.
    assert (n400 = 24 → n100 <= 3) by lia.
    assert (n400 = 24 → n100 = 3 → n4 = 24 → n1 <= 2) by lia.
    destruct (Z.eqb_spec n1 4); [|destruct (Z.eqb_spec n100 4)]; cbn [orb b2z]; lia. }
  destruct (Z.eqb_spec n1 4) as [E1|E1]; [|destruct (Z.eqb_spec n100 4) as [E100|E100]];
    cbn [orb b2z] in Hyear |- *.
  - unfold is_date, days_in_month. change (12 =? 2) with false. cbn [andb].
    change (nth (Z.to_nat 12) DAYS_IN_MONTH 0) with 31. lia.
  - unfold is_date, days_in_month. change (12 =? 2) with false. cbn [andb].
    change (nth (Z.to_nat 12) DAYS_IN_MONTH 0) with 31. lia.
  - set (leapyear := (n1 =? 3) && (negb (n4 =? 24) || (n100 =? 3))).
    assert (Hr : 0 <= r < 365 + b2z leapyear) by (destruct leapyear; cbn; lia).
    pose proof (month_day_table leapyear r Hr) as Hmd.
    pose proof (month_end_table leapyear r Hr) as Hme.
    unfold month_day_ok in Hmd. unfold month_end_ok in Hme.
    assert (Hy : n400 * 400 + 1 + (n100 * 100 + n4 * 4 + n1)
                 = 400 * n400 + 100 * n100 + 4 * n4 + n1 + 1) by ring.
    assert (Hleap : is_leap (n400 * 400 + 1 + (n100 * 100 + n4 * 4 + n1)) = leapyear)
      by (rewrite Hy; apply is_leap_decomp; lia).
    unfold is_date.
    destruct (r <? _); cbv beta iota zeta in Hmd, Hme |- *;
      rewrite !andb_true_iff in Hmd; destruct Hmd as [[[Hlo Hhi] Hp] Hd];
      rewrite <- days_in_month_table, Hleap;
      apply Z.leb_le in Hme; lia.
Qed.

Lemma days_in_month_le_31 (year month : Z) :
  1 <= month <= 12 → 28 <= days_in_month year month <= 31.
Proof.
  intros Hm. unfold days_in_month.
  destruct ((month =? 2) && is_leap year); [lia|].
  assert (Hall : forallb (λ k, (28 <=? nth k DAYS_IN_MONTH 0) && (nth k DAYS_IN_MONTH 0 <=? 31))
                   (List.seq 1 12) = true) by (vm_compute; reflexivity).
  rewrite forallb_forall in Hall. specialize (Hall (Z.to_nat month)).
  rewrite andb_true_iff, Z.leb_le, Z.leb_le in Hall. apply Hall, in_seq. lia.
Qed.

Lemma length_append (s t : string) :
  String.length (s +:+ t) = (String.length s + String.length t)%nat.
Proof. induction s as [|c s IH]; simpl; [reflexivity|]. by f_equal. Qed.

Lemma str_of_int_length_4 (n : Z) :
  1000 <= n <= 9999 → String.length (str_of_int n) = 4%nat.
Proof.
  intros Hn.
  assert (Hall : forallb (λ k, forallb (λ j,
                     Nat.eqb (String.length (str_of_int (Z.of_nat (1000 + 100 * k + j)))) 4)
                   (List.seq 0 100)) (List.seq 0 90) = true) by (vm_compute; reflexivity).
  rewrite forallb_forall in Hall.
  specialize (Hall (Z.to_nat ((n - 1000) / 100))).
  rewrite forallb_forall in Hall.
  specialize (Hall ltac:(apply in_seq; Z.div_mod_to_equations; lia)
                (Z.to_nat ((n - 1000) mod 100))
                ltac:(apply in_seq; Z.div_mod_to_equations; lia)).
  apply Nat.eqb_eq in Hall. rewrite <- Hall. do 2 f_equal.
  Z.div_mod_to_equations. lia.
Qed.

Lemma digits_2_length (n : Z) :
  0 <= n <= 99 → String.length (digits 2 n) = 2%nat.
Proof.
  intros Hn.
  assert (Hall : forallb (λ k, Nat.eqb (String.length (digits 2 (Z.of_nat k))) 2)
                   (List.seq 0 100) = true) by (vm_compute; reflexivity).
  rewrite forallb_forall in Hall. specialize (Hall (Z.to_nat n)).
  rewrite Z2Nat.id in Hall by lia. apply Nat.eqb_eq, Hall, in_seq. lia.
Qed.

(** From year 1000 on the text of a date is [YYYY-MM-DD], ten characters. *)
Lemma strftime_ymd_length (dt : datetime) :
  valid dt →
  let '(year, _, _) := ord2ymd (toordinal dt) in
  1000 <= year → String.length (strftime_ymd dt) = 10%nat.
Proof.
  intros Hdt. pose proof (ord2ymd_is_date (toordinal dt) Hdt) as Hdate.
  unfold strftime_ymd. destruct (ord2ymd (toordinal dt)) as [[year month] day].
  destruct Hdate as (Hy & Hm & Hd). intros Hyear.
  pose proof (days_in_month_le_31 year month Hm).
  rewrite !length_append, str_of_int_length_4, !digits_2_length by lia.
  reflexivity.
Qed.

Lemma weekday_ymd_ord2ymd (dt : datetime) :
  1 <= toordinal dt →
  let '(year, month, day) := ord2ymd (toordinal dt) in
  weekday_ymd year month day = weekday dt.
Proof.
  intros H. pose proof (ymd2ord_ord2ymd (toordinal dt) H) as Hrt.
  destruct (ord2ymd (toordinal dt)) as [[year month] day].
  unfold weekday_ymd, weekday. by rewrite Hrt.
Qed.

Lemma add_days_in_range (dt : datetime) (n : Z) :
  valid dt →
  1 <= toordinal dt + n <= MAXORDINAL →
  add_days dt n = Ok {| toordinal := toordinal dt + n; time_of_day := time_of_day dt |}.
Proof.
  intros Hdt H. unfold valid in Hdt. unfold add_days.
  destruct (Z.leb_spec (Z.abs n) 999999999); [|unfold MAXORDINAL in *; lia].
  destruct (Z.ltb_spec 0 (toordinal dt + n)); [|lia].
  destruct (Z.leb_spec (toordinal dt + n) MAXORDINAL); [|lia].
  reflexivity.
Qed.

Lemma add_days_overflow (dt : datetime) (n : Z) :
  MAXORDINAL < toordinal dt + n → add_days dt n = Raise OverflowError.
Proof.
  intros H. unfold add_days. destruct (Z.abs n <=? 999999999); [|reflexivity].
  destruct (Z.leb_spec (toordinal dt + n) MAXORDINAL); [lia|].
  by rewrite andb_false_r.
Qed.

End CalendarFacts.

(** ** validate *)

Section Validate.

Variable server : list request → request → result json.
Variable today : datetime.

(** [validate] sends at most one request, the validation request, and what
    it returns is read off the answer. *)
Lemma validate_run (account_id side : string) (qty : Z) (symbol currency phone : string)
    (limit_price : option Q) (days_till_expiration : Z) (log : list request) :
  validate server today account_id side qty symbol currency phone limit_price
    days_till_expiration log
  = match validation_data today account_id side qty symbol currency limit_price
            days_till_expiration with
    | Raise e => (Raise e, log)
    | Ok req =>
        (server log (POST validation_url req) ≫= (λ response, order_data_of response phone),
         (log ++ [POST validation_url req])%list)
    end.
Proof.
  unfold validate, mbind, M_bind, lift, send.
  destruct (validation_data _ _ _ _ _ _ _ _) as [req|e]; [|reflexivity].
  destruct (server log (POST validation_url req)) as [response|e]; [|reflexivity].
  cbn. by destruct (order_data_of response phone).
Qed.

Lemma validation_data_inv (account_id side : string) (qty : Z) (symbol currency : string)
    (limit_price : option Q) (days_till_expiration : Z) (req : json) :
  validation_data today account_id side qty symbol currency limit_price
    days_till_expiration = Ok req →
  ∃ expiry expiry_date country,
    expiry_of today days_till_expiration = Ok (expiry, expiry_date) ∧
    country_of (upper currency) = Some country ∧
    field ["stockOrder"; "acctNo"] req = Ok (JStr account_id) ∧
    field ["stockOrder"; "operation"] req = Ok (JStr (upper side)) ∧
    field ["stockOrder"; "ordQty"] req = Ok (JStr (str_of_int qty)) ∧
    field ["stockOrder"; "expiry"] req = Ok (JStr expiry) ∧
    field ["stockOrder"; "expiryDt"] req = Ok expiry_date ∧
    field ["stockOrder"; "phone"] req = Ok (JStr "000-000-0000") ∧
    field ["stockOrder"; "finInstrument"; "marketSymbol"; "symbolCd"] req
    = Ok (JStr (upper symbol)) ∧
    field ["stockOrder"; "finInstrument"; "marketSymbol"; "symbolCurrCd"] req
    = Ok (JStr (upper currency)) ∧
    field ["stockOrder"; "finInstrument"; "marketSymbol"; "symbolCntryCd"] req
    = Ok (JStr country) ∧
    field ["stockOrder"; "limitPrice"] req = Ok (of_option limit_price) ∧
    field ["stockOrder"; "priceType"] req = Ok (JStr (price_type limit_price)) ∧
    field ["mode"] req = Ok (JStr "INSERT").
Proof.
  unfold validation_data. intros H.
  destruct (expiry_of today days_till_expiration) as [[expiry expiry_date]|e]; [|discriminate].
  destruct (country_of (upper currency)) as [country|]; [|discriminate].
  cbn in H. injection H as <-.
  exists expiry, expiry_date, country.
  split; [reflexivity|]. split; [reflexivity|].
  unfold field, getitem, subscript. cbn [foldl mbind result_bind].
  repeat split; simplify_map_eq; reflexivity.
Qed.

Lemma expiry_of_day (days_till_expiration : Z) (expiry : string) (expiry_date : json) :
  expiry_of today days_till_expiration = Ok (expiry, expiry_date) →
  (days_till_expiration = 0 ∧ expiry = "DAY" ∧ expiry_date = JNull)
  ∨ (days_till_expiration ≠ 0 ∧ expiry = "DATE" ∧ ∃ text, expiry_date = JStr text).
Proof.
  unfold expiry_of. destruct (Z.eqb_spec days_till_expiration 0) as [Hd|Hd].
  - intros [= <- <-]. by left.
  - intros H. apply bind_ok in H as (dt & _ & [= <- <-]). right. eauto.
Qed.

(** C7.  The request is determined by the arguments: side, symbol and
    currency upper-cased, each for an argument of ASCII characters, where
    [upper] is [str.upper]; the quantity as its decimal text, price type
    [SPECIFIC] exactly with a limit price and [MARKET] exactly without,
    expiry [DAY] and no expiry date exactly when the offset is 0.  The call
    [validate(acct, "buy", 10, "aapl", "usd", phone)] sends side [BUY],
    quantity ["10"], symbol [AAPL], country [USA], price type [MARKET] and
    expiry [DAY]. *)
Theorem validation_data_fields :
  (∀ (account_id side : string) (qty : Z) (symbol currency : string)
     (limit_price : option Q) (days_till_expiration : Z) (req : json),
     validation_data today account_id side qty symbol currency limit_price
       days_till_expiration = Ok req →
     (isascii side = true →
      field ["stockOrder"; "operation"] req = Ok (JStr (upper side))) ∧
     field ["stockOrder"; "ordQty"] req = Ok (JStr (str_of_int qty)) ∧
     (isascii symbol = true →
      field ["stockOrder"; "finInstrument"; "marketSymbol"; "symbolCd"] req
      = Ok (JStr (upper symbol))) ∧
     (isascii currency = true →
      field ["stockOrder"; "finInstrument"; "marketSymbol"; "symbolCurrCd"] req
      = Ok (JStr (upper currency))) ∧
     (field ["stockOrder"; "priceType"] req = Ok (JStr "SPECIFIC") ↔ is_Some limit_price) ∧
     (field ["stockOrder"; "priceType"] req = Ok (JStr "MARKET") ↔ limit_price = None) ∧
     (field ["stockOrder"; "expiry"] req = Ok (JStr "DAY")
      ∧ field ["stockOrder"; "expiryDt"] req = Ok JNull
      ↔ days_till_expiration = 0))
  ∧
  (∀ (account_id phone : string) (log : list request),
     ∃ req,
       validation_data today account_id "buy" 10 "aapl" "usd" None 0 = Ok req ∧
       (validate server today account_id "buy" 10 "aapl" "usd" phone None 0 log).2
       = (log ++ [POST validation_url req])%list ∧
       field ["stockOrder"; "operation"] req = Ok (JStr "BUY") ∧
       field ["stockOrder"; "ordQty"] req = Ok (JStr "10") ∧
       field ["stockOrder"; "finInstrument"; "marketSymbol"; "symbolCd"] req
       = Ok (JStr "AAPL") ∧
       field ["stockOrder"; "finInstrument"; "marketSymbol"; "symbolCntryCd"] req
       = Ok (JStr "USA") ∧
       field ["stockOrder"; "priceType"] req = Ok (JStr "MARKET") ∧
       field ["stockOrder"; "expiry"] req = Ok (JStr "DAY")).
Proof.
  split.
  - intros account_id side qty symbol currency limit_price days_till_expiration req Hreq.
    apply validation_data_inv in Hreq
      as (expiry & expiry_date & country & Hexp & _ & _ & Hside & Hqty & Hmode & Hdate
          & _ & Hsym & Hcur & _ & _ & Htype & _).
    rewrite Hside, Hqty, Hsym, Hcur, Htype, Hmode, Hdate.
    split_and!; try done.
    + destruct limit_price; split; [eauto|done|discriminate|by intros [x [=]]].
    + destruct limit_price; split; done.
    + apply expiry_of_day in Hexp as [(-> & -> & ->)|(Hd & -> & text & ->)].
      * done.
      * split; [by intros [[=] _]|done].
  - intros account_id phone log.
    destruct (validation_data today account_id "buy" 10 "aapl" "usd" None 0) as [req|e] eqn:Hreq.
    + exists req. split; [reflexivity|].
      split; [by rewrite validate_run, Hreq|].
      apply validation_data_inv in Hreq
        as (expiry & expiry_date & country & Hexp & Hcountry & _ & Hside & Hqty & Hmode & _
            & _ & Hsym & _ & Hcc & _ & Htype & _).
      injection Hexp as <- <-. injection Hcountry as <-.
      by rewrite Hside, Hqty, Hsym, Hcc, Htype, Hmode.
    + discriminate Hreq.
Qed.

(** With a known currency and an expiry that could be computed, the request
    is built. *)
Lemma validation_data_built (account_id side : string) (qty : Z) (symbol currency : string)
    (limit_price : option Q) (days_till_expiration : Z) :
  upper currency = "USD" ∨ upper currency = "CAD" →
  is_ok (expiry_of today days_till_expiration) = true →
  ∃ req,
    validation_data today account_id side qty symbol currency limit_price
      days_till_expiration = Ok req.
Proof.
  intros Hcur Hexp. unfold validation_data.
  destruct (expiry_of today days_till_expiration) as [[expiry expiry_date]|e];
    [|discriminate].
  destruct Hcur as [-> | ->]; cbn; eauto.
Qed.

(** Without a country there is no request. *)
Lemma validation_data_unbound (account_id side : string) (qty : Z) (symbol currency : string)
    (limit_price : option Q) (days_till_expiration : Z) :
  upper currency ≠ "USD" → upper currency ≠ "CAD" →
  validation_data today account_id side qty symbol currency limit_price days_till_expiration
  = match expiry_of today days_till_expiration with
    | Ok _ => Raise UnboundLocalError
    | Raise e => Raise e
    end.
Proof.
  intros Husd Hcad. unfold validation_data, country_of.
  destruct (String.eqb_spec (upper currency) "USD"); [done|].
  destruct (String.eqb_spec (upper currency) "CAD"); [done|].
  destruct (expiry_of today days_till_expiration) as [[expiry expiry_date]|e]; reflexivity.
Qed.

(** C5, as the code has it.  With a currency whose upper-case form is
    neither [USD] nor [CAD] no country is bound, and [validate] stops before
    any request exists: it raises, and the session has sent nothing.  The
    exception is [UnboundLocalError], raised where the request body reads the
    country, unless the expiry date could not be computed in the first
    place.  The currency is one of ASCII characters, for which [upper] is
    [str.upper]. *)
Theorem validate_unbound_country (account_id side : string) (qty : Z)
    (symbol currency phone : string) (limit_price : option Q) (days_till_expiration : Z)
    (log : list request) :
  isascii currency = true →
  upper currency ≠ "USD" → upper currency ≠ "CAD" →
  ∃ e,
    validate server today account_id side qty symbol currency phone limit_price
      days_till_expiration log = (Raise e, log) ∧
    (is_ok (expiry_of today days_till_expiration) = true → e = UnboundLocalError) ∧
    (days_till_expiration = 0 → e = UnboundLocalError).
Proof.
  intros _ Husd Hcad. rewrite validate_run, validation_data_unbound by assumption.
  destruct (expiry_of today days_till_expiration) as [x|e] eqn:Hexp.
  - exists UnboundLocalError. done.
  - exists e. split; [reflexivity|]. split; [discriminate|].
    intros ->. discriminate Hexp.
Qed.

End Validate.

(** ** validate: the expiry date *)

Section Expiry.

Variable today : datetime.

(** Past 9999-12-31 there is no date, and no request either. *)
Lemma expiry_datetime_overflow (days_till_expiration : Z) :
  MAXORDINAL < toordinal today + days_till_expiration →
  expiry_datetime today days_till_expiration = Raise OverflowError.
Proof. intros H. unfold expiry_datetime. by rewrite add_days_overflow. Qed.

(** C1.  For an offset [days_till_expiration > 0] that [datetime] can
    still represent, the expiry date is today plus the offset, moved two days
    on when that day is a Saturday, one day on when it is a Sunday and left
    alone otherwise.  The request carries the text of that very day: the
    year, month and day printed are a date of the calendar, the one whose
    ordinal is today plus the offset plus the shift, with month and day on
    two digits and, from year 1000 on, ten characters [YYYY-MM-DD] in all.
    Neither the [datetime] nor the civil date printed is a Saturday or a
    Sunday. *)
Theorem expiry_date_rolls_over_weekend (days_till_expiration : Z) :
  valid today →
  0 < days_till_expiration →
  toordinal today + days_till_expiration <= MAXORDINAL →
  let landing := toordinal today + days_till_expiration in
  let shift :=
    if (landing + 6) mod 7 =? 5 then 2
    else if (landing + 6) mod 7 =? 6 then 1
    else 0 in
  ∃ expiry_date,
    expiry_datetime today days_till_expiration = Ok expiry_date ∧
    toordinal expiry_date = landing + shift ∧
    time_of_day expiry_date = time_of_day today ∧
    (∀ account_id side qty symbol currency limit_price req,
       validation_data today account_id side qty symbol currency limit_price
         days_till_expiration = Ok req →
       field ["stockOrder"; "expiry"] req = Ok (JStr "DATE") ∧
       field ["stockOrder"; "expiryDt"] req = Ok (JStr (strftime_ymd expiry_date))) ∧
    weekday expiry_date ≠ 5 ∧ weekday expiry_date ≠ 6 ∧
    let '(year, month, day) := ord2ymd (toordinal expiry_date) in
    is_date year month day ∧
    ymd2ord year month day = landing + shift ∧
    strftime_ymd expiry_date
    = str_of_int year +:+ "-" +:+ digits 2 month +:+ "-" +:+ digits 2 day ∧
    (1000 <= year → String.length (strftime_ymd expiry_date) = 10%nat) ∧
    weekday_ymd year month day ≠ 5 ∧ weekday_ymd year month day ≠ 6.
Proof.
  intros Hvalid Hdays Hmax landing shift.
  assert (Hshift : 1 <= landing + shift <= MAXORDINAL
                   ∧ (landing + shift + 6) mod 7 ≠ 5
                   ∧ (landing + shift + 6) mod 7 ≠ 6).
  { subst shift. unfold valid, MAXORDINAL in *.
    destruct (Z.eqb_spec ((landing + 6) mod 7) 5);
      [|destruct (Z.eqb_spec ((landing + 6) mod 7) 6)];
      subst landing; Z.div_mod_to_equations; lia. }
  destruct Hshift as (Hrange & Hsat & Hsun).
  assert (Hlanding : 1 <= landing <= MAXORDINAL) by (unfold valid in Hvalid; lia).
  set (expiry_date := {| toordinal := landing + shift; time_of_day := time_of_day today |}).
  assert (Hdt : expiry_datetime today days_till_expiration = Ok expiry_date).
  { unfold expiry_datetime. rewrite add_days_in_range by assumption.
    cbn [mbind result_bind]. unfold weekday. cbn [toordinal]. fold landing.
    subst shift expiry_date.
    destruct (Z.eqb_spec ((landing + 6) mod 7) 5);
      [|destruct (Z.eqb_spec ((landing + 6) mod 7) 6)].
    - by rewrite add_days_in_range.
    - by rewrite add_days_in_range.
    - by rewrite Z.add_0_r. }
  exists expiry_date. split; [exact Hdt|]. split; [reflexivity|]. split; [reflexivity|].
  split.
  { intros account_id side qty symbol currency limit_price req Hreq.
    apply validation_data_inv in Hreq
      as (expiry & text & country & Hexp & _ & _ & _ & _ & Hmode & Hdate & _).
    rewrite Hmode, Hdate. unfold expiry_of in Hexp.
    destruct (Z.eqb_spec days_till_expiration 0); [lia|].
    rewrite Hdt in Hexp. by injection Hexp as <- <-. }
  split; [exact Hsat|]. split; [exact Hsun|].
  assert (Hexpiry : valid expiry_date) by exact Hrange.
  pose proof (weekday_ymd_ord2ymd expiry_date) as Hwd.
  pose proof (ord2ymd_is_date (toordinal expiry_date) Hexpiry) as Hcivil.
  pose proof (ymd2ord_ord2ymd (toordinal expiry_date) (proj1 Hexpiry)) as Hord.
  pose proof (strftime_ymd_length expiry_date Hexpiry) as Hlen.
  unfold strftime_ymd in Hlen |- *.
  destruct (ord2ymd (toordinal expiry_date)) as [[year month] day].
  rewrite Hwd by (cbn [toordinal expiry_date]; lia).
  split; [exact Hcivil|]. split; [exact Hord|]. split; [reflexivity|].
  split; [exact Hlen|]. split; [exact Hsat|exact Hsun].
Qed.

End Expiry.

(** ** validate: the answer *)

Section ValidateAnswer.

Variable server : list request → request → result json.
Variable today : datetime.

Lemma field_1 (key : string) (x : json) : field [key] x = getitem x key.
Proof. reflexivity. Qed.

Lemma field_2 (k1 k2 : string) (x : json) :
  field [k1; k2] x = (v ← getitem x k1; getitem v k2).
Proof. reflexivity. Qed.

Lemma field_3 (k1 k2 k3 : string) (x : json) :
  field [k1; k2; k3] x = (v ← getitem x k1; w ← getitem v k2; getitem w k3).
Proof. unfold field. cbn. by destruct (getitem x k1). Qed.

Lemma getitem_ok (x : json) (key : string) (v : json) :
  getitem x key = Ok v ↔ ∃ d, x = JDict d ∧ d !! key = Some v.
Proof.
  unfold getitem, subscript. split.
  - destruct x as [| | | | | |d]; try discriminate.
    destruct (d !! key) as [w|] eqn:Hd; [|discriminate].
    intros [= <-]. eauto.
  - intros (d & -> & ->). reflexivity.
Qed.

Lemma str_field_getitem (key : string) (item : json) (s : string) :
  str_field key item = Some s → getitem item key = Ok (JStr s).
Proof.
  destruct item as [| | | | | |d]; try discriminate. cbn.
  destruct (d !! key) as [[]|]; try discriminate. by intros [= ->].
Qed.

Lemma any_field_getitem (key : string) (item v : json) :
  any_field key item = Some v ↔ getitem item key = Ok v.
Proof.
  rewrite getitem_ok. split.
  - destruct item as [| | | | | |d]; try discriminate. cbn. eauto.
  - by intros (d & -> & Hd).
Qed.

(** The loop either meets a message that announces manual processing and
    raises, or appends every message id. *)
Lemma collect_warnings_spec (items warning_list : list json) :
  Forall well_formed_message items →
  collect_warnings items warning_list
  = if existsb mentions_representative items then Raise OrderRejectedError
    else Ok (warning_list ++ message_ids items)%list.
Proof.
  intros Hwf. revert warning_list.
  induction Hwf as [|item items [[text Htext] [id Hid]] _ IH]; intros warning_list.
  - cbn. by rewrite app_nil_r.
  - cbn [collect_warnings existsb]. unfold mentions_representative at 1. rewrite Htext.
    rewrite (str_field_getitem _ _ _ Htext). cbn [mbind result_bind py_in].
    destruct (contains representative_notice text); [reflexivity|].
    apply any_field_getitem in Hid as Hget. rewrite Hget. cbn [mbind result_bind orb].
    rewrite IH. destruct (existsb mentions_representative items); [reflexivity|].
    unfold message_ids. cbn [omap list_omap]. rewrite Hid. by rewrite <- app_assoc.
Qed.

Lemma message_ids_each (items : list json) :
  Forall well_formed_message items →
  Forall2 (λ item id, any_field "msgId" item = Some id) items (message_ids items).
Proof.
  induction 1 as [|item items [_ [id Hid]] _ IH]; [constructor|].
  unfold message_ids. cbn [omap list_omap]. rewrite Hid. by constructor.
Qed.

(** The payload carries the caller's phone number. *)
Lemma order_data_of_phone (response : json) (phone : string) (order_data : json) :
  order_data_of response phone = Ok order_data →
  field ["stockOrder"; "phone"] order_data = Ok (JStr phone).
Proof.
  unfold order_data_of. intros H.
  apply bind_ok in H as (data & _ & H).
  apply bind_ok in H as (stock_order & _ & H).
  apply bind_ok in H as (has_messages & _ & H).
  apply bind_ok in H as (od & _ & H).
  apply bind_ok in H as (stock_order' & Hset & [= <-]).
  destruct stock_order as [| | | | | |d]; try discriminate. injection Hset as <-.
  rewrite field_2. unfold getitem, subscript. cbn.
  rewrite lookup_insert_eq. cbn. by rewrite lookup_insert_eq.
Qed.

(** C2.  Whatever [validate] sends is a validation request whose phone
    field is the placeholder [000-000-0000]; when it returns, it has sent
    exactly one, and the phone field of the payload it returns is the [phone]
    argument. *)
Theorem validate_phone_placeholder_then_reinjected (account_id side : string) (qty : Z)
    (symbol currency phone : string) (limit_price : option Q) (days_till_expiration : Z)
    (log log' : list request) (res : result json) :
  validate server today account_id side qty symbol currency phone limit_price
    days_till_expiration log = (res, log') →
  ∃ sent,
    log' = (log ++ sent)%list ∧
    Forall (λ r, ∃ body, r = POST validation_url body
                         ∧ field ["stockOrder"; "phone"] body = Ok (JStr "000-000-0000"))
      sent ∧
    ∀ order_data, res = Ok order_data →
      length sent = 1%nat ∧ field ["stockOrder"; "phone"] order_data = Ok (JStr phone).
Proof.
  rewrite validate_run.
  destruct (validation_data _ _ _ _ _ _ _ _) as [req|e] eqn:Hreq.
  - intros [= <- <-]. exists [POST validation_url req]. split; [reflexivity|]. split.
    + constructor; [|constructor]. exists req. split; [reflexivity|].
      apply validation_data_inv in Hreq
        as (expiry & expiry_date & country & _ & _ & _ & _ & _ & _ & _ & Hphone & _).
      exact Hphone.
    + intros order_data H. split; [reflexivity|].
      apply bind_ok in H as (response & _ & H). by apply order_data_of_phone in H.
  - intros [= <- <-]. exists []. split; [by rewrite app_nil_r|]. split; [constructor|].
    intros order_data [=].
Qed.

(** C4.  When some message of the answer announces that a representative
    will process the order, [validate] raises [OrderRejectedError], whatever
    the other messages are; when none does, it returns, and the [warnsNoList]
    of the payload holds the [msgId] of every message, in order. *)
Theorem validate_rejects_on_representative_notice (account_id side : string) (qty : Z)
    (symbol currency phone : string) (limit_price : option Q) (days_till_expiration : Z)
    (log : list request) (req response stock_order : json) (items : list json) :
  validation_data today account_id side qty symbol currency limit_price
    days_till_expiration = Ok req →
  server log (POST validation_url req) = Ok response →
  field ["data"; "stockOrder"] response = Ok stock_order →
  field ["messageList"] response = Ok (JList items) →
  Forall well_formed_message items →
  (Exists (λ item, mentions_representative item = true) items →
   validate server today account_id side qty symbol currency phone limit_price
     days_till_expiration log
   = (Raise OrderRejectedError, (log ++ [POST validation_url req])%list))
  ∧
  (Forall (λ item, mentions_representative item = false) items →
   ∀ d, stock_order = JDict d →
   ∃ order_data ids,
     validate server today account_id side qty symbol currency phone limit_price
       days_till_expiration log
     = (Ok order_data, (log ++ [POST validation_url req])%list) ∧
     field ["warnsNoList"] order_data = Ok (JList ids) ∧
     Forall2 (λ item id, any_field "msgId" item = Some id) items ids).
Proof.
  intros Hreq Hresp Hstock Hlist Hwf.
  rewrite validate_run, Hreq, Hresp. cbn [mbind result_bind].
  rewrite field_2 in Hstock. apply bind_ok in Hstock as (data & Hdata & Hstock).
  rewrite field_1 in Hlist. apply getitem_ok in Hlist as Hdict.
  destruct Hdict as (r & -> & Hr).
  unfold order_data_of. rewrite Hdata. cbn [mbind result_bind]. rewrite Hstock.
  cbn [mbind result_bind py_in]. rewrite Hr. rewrite bool_decide_eq_true_2 by eauto.
  rewrite Hlist. cbn [mbind result_bind iter]. rewrite collect_warnings_spec by assumption.
  split.
  - intros Hex. apply Exists_exists in Hex as (item & Hin & Hm).
    assert (Hany : existsb mentions_representative items = true).
    { apply existsb_exists. exists item. split; [by apply list_elem_of_In|exact Hm]. }
    by rewrite Hany.
  - intros Hnone d ->.
    assert (Hany : existsb mentions_representative items = false).
    { apply not_true_is_false. intros Hex. apply existsb_exists in Hex as (item & Hin & Hm).
      rewrite Forall_forall in Hnone. apply list_elem_of_In in Hin.
      rewrite (Hnone item Hin) in Hm. discriminate. }
    rewrite Hany. cbn [mbind result_bind setitem app].
    eexists _, (message_ids items). split; [reflexivity|]. split.
    + rewrite field_1. unfold getitem, subscript.
      rewrite lookup_insert_ne by done. by rewrite lookup_insert_eq.
    + by apply message_ids_each.
Qed.

End ValidateAnswer.

(** ** Placing orders *)

Section PlaceOrder.

Variable server : list request → request → result json.
Variable today : datetime.

Lemma order_id_of_field (r : json) :
  order_id_of r
  = (ord_id ← field ["data"; "stockOrder"; "ordId"] r; Ok (JDict {[ "order_id" := ord_id ]})).
Proof.
  unfold order_id_of. rewrite field_3.
  destruct (getitem r "data") as [data|]; [|reflexivity]. cbn.
  by destruct (getitem data "stockOrder").
Qed.

(** Placing is validating and, if that returned, one more request. *)
Lemma place_after_validate (validate_call : M json) (log : list request) :
  (∀ res log1, validate_call log = (res, log1) →
     ∃ sent, log1 = (log ++ sent)%list ∧
       Forall (λ r, ∃ body, r = POST validation_url body) sent ∧
       (is_ok res = true → length sent = 1%nat)) →
  validated_then_submitted server log (validate_call log)
    ((order_data ← validate_call;
      r ← send server (POST order_url order_data);
      lift (order_id_of r)) log).
Proof.
  intros Hsent. unfold mbind at 1. unfold M_bind at 1.
  destruct (validate_call log) as [[order_data|e] log1] eqn:Hv.
  - destruct (Hsent _ _ eq_refl) as (sent & -> & Hall & Hone).
    specialize (Hone eq_refl).
    destruct sent as [|r [|]]; try discriminate.
    apply Forall_cons in Hall as [(req & ->) _].
    cbn. exists req. split; [reflexivity|].
    unfold mbind, M_bind, send, lift.
    destruct (server _ (POST order_url order_data)) as [answer|e]; cbn.
    + rewrite <- app_assoc. split; [reflexivity|]. by rewrite order_id_of_field.
    + rewrite <- app_assoc. done.
  - destruct (Hsent _ _ eq_refl) as (sent & -> & Hall & _).
    cbn. split; [reflexivity|]. exists sent. split; [reflexivity|].
    eapply Forall_impl; [exact Hall|]. intros r (body & ->). reflexivity.
Qed.

Lemma validate_sends (account_id side : string) (qty : Z) (symbol currency phone : string)
    (limit_price : option Q) (days_till_expiration : Z) (log log1 : list request)
    (res : result json) :
  validate server today account_id side qty symbol currency phone limit_price
    days_till_expiration log = (res, log1) →
  ∃ sent, log1 = (log ++ sent)%list ∧
    Forall (λ r, ∃ body, r = POST validation_url body) sent ∧
    (is_ok res = true → length sent = 1%nat).
Proof.
  rewrite validate_run.
  destruct (validation_data _ _ _ _ _ _ _ _) as [req|e]; intros [= <- <-].
  - exists [POST validation_url req]. split; [reflexivity|]. split; [|done].
    constructor; [eauto|constructor].
  - exists []. split; [by rewrite app_nil_r|]. split; [constructor|discriminate].
Qed.

(** C3.  [place_market_order] and [place_limit_order] start with
    [validate] on the same order (no limit price and no offset for a market
    order).  When it raises they raise the same exception and nothing is
    submitted; when it returns, the very payload it returned is the body of
    the one POST to the submission endpoint that follows the validation
    request, and the result is the [ordId] of the answer. *)
Theorem place_order_submits_validated_payload (symbol account_id currency side : string)
    (qty : Z) (phone : string) (limit_price : Q) (days_till_expiration : Z)
    (log : list request) :
  validated_then_submitted server log
    (validate server today account_id side qty symbol currency phone None 0 log)
    (place_market_order server today symbol account_id currency side qty phone log)
  ∧
  validated_then_submitted server log
    (validate server today account_id side qty symbol currency phone (Some limit_price)
       days_till_expiration log)
    (place_limit_order server today symbol account_id currency side qty phone limit_price
       days_till_expiration log).
Proof.
  split; apply place_after_validate; intros res log1; apply validate_sends.
Qed.

End PlaceOrder.

(** ** get_account_id *)

Section Accounts.

Variable server : list request → request → result json.

Lemma get_account_id_run (currency_type account_type : string) (log : list request) :
  get_account_id server currency_type account_type log
  = (r ← server log (GET account_url);
     response ← account_list_of r;
     items ← iter response;
     scan_accounts (upper currency_type) (title account_type) items,
     (log ++ [GET account_url])%list).
Proof.
  unfold get_account_id, mbind at 1, M_bind, send, lift.
  destruct (server log (GET account_url)) as [r|e]; [|reflexivity].
  cbn. by destruct (_ ≫= _).
Qed.

(** An account that is not the one looked for is skipped. *)
Lemma scan_accounts_skip (currency_type account_type : string) (item : json)
    (rest : list json) :
  is_Some (str_field "acctTypeDesc" item) →
  described_as currency_type account_type item = false →
  scan_accounts (upper currency_type) (title account_type) (item :: rest)
  = scan_accounts (upper currency_type) (title account_type) rest.
Proof.
  intros [desc Hdesc] Hno. unfold described_as in Hno. rewrite Hdesc in Hno.
  cbn [scan_accounts]. rewrite (str_field_getitem _ _ _ Hdesc).
  cbn [mbind result_bind py_in].
  destruct (contains (upper currency_type) desc); [|reflexivity].
  cbn in Hno. by rewrite Hno.
Qed.

Lemma scan_accounts_hit (currency_type account_type : string) (item : json)
    (rest : list json) :
  described_as currency_type account_type item = true →
  scan_accounts (upper currency_type) (title account_type) (item :: rest)
  = getitem item "acctNo".
Proof.
  unfold described_as. destruct (str_field "acctTypeDesc" item) as [desc|] eqn:Hdesc;
    [|discriminate].
  intros [Hc Ht]%andb_true_iff.
  cbn [scan_accounts]. rewrite (str_field_getitem _ _ _ Hdesc).
  cbn [mbind result_bind py_in]. by rewrite Hc, Ht.
Qed.

(** C6.  The currency is upper-cased and the account type title-cased,
    both of ASCII characters, where [upper] and [title] are [str.upper] and
    [str.title]; the account list is scanned in the order the server sent
    it, and the [acctNo] of the first account whose description contains both
    is returned; when no description contains both, [AccountNotFoundError] is
    raised. *)
Theorem get_account_id_first_match (currency_type account_type : string)
    (log : list request) (r : json) (accounts : list json) :
  isascii currency_type = true →
  isascii account_type = true →
  server log (GET account_url) = Ok r →
  account_list_of r = Ok (JList accounts) →
  (∀ before item after number,
     accounts = (before ++ item :: after)%list →
     Forall (λ a, is_Some (str_field "acctTypeDesc" a)
                  ∧ described_as currency_type account_type a = false) before →
     described_as currency_type account_type item = true →
     any_field "acctNo" item = Some number →
     get_account_id server currency_type account_type log
     = (Ok number, (log ++ [GET account_url])%list))
  ∧
  (Forall (λ a, is_Some (str_field "acctTypeDesc" a)
                ∧ described_as currency_type account_type a = false) accounts →
   get_account_id server currency_type account_type log
   = (Raise AccountNotFoundError, (log ++ [GET account_url])%list)).
Proof.
  intros _ _ Hr Hlist. rewrite get_account_id_run, Hr. cbn [mbind result_bind].
  rewrite Hlist. cbn [mbind result_bind iter]. clear Hr Hlist.
  split.
  - intros before item after number -> Hbefore Hitem Hno. f_equal.
    induction Hbefore as [|a before [Hdesc Hskip] _ IH].
    + cbn [app]. rewrite scan_accounts_hit by assumption. by apply any_field_getitem.
    + cbn [app]. by rewrite scan_accounts_skip.
  - intros Hnone. f_equal.
    induction Hnone as [|a rest [Hdesc Hskip] _ IH]; [reflexivity|].
    by rewrite scan_accounts_skip.
Qed.

End Accounts.

(** ** get_order and get_order_status *)

Section Orders.

Variable server : list request → request → result json.

Lemma order_list_run (account_id : string) (log : list request) :
  order_list server account_id log
  = (r ← server log (GET (orders_url account_id));
     response ← order_list_of r;
     iter response,
     (log ++ [GET (orders_url account_id)])%list).
Proof.
  unfold order_list, mbind at 1, M_bind, send, lift.
  destruct (server log (GET (orders_url account_id))) as [r|e]; [|reflexivity].
  cbn. by destruct (_ ≫= _).
Qed.

Lemma get_order_run (account_id order_id : string) (log log' : list request)
    (orders : list json) :
  order_list server account_id log = (Ok orders, log') →
  get_order server account_id order_id log
  = (order_info ← find_order orders order_id (JList []);
     n ← len order_info;
     if (n =? 0)%nat then Raise OrderNotFoundError else return_dict_of order_info,
     log')
  ∧ get_order_status server account_id order_id log = (scan_status orders order_id, log').
Proof.
  intros Hrun. unfold get_order, get_order_status, mbind, M_bind, lift. rewrite Hrun.
  split.
  - fold (@mbind result _). by destruct (_ ≫= _).
  - by destruct (scan_status orders order_id).
Qed.

(** The order searched for has at least its [ordId]: it is not taken for the
    empty list [order_info] starts as. *)
Lemma len_of_order (order_id : string) (item : json) :
  has_ord_id order_id item = true → ∃ n, len item = Ok (S n).
Proof.
  unfold has_ord_id. destruct item as [| | | | | |d]; try discriminate. cbn.
  destruct (d !! "ordId") as [v|] eqn:Hd; [|discriminate]. intros _.
  destruct (size d) as [|n] eqn:Hsize; [|eauto].
  apply map_size_empty_inv in Hsize. subst d. by rewrite lookup_empty in Hd.
Qed.

Lemma has_ord_id_getitem (order_id : string) (item : json) (b : bool) :
  is_Some (any_field "ordId" item) →
  has_ord_id order_id item = b →
  ∃ v, getitem item "ordId" = Ok v ∧ eq_str v order_id = b.
Proof.
  intros [v Hv]. unfold has_ord_id. rewrite Hv. intros <-.
  exists v. split; [by apply any_field_getitem|reflexivity].
Qed.

Lemma has_ord_id_str (order_id : string) (item : json) :
  has_ord_id order_id item = true → any_field "ordId" item = Some (JStr order_id).
Proof.
  unfold has_ord_id. destruct (any_field "ordId" item) as [v|]; [|discriminate].
  destruct v; try discriminate. cbn. by intros ->%String.eqb_eq.
Qed.

Lemma orders_skip (order_id : string) (before rest : list json) (order_info : json) :
  Forall (λ o, is_Some (any_field "ordId" o) ∧ has_ord_id order_id o = false) before →
  find_order (before ++ rest) order_id order_info = find_order rest order_id order_info
  ∧ scan_status (before ++ rest) order_id = scan_status rest order_id.
Proof.
  induction 1 as [|o before [Hid Hno] _ IH]; [done|].
  destruct (has_ord_id_getitem _ _ _ Hid Hno) as (v & Hget & Hne).
  cbn [app find_order scan_status]. rewrite Hget. cbn [mbind result_bind].
  by rewrite Hne.
Qed.

(** C8.  When the order list is empty or none of its entries has the
    requested [ordId], [get_order] and [get_order_status] raise
    [OrderNotFoundError].  When one has, the first such entry decides:
    [get_order_status] returns its [orderOpen] flag and nothing else, and
    [get_order] returns its id, operation, ordered and filled quantity,
    average fill price and flag. *)
Theorem get_order_lookup (account_id order_id : string) (log : list request) (r : json)
    (orders : list json) :
  server log (GET (orders_url account_id)) = Ok r →
  field ["data"; "orderList"] r = Ok (JList orders) →
  let log' := (log ++ [GET (orders_url account_id)])%list in
  (Forall (λ o, is_Some (any_field "ordId" o) ∧ has_ord_id order_id o = false) orders →
   get_order server account_id order_id log = (Raise OrderNotFoundError, log')
   ∧ get_order_status server account_id order_id log = (Raise OrderNotFoundError, log'))
  ∧
  (∀ before item after,
     orders = (before ++ item :: after)%list →
     Forall (λ o, is_Some (any_field "ordId" o) ∧ has_ord_id order_id o = false) before →
     has_ord_id order_id item = true →
     (∀ order_open,
        any_field "orderOpen" item = Some order_open →
        get_order_status server account_id order_id log = (Ok order_open, log'))
     ∧
     (∀ operation order_quantity filled_quantity fill_price order_open,
        any_field "operation" item = Some operation →
        any_field "ordQty" item = Some order_quantity →
        any_field "execQty" item = Some filled_quantity →
        any_field "avgExecPrice" item = Some fill_price →
        any_field "orderOpen" item = Some order_open →
        get_order server account_id order_id log
        = (Ok (JDict {[
             "order_id" := JStr order_id;
             "operation" := operation;
             "order_quantity" := order_quantity;
             "filled_quantity" := filled_quantity;
             "fill_price" := fill_price;
             "order_open" := order_open ]}), log'))).
Proof.
  intros Hr Hlist log'. rewrite field_2 in Hlist. fold (order_list_of r) in Hlist.
  assert (Hrun : order_list server account_id log = (Ok orders, log')).
  { rewrite order_list_run, Hr. cbn [mbind result_bind]. by rewrite Hlist. }
  destruct (get_order_run account_id order_id log log' orders Hrun) as [-> ->].
  split.
  - intros Hnone.
    destruct (orders_skip order_id orders [] (JList []) Hnone) as [Hfind Hscan].
    rewrite app_nil_r in Hfind, Hscan. by rewrite Hfind, Hscan.
  - intros before item after -> Hbefore Hitem.
    destruct (orders_skip order_id before (item :: after) (JList []) Hbefore)
      as [Hfind Hscan].
    rewrite Hfind, Hscan. cbn [find_order scan_status].
    pose proof (has_ord_id_str _ _ Hitem) as Hid.
    apply any_field_getitem in Hid as Hget. rewrite Hget. cbn [mbind result_bind].
    unfold eq_str, is_str. rewrite String.eqb_refl.
    split.
    + intros order_open Hopen%any_field_getitem. by rewrite Hopen.
    + intros operation order_quantity filled_quantity fill_price order_open
        Hop%any_field_getitem Hqty%any_field_getitem Hexec%any_field_getitem
        Hprice%any_field_getitem Hopen%any_field_getitem.
      cbn [mbind result_bind].
      destruct (len_of_order _ _ Hitem) as (n & ->). cbn [mbind result_bind Nat.eqb].
      unfold return_dict_of. rewrite Hget, Hop, Hqty, Hexec, Hprice, Hopen. reflexivity.
Qed.

End Orders.

(** ** get_positions *)

Section Positions.

Variable server : list request → request → result json.

Implicit Types (views : list (string * position)) (return_dict : gmap string json).

Lemma get_positions_run (account_id : string) (log : list request) :
  get_positions server account_id log
  = (r ← server log (GET (pos_url account_id));
     pos_list ← pos_list_of r;
     positions_of pos_list,
     (log ++ [GET (pos_url account_id)])%list).
Proof.
  unfold get_positions, mbind at 1, M_bind, send, lift.
  destruct (server log (GET (pos_url account_id))) as [r|e]; [|reflexivity].
  cbn. by destruct (_ ≫= _).
Qed.

Lemma position_entry_held (item : json) (sp : string * position) :
  held_as item sp → position_entry item = Ok (sp.1, entry_of sp.2).
Proof.
  destruct sp as [symbol p]. intros [Hview Hsym]. cbn [fst snd] in *.
  unfold view_position in Hview.
  destruct (any_field "finInstrument" item) as [fin|] eqn:Hfin; [|discriminate].
  cbn [mbind option_bind] in Hview.
  destruct (str_field "quoteIdKey" fin) as [key|] eqn:Hkey; [|discriminate].
  cbn [mbind option_bind] in Hview.
  destruct (any_field "positionEval" item) as [eval|] eqn:Heval; [|discriminate].
  cbn [mbind option_bind] in Hview.
  destruct (any_field "quantity" item) as [qty|] eqn:Hqty; [|discriminate].
  cbn [mbind option_bind] in Hview.
  destruct (any_field "avgCostPrice" eval) as [cost|] eqn:Hcost; [|discriminate].
  cbn [mbind option_bind] in Hview.
  destruct (any_field "pnlAmt" eval) as [change|] eqn:Hchange; [|discriminate].
  cbn [mbind option_bind] in Hview.
  destruct (any_field "pnlPerc" eval) as [change_per|] eqn:Hper; [|discriminate].
  cbn [mbind option_bind] in Hview.
  destruct (any_field "marketValueAmt" eval) as [market_val|] eqn:Hval; [|discriminate].
  cbn [mbind option_bind] in Hview. injection Hview as <-. cbn [quoteIdKey] in Hsym.
  apply any_field_getitem in Hfin, Heval, Hqty, Hcost, Hchange, Hper, Hval.
  apply str_field_getitem in Hkey.
  unfold position_entry. rewrite Hfin. cbn [mbind result_bind]. rewrite Hkey.
  cbn [mbind result_bind symbol_of]. unfold index. cbn [Z.ltb Z.compare].
  change (Z.to_nat 1) with 1%nat. unfold second_field in Hsym. rewrite Hsym.
  cbn [mbind result_bind]. rewrite Heval. cbn [mbind result_bind]. rewrite Hqty.
  cbn [mbind result_bind]. by rewrite Hcost, Hchange, Hper, Hval.
Qed.

(** The loop is a left fold of insertions. *)
Lemma fill_positions_fold (items : list json) views return_dict :
  Forall2 held_as items views →
  fill_positions items return_dict
  = Ok (foldl (λ m sp, <[sp.1 := entry_of sp.2]> m) return_dict views).
Proof.
  intros Hheld. revert return_dict.
  induction Hheld as [|item sp items views Hitem _ IH]; intros return_dict; [reflexivity|].
  cbn [fill_positions foldl]. rewrite (position_entry_held _ _ Hitem).
  cbn [mbind result_bind]. apply IH.
Qed.

Lemma fold_insert_other views return_dict (symbol : string) :
  symbol ∉ views.*1 →
  foldl (λ m sp, <[sp.1 := entry_of sp.2]> m) return_dict views !! symbol
  = return_dict !! symbol.
Proof.
  revert return_dict. induction views as [|sp views IH]; intros return_dict Hnot; [reflexivity|].
  cbn [foldl]. rewrite fmap_cons, not_elem_of_cons in Hnot. destruct Hnot as [Hne Hnot].
  rewrite IH by assumption. by rewrite lookup_insert_ne.
Qed.

Lemma fold_insert_last views return_dict before (sp : string * position) after :
  views = (before ++ sp :: after)%list →
  sp.1 ∉ after.*1 →
  foldl (λ m sp, <[sp.1 := entry_of sp.2]> m) return_dict views !! sp.1
  = Some (entry_of sp.2).
Proof.
  intros -> Hnot. rewrite foldl_app. cbn [foldl].
  rewrite fold_insert_other by assumption. apply lookup_insert_eq.
Qed.

Lemma fold_insert_dom views return_dict :
  dom (foldl (λ m sp, <[sp.1 := entry_of sp.2]> m) return_dict views)
  = dom return_dict ∪ list_to_set views.*1.
Proof.
  revert return_dict. induction views as [|sp views IH]; intros return_dict.
  - cbn. set_solver.
  - cbn [foldl]. rewrite IH, dom_insert_L, fmap_cons. cbn [list_to_set]. set_solver.
Qed.

Lemma fold_insert_from views return_dict (symbol : string) (entry : json) :
  foldl (λ m sp, <[sp.1 := entry_of sp.2]> m) return_dict views !! symbol = Some entry →
  return_dict !! symbol = Some entry ∨ ∃ p, (symbol, p) ∈ views ∧ entry = entry_of p.
Proof.
  revert return_dict. induction views as [|[s p] views IH]; intros return_dict; [by left|].
  cbn [foldl fst snd]. intros [H|(q & Hin & ->)]%IH.
  - destruct (decide (s = symbol)) as [->|Hne].
    + rewrite lookup_insert_eq in H. injection H as <-. right. exists p. split; [left|done].
    + rewrite lookup_insert_ne in H by done. by left.
  - right. exists q. split; [by right|done].
Qed.

Lemma size_list_to_set_le (l : list string) :
  (size (list_to_set l : gset string) ≤ length l)%nat
  ∧ (¬ NoDup l → (size (list_to_set l : gset string) < length l)%nat).
Proof.
  induction l as [|x l [IHle IHlt]]; [split; [done|]; intros []; constructor|].
  cbn [list_to_set length]. destruct (decide (x ∈ l)) as [Hin|Hnot].
  - assert (Heq : ({[x]} ∪ list_to_set l : gset string) = list_to_set l) by set_solver.
    rewrite Heq. split; [lia|]. intros _. lia.
  - rewrite size_union by set_solver. rewrite size_singleton. split; [lia|].
    intros Hdup. assert (¬ NoDup l) by (intros Hl; apply Hdup; by constructor). 
    specialize (IHlt H). lia.
Qed.

Lemma positions_of_list (items : list json) views :
  items ≠ [] →
  Forall2 held_as items views →
  positions_of (JList items)
  = Ok (foldl (λ m sp, <[sp.1 := entry_of sp.2]> m) ∅ views).
Proof.
  intros Hne Hheld. unfold positions_of. cbn [len mbind result_bind].
  destruct items as [|item items]; [done|]. cbn [length Nat.eqb iter mbind result_bind].
  by apply fill_positions_fold.
Qed.

(** C9.  When the position list under the account's own currency is
    empty, [get_positions] raises [NoPositionsError].  Otherwise it returns a
    mapping whose keys are exactly the symbols of the positions, the symbol of
    a position being the second semicolon-delimited field of its instrument
    key; the entry under a symbol carries the quantity, average cost, P&L
    amount, P&L percentage and market value of a position with that symbol. *)
Theorem get_positions_per_symbol (account_id : string) (log : list request) (r : json) :
  server log (GET (pos_url account_id)) = Ok r →
  let log' := (log ++ [GET (pos_url account_id)])%list in
  (pos_list_of r = Ok (JList []) →
   get_positions server account_id log = (Raise NoPositionsError, log'))
  ∧
  (∀ items views,
     pos_list_of r = Ok (JList items) →
     items ≠ [] →
     Forall2 held_as items views →
     ∃ return_dict,
       get_positions server account_id log = (Ok return_dict, log') ∧
       dom return_dict = list_to_set views.*1 ∧
       ∀ symbol entry,
         return_dict !! symbol = Some entry →
         ∃ item p,
           item ∈ items ∧ view_position item = Some p ∧
           second_field (quoteIdKey p) = Some symbol ∧
           entry = JDict {[
             "quantity" := quantity p;
             "cost" := avgCostPrice p;
             "change" := pnlAmt p;
             "change_per" := pnlPerc p;
             "market_val" := marketValueAmt p ]}).
Proof.
  intros Hr log'. rewrite get_positions_run, Hr. cbn [mbind result_bind]. split.
  - intros ->. reflexivity.
  - intros items views -> Hne Hheld. cbn [mbind result_bind].
    rewrite (positions_of_list items views Hne Hheld).
    eexists. split; [reflexivity|]. split.
    + rewrite fold_insert_dom, dom_empty_L. set_solver.
    + intros symbol entry [Hempty|(p & Hin & ->)]%fold_insert_from.
      * by rewrite lookup_empty in Hempty.
      * apply list_elem_of_lookup in Hin as [i Hi].
        destruct (Forall2_lookup_r _ _ _ _ _ Hheld Hi) as (item & Hitem & Hview & Hsym).
        exists item, p. split; [by eapply list_elem_of_lookup_2|]. done.
Qed.

(** C10.  The mapping is keyed by symbol, so among positions with the
    same symbol the last one of the list is the one whose data the mapping
    holds; the mapping never has more entries than the list has positions, and
    it has fewer as soon as two positions share a symbol. *)
Theorem get_positions_last_duplicate_wins (account_id : string) (log : list request)
    (r : json) (items : list json) views :
  server log (GET (pos_url account_id)) = Ok r →
  pos_list_of r = Ok (JList items) →
  items ≠ [] →
  Forall2 held_as items views →
  ∃ return_dict,
    get_positions server account_id log
    = (Ok return_dict, (log ++ [GET (pos_url account_id)])%list) ∧
    (∀ before symbol p after,
       views = (before ++ (symbol, p) :: after)%list →
       symbol ∉ after.*1 →
       return_dict !! symbol = Some (entry_of p)) ∧
    (size return_dict ≤ length items)%nat ∧
    (∀ i j symbol p q,
       i ≠ j →
       views !! i = Some (symbol, p) →
       views !! j = Some (symbol, q) →
       (size return_dict < length items)%nat).
Proof.
  intros Hr Hlist Hne Hheld. rewrite get_positions_run, Hr. cbn [mbind result_bind].
  rewrite Hlist. cbn [mbind result_bind]. rewrite (positions_of_list items views Hne Hheld).
  eexists. split; [reflexivity|].
  assert (Hsize : size (foldl (λ m sp, <[sp.1 := entry_of sp.2]> m)
                          (∅ : gmap string json) views)
                  = size (list_to_set views.*1 : gset string)).
  { rewrite <- size_dom, fold_insert_dom, dom_empty_L. f_equal. set_solver. }
  assert (Hlen : length views.*1 = length items).
  { rewrite length_fmap. symmetry. by eapply Forall2_length. }
  destruct (size_list_to_set_le views.*1) as [Hle Hlt].
  split; [|split].
  - intros before symbol p after Hviews Hnot.
    by apply (fold_insert_last views ∅ before (symbol, p) after).
  - rewrite Hsize. lia.
  - intros i j symbol p q Hij Hi Hj. rewrite Hsize, <- Hlen. apply Hlt.
    intros Hnodup. apply Hij.
    eapply (NoDup_lookup _ i j symbol Hnodup); rewrite list_lookup_fmap.
    + by rewrite Hi.
    + by rewrite Hj.
Qed.

End Positions.

(** ** The client at work against the fixture broker *)

Section Runs.

Import Fixture.

(** Four days after Tuesday 2026-11-03 is a Saturday: the order expires on
    Monday 2026-11-09. *)
Lemma expiry_date_rolls_over_weekend_witness :
  ∃ expiry_date,
    expiry_datetime tuesday 4 = Ok expiry_date ∧
    toordinal expiry_date = toordinal tuesday + 6 ∧
    strftime_ymd expiry_date = "2026-11-09" ∧
    weekday expiry_date = 0 ∧
    field ["stockOrder"; "expiryDt"]
      (returned JNull (validation_data tuesday "A2" "sell" 3 "ry" "cad" (Some (5 # 2)) 4))
    = Ok (JStr "2026-11-09").
Proof.
  assert (Hvalid : valid tuesday) by (split; vm_compute; discriminate).
  assert (Hdays : 0 < 4) by reflexivity.
  assert (Hmax : toordinal tuesday + 4 <= MAXORDINAL) by (vm_compute; discriminate).
  pose proof (expiry_date_rolls_over_weekend tuesday 4 Hvalid Hdays Hmax) as H.
  cbv zeta in H. destruct H as (expiry_date & Hdt & Hord & _ & Hreq & _).
  exists expiry_date. split; [exact Hdt|].
  assert (Hday : toordinal expiry_date = toordinal tuesday + 6).
  { rewrite Hord. vm_compute. reflexivity. }
  assert (Htext : strftime_ymd expiry_date = "2026-11-09").
  { unfold strftime_ymd. rewrite Hday. vm_compute. reflexivity. }
  split; [exact Hday|]. split; [exact Htext|]. split.
  - unfold weekday. rewrite Hday. vm_compute. reflexivity.
  - rewrite <- Htext.
    apply (Hreq "A2" "sell" 3 "ry" "cad" (Some (5 # 2))). vm_compute. reflexivity.
Defined.

(** A validated market order: the placeholder goes out, the caller's number
    comes back. *)
Lemma validate_phone_placeholder_then_reinjected_witness :
  ∃ order_data body,
    validate (broker [slow_market]) tuesday "A2" "buy" 10 "aapl" "usd" "514-555-0100" None 0 []
    = (Ok order_data, [POST validation_url body]) ∧
    field ["stockOrder"; "phone"] body = Ok (JStr "000-000-0000") ∧
    field ["stockOrder"; "phone"] order_data = Ok (JStr "514-555-0100").
Proof.
  set (run := validate (broker [slow_market]) tuesday "A2" "buy" 10 "aapl" "usd"
                "514-555-0100" None 0 []).
  assert (Hrun : run = (Ok (returned JNull run.1), run.2)) by (vm_compute; reflexivity).
  destruct (validate_phone_placeholder_then_reinjected (broker [slow_market]) tuesday
              "A2" "buy" 10 "aapl" "usd" "514-555-0100" None 0 [] _ _ Hrun)
    as (sent & Hlog & Hsent & Hres).
  destruct (Hres _ eq_refl) as [Hlen Hphone].
  cbn [app] in Hlog. destruct sent as [|r [|]]; try discriminate.
  apply Forall_cons in Hsent as [(body & -> & Hbody) _].
  exists (returned JNull run.1), body. rewrite Hrun at 1. rewrite Hlog. done.
Defined.

(** The notice between two plain warnings rejects the order; the two plain
    warnings alone are collected. *)
Lemma validate_rejects_on_representative_notice_witness :
  validate (broker [slow_market; manual_review; odd_lot]) tuesday "A2" "buy" 10 "aapl" "usd"
    "514-555-0100" None 0 []
  = (Raise OrderRejectedError,
     [POST validation_url
        (returned JNull (validation_data tuesday "A2" "buy" 10 "aapl" "usd" None 0))])
  ∧
  ∃ order_data,
    (validate (broker [slow_market; odd_lot]) tuesday "A2" "buy" 10 "aapl" "usd"
       "514-555-0100" None 0 []).1 = Ok order_data ∧
    field ["warnsNoList"] order_data = Ok (JList [JStr "W1"; JStr "W3"]).
Proof.
  set (req := returned JNull (validation_data tuesday "A2" "buy" 10 "aapl" "usd" None 0)).
  assert (Hreq : validation_data tuesday "A2" "buy" 10 "aapl" "usd" None 0 = Ok req)
    by (vm_compute; reflexivity).
  assert (Hwf : ∀ msg_id text, well_formed_message (message msg_id text)).
  { intros msg_id text. split; eexists; reflexivity. }
  split.
  - set (messages := [slow_market; manual_review; odd_lot]).
    set (response := returned JNull (broker messages [] (POST validation_url req))).
    assert (Hresp : broker messages [] (POST validation_url req) = Ok response)
      by (vm_compute; reflexivity).
    assert (Hstock : field ["data"; "stockOrder"] response = Ok (echoed req))
      by (vm_compute; reflexivity).
    assert (Hlist : field ["messageList"] response = Ok (JList messages))
      by (vm_compute; reflexivity).
    assert (Hall : Forall well_formed_message messages)
      by (repeat constructor; apply Hwf).
    apply (validate_rejects_on_representative_notice (broker messages) tuesday
             "A2" "buy" 10 "aapl" "usd" "514-555-0100" None 0 [] req response
             (echoed req) messages Hreq Hresp Hstock Hlist Hall).
    apply Exists_cons_tl, Exists_cons_hd. vm_compute. reflexivity.
  - set (messages := [slow_market; odd_lot]).
    set (response := returned JNull (broker messages [] (POST validation_url req))).
    assert (Hresp : broker messages [] (POST validation_url req) = Ok response)
      by (vm_compute; reflexivity).
    assert (Hstock : field ["data"; "stockOrder"] response = Ok (echoed req))
      by (vm_compute; reflexivity).
    assert (Hlist : field ["messageList"] response = Ok (JList messages))
      by (vm_compute; reflexivity).
    assert (Hall : Forall well_formed_message messages)
      by (repeat constructor; apply Hwf).
    assert (Hnone : Forall (λ item, mentions_representative item = false) messages)
      by (repeat constructor).
    assert (Hdict : ∃ d, echoed req = JDict d) by (vm_compute; eauto).
    destruct Hdict as [d Hd].
    destruct (proj2 (validate_rejects_on_representative_notice (broker messages) tuesday
                       "A2" "buy" 10 "aapl" "usd" "514-555-0100" None 0 [] req response
                       (echoed req) messages Hreq Hresp Hstock Hlist Hall) Hnone d Hd)
      as (order_data & ids & Hrun & Hwarn & Hids).
    exists order_data. rewrite Hrun. split; [reflexivity|]. rewrite Hwarn.
    apply Forall2_cons_inv_l in Hids as (id1 & ids1 & [= <-] & Hids & ->).
    apply Forall2_cons_inv_l in Hids as (id2 & ids2 & [= <-] & Hids & ->).
    apply Forall2_nil_inv_l in Hids as ->. reflexivity.
Defined.

(** C5, as claimed, fails: with the currency [eur] no request is built, with
    or without a country, and the call does not proceed; it raises
    [UnboundLocalError] having sent nothing. *)
Lemma validate_unknown_currency_raises :
  (¬ ∃ req, validation_data tuesday "A2" "buy" 10 "aapl" "eur" None 0 = Ok req)
  ∧ validate (broker []) tuesday "A2" "buy" 10 "aapl" "eur" "514-555-0100" None 0 []
    = (Raise UnboundLocalError, []).
Proof.
  split; [|vm_compute; reflexivity].
  intros [req Hreq]. vm_compute in Hreq. discriminate Hreq.
Qed.

(** The same with pounds. *)
Lemma validate_unbound_country_witness :
  validate (broker []) tuesday "A2" "buy" 10 "aapl" "gbp" "514-555-0100" None 0 []
  = (Raise UnboundLocalError, []).
Proof.
  assert (Hascii : isascii "gbp" = true) by reflexivity.
  assert (Husd : upper "gbp" ≠ "USD") by (vm_compute; discriminate).
  assert (Hcad : upper "gbp" ≠ "CAD") by (vm_compute; discriminate).
  destruct (validate_unbound_country (broker []) tuesday "A2" "buy" 10 "aapl" "gbp"
              "514-555-0100" None 0 [] Hascii Husd Hcad) as (e & Hrun & _ & Hday).
  rewrite Hrun. by rewrite (Hday eq_refl).
Defined.

(** A limit order to sell, good for four days. *)
Lemma validation_data_fields_witness :
  let req := returned JNull (validation_data tuesday "A2" "sell" 3 "ry" "cad" (Some (5 # 2)) 4) in
  field ["stockOrder"; "operation"] req = Ok (JStr "SELL") ∧
  field ["stockOrder"; "ordQty"] req = Ok (JStr "3") ∧
  field ["stockOrder"; "finInstrument"; "marketSymbol"; "symbolCd"] req = Ok (JStr "RY") ∧
  field ["stockOrder"; "finInstrument"; "marketSymbol"; "symbolCurrCd"] req = Ok (JStr "CAD") ∧
  field ["stockOrder"; "priceType"] req = Ok (JStr "SPECIFIC") ∧
  ¬ (field ["stockOrder"; "expiry"] req = Ok (JStr "DAY")
     ∧ field ["stockOrder"; "expiryDt"] req = Ok JNull).
Proof.
  intros req.
  assert (Hreq : validation_data tuesday "A2" "sell" 3 "ry" "cad" (Some (5 # 2)) 4 = Ok req)
    by (vm_compute; reflexivity).
  destruct (proj1 (validation_data_fields (broker []) tuesday)
              "A2" "sell" 3 "ry" "cad" (Some (5 # 2)) 4 req Hreq)
    as (Hside & Hqty & Hsym & Hcur & Hspecific & _ & Hday).
  split; [exact (Hside eq_refl)|]. split; [exact Hqty|].
  split; [exact (Hsym eq_refl)|]. split; [exact (Hcur eq_refl)|].
  split; [apply Hspecific; eauto|].
  intros Hexpiry. apply Hday in Hexpiry. discriminate Hexpiry.
Defined.

(** The USD cash account comes before the USD margin account; there is no
    TFSA. *)
Lemma get_account_id_first_match_witness :
  get_account_id (broker []) "usd" "cASH" [] = (Ok (JStr "A2"), [GET account_url])
  ∧ get_account_id (broker []) "usd" "tfsa" [] = (Raise AccountNotFoundError, [GET account_url]).
Proof.
  set (r := returned JNull (broker [] [] (GET account_url))).
  assert (Hr : broker [] [] (GET account_url) = Ok r) by (vm_compute; reflexivity).
  assert (Hlist : account_list_of r = Ok (JList accounts)) by (vm_compute; reflexivity).
  split.
  - apply (proj1 (get_account_id_first_match (broker []) "usd" "cASH" [] r accounts
                    eq_refl eq_refl Hr Hlist)
             [account "Cash CAD" "A1"] (account "Cash USD" "A2")
             [account "Margin USD" "A3"] (JStr "A2")).
    + reflexivity.
    + constructor; [|constructor]. split; [eexists; reflexivity|vm_compute; reflexivity].
    + vm_compute; reflexivity.
    + reflexivity.
  - apply (proj2 (get_account_id_first_match (broker []) "usd" "tfsa" [] r accounts
                    eq_refl eq_refl Hr Hlist)).
    repeat constructor; try (eexists; reflexivity).
Defined.

(** Two orders carry the id O8: the first one answers.  No order carries
    O1. *)
Lemma get_order_lookup_witness :
  get_order_status (broker []) "A2" "O8" [] = (Ok (JBool false), [GET (orders_url "A2")])
  ∧ get_order (broker []) "A2" "O8" []
    = (Ok (JDict {[
         "order_id" := JStr "O8";
         "operation" := JStr "SELL";
         "order_quantity" := JInt 10;
         "filled_quantity" := JInt 10;
         "fill_price" := JFloat (5 # 2);
         "order_open" := JBool false ]}), [GET (orders_url "A2")])
  ∧ get_order (broker []) "A2" "O1" [] = (Raise OrderNotFoundError, [GET (orders_url "A2")])
  ∧ get_order_status (broker []) "A2" "O1" []
    = (Raise OrderNotFoundError, [GET (orders_url "A2")]).
Proof.
  set (r := returned JNull (broker [] [] (GET (orders_url "A2")))).
  assert (Hr : broker [] [] (GET (orders_url "A2")) = Ok r) by (vm_compute; reflexivity).
  assert (Hlist : field ["data"; "orderList"] r = Ok (JList orders))
    by (vm_compute; reflexivity).
  destruct (get_order_lookup (broker []) "A2" "O8" [] r orders Hr Hlist) as [_ Hfound].
  destruct (get_order_lookup (broker []) "A2" "O1" [] r orders Hr Hlist) as [Hnone _].
  destruct (Hfound [order "O7" "BUY" 0 true] (order "O8" "SELL" 10 false)
              [order "O8" "BUY" 3 true]) as [Hstatus Horder].
  { reflexivity. }
  { constructor; [|constructor]. split; [eexists; reflexivity|vm_compute; reflexivity]. }
  { vm_compute; reflexivity. }
  split; [apply Hstatus; reflexivity|].
  split; [apply Horder; reflexivity|].
  apply Hnone. repeat constructor; try (eexists; reflexivity).
Defined.

(** Account A1 holds nothing; account A2 holds AAPL twice and RY once. *)
Lemma get_positions_per_symbol_witness :
  get_positions (broker []) "A1" [] = (Raise NoPositionsError, [GET (pos_url "A1")])
  ∧ ∃ return_dict,
      get_positions (broker []) "A2" [] = (Ok return_dict, [GET (pos_url "A2")]) ∧
      dom return_dict = {[ "AAPL"; "RY" ]}.
Proof.
  split.
  - set (r := returned JNull (broker [] [] (GET (pos_url "A1")))).
    assert (Hr : broker [] [] (GET (pos_url "A1")) = Ok r) by (vm_compute; reflexivity).
    apply (proj1 (get_positions_per_symbol (broker []) "A1" [] r Hr)).
    vm_compute; reflexivity.
  - set (r := returned JNull (broker [] [] (GET (pos_url "A2")))).
    assert (Hr : broker [] [] (GET (pos_url "A2")) = Ok r) by (vm_compute; reflexivity).
    assert (Hlist : pos_list_of r = Ok (JList holdings)) by (vm_compute; reflexivity).
    assert (Hne : holdings ≠ []) by discriminate.
    assert (Hheld : Forall2 held_as holdings views)
      by (repeat constructor).
    destruct (proj2 (get_positions_per_symbol (broker []) "A2" [] r Hr)
                holdings views Hlist Hne Hheld)
      as (return_dict & Hrun & Hdom & _).
    exists return_dict. split; [exact Hrun|]. rewrite Hdom.
    apply set_eq. intros symbol. cbn. set_solver.
Defined.

(** Of the two AAPL positions the second, of 8 shares, is the one reported,
    and three positions make two entries. *)
Lemma get_positions_last_duplicate_wins_witness :
  ∃ return_dict,
    get_positions (broker []) "A2" [] = (Ok return_dict, [GET (pos_url "A2")]) ∧
    (return_dict !! "AAPL" ≫= any_field "quantity") = Some (JInt 8) ∧
    (size return_dict < length holdings)%nat.
Proof.
  set (r := returned JNull (broker [] [] (GET (pos_url "A2")))).
  assert (Hr : broker [] [] (GET (pos_url "A2")) = Ok r) by (vm_compute; reflexivity).
  assert (Hlist : pos_list_of r = Ok (JList holdings)) by (vm_compute; reflexivity).
  assert (Hne : holdings ≠ []) by discriminate.
  assert (Hheld : Forall2 held_as holdings views)
    by (repeat constructor).
  destruct (get_positions_last_duplicate_wins (broker []) "A2" [] r holdings
              views Hr Hlist Hne Hheld)
    as (return_dict & Hrun & Hlast & _ & Hfewer).
  exists return_dict. split; [exact Hrun|]. split.
  - rewrite (Hlast [("AAPL", held "AC;AAPL;USA;" 5 (3 # 1)); ("RY", held "AC;RY;CAN;" 2 (9 # 1))]
               "AAPL" (held "AC;AAPL;USA;" 8 (4 # 1)) [] eq_refl)
      by (cbn; set_solver).
    reflexivity.
  - by apply (Hfewer 0%nat 2%nat "AAPL" (held "AC;AAPL;USA;" 5 (3 # 1))
                (held "AC;AAPL;USA;" 8 (4 # 1))).
Defined.

(** A market order against the broker: one validation request, then the
    payload it produced, phone number included, to the submission endpoint. *)
Example place_market_order_run :
  ∃ req order_data,
    place_market_order (broker []) tuesday "aapl" "A2" "usd" "buy" 10 "514-555-0100" []
    = (Ok (JDict {[ "order_id" := JStr "O9" ]}),
       [POST validation_url req; POST order_url order_data]) ∧
    field ["stockOrder"; "phone"] order_data = Ok (JStr "514-555-0100") ∧
    field ["stockOrder"; "finInstrument"; "marketSymbol"; "symbolCntryCd"] order_data
    = Ok (JStr "USA").
Proof.
  set (req := returned JNull (validation_data tuesday "A2" "buy" 10 "aapl" "usd" None 0)).
  set (run := validate (broker []) tuesday "A2" "buy" 10 "aapl" "usd" "514-555-0100" None 0 []).
  exists req, (returned JNull run.1). vm_compute. done.
Qed.

Example place_limit_order_rejected :
  place_limit_order (broker [manual_review]) tuesday "ry" "A2" "cad" "sell" 3 "514-555-0100"
    (5 # 2) 4 []
  = (Raise OrderRejectedError,
     [POST validation_url
        (returned JNull (validation_data tuesday "A2" "sell" 3 "ry" "cad" (Some (5 # 2)) 4))]).
Proof. vm_compute. reflexivity. Qed.

Example str_methods :
  upper "usd" = "USD" ∧ title "tFSA account" = "Tfsa Account" ∧
  split ";" "AC;AAPL;USA;" = ["AC"; "AAPL"; "USA"; ""] ∧ split ";" "" = [""] ∧
  str_of_int 10 = "10" ∧ str_of_int (-7) = "-7" ∧
  contains "USD" "Cash USD" = true ∧ contains "Usd" "Cash USD" = false.
Proof. repeat split; reflexivity. Qed.

Example civil_dates :
  ord2ymd 1 = (1, 1, 1) ∧ ord2ymd MAXORDINAL = (9999, 12, 31) ∧
  ord2ymd 730179 = (2000, 2, 29) ∧ ymd2ord 2026 11 3 = toordinal tuesday ∧
  strftime_ymd tuesday = "2026-11-03" ∧ weekday tuesday = 1 ∧
  add_days tuesday 3000000 = Raise OverflowError.
Proof. vm_compute. repeat split; reflexivity. Qed.

(** Before year 1000 the year is printed on the digits it has. *)
Example early_dates :
  ymd2ord 999 6 3 = toordinal tuesday - 375257 ∧
  expiry_of tuesday (-375257) = Ok ("DATE", JStr "999-06-03") ∧
  strftime_ymd {| toordinal := 1; time_of_day := 0 |} = "1-01-01".
Proof. vm_compute. repeat split; reflexivity. Qed.

End Runs.

(** * Further properties *)

(** ** Case *)

Section Case.

Lemma to_upper_not_lower (c : ascii) : is_lower (to_upper c) = false.
Proof. by destruct c as [[] [] [] [] [] [] [] []]. Qed.

Lemma to_upper_is_upper (c : ascii) : is_upper (to_upper c) = is_lower c || is_upper c.
Proof. by destruct c as [[] [] [] [] [] [] [] []]. Qed.

Lemma to_lower_to_upper (c : ascii) : is_lower c = true → to_lower (to_upper c) = c.
Proof. by destruct c as [[] [] [] [] [] [] [] []]. Qed.

Lemma to_upper_fixed (c : ascii) : is_lower c = false → to_upper c = c.
Proof. unfold to_upper. by intros ->. Qed.

Lemma upper_idempotent (s : string) : upper (upper s) = upper s.
Proof.
  induction s as [|c s IH]; [reflexivity|]. cbn [upper]. rewrite IH. f_equal.
  apply to_upper_fixed, to_upper_not_lower.
Qed.

(** Title-casing looks at which characters are letters, not at their case. *)
Lemma title_from_upper (previous_is_cased : bool) (s : string) :
  title_from previous_is_cased (upper s) = title_from previous_is_cased s.
Proof.
  revert previous_is_cased. induction s as [|c s IH]; intros b; [reflexivity|].
  cbn [upper title_from]. rewrite to_upper_not_lower, to_upper_is_upper, !IH.
  destruct (is_lower c) eqn:Hl; cbn [orb].
  - rewrite to_lower_to_upper by assumption. reflexivity.
  - rewrite to_upper_fixed by assumption. reflexivity.
Qed.

Lemma title_same_letters (s s' : string) : upper s = upper s' → title s = title s'.
Proof.
  intros H. unfold title. by rewrite <- (title_from_upper false s), H, title_from_upper.
Qed.

End Case.

Section CaseOfArguments.

Variable server : list request → request → result json.
Variable today : datetime.

(** X1.  [get_account_id] does not tell the cases of the letters of its
    arguments apart: two calls whose currencies, and whose account types, are
    of ASCII characters and the same up to case do the same. *)
Theorem get_account_id_case_insensitive (currency_type currency_type' : string)
    (account_type account_type' : string) (log : list request) :
  isascii currency_type = true → isascii currency_type' = true →
  isascii account_type = true → isascii account_type' = true →
  upper currency_type = upper currency_type' →
  upper account_type = upper account_type' →
  get_account_id server currency_type account_type log
  = get_account_id server currency_type' account_type' log.
Proof.
  intros _ _ _ _ Hc Ht. unfold get_account_id. by rewrite Hc, (title_same_letters _ _ Ht).
Qed.

Lemma validation_data_same_letters (account_id side side' : string) (qty : Z)
    (symbol symbol' currency currency' : string) (limit_price : option Q)
    (days_till_expiration : Z) :
  upper side = upper side' → upper symbol = upper symbol' →
  upper currency = upper currency' →
  validation_data today account_id side qty symbol currency limit_price days_till_expiration
  = validation_data today account_id side' qty symbol' currency' limit_price
      days_till_expiration.
Proof. intros Hside Hsym Hcur. unfold validation_data. by rewrite Hside, Hsym, Hcur. Qed.

(** X2.  Side, symbol and currency count up to case only: [validate],
    [place_market_order] and [place_limit_order] send the same requests and
    end the same way for [buy], [aapl], [usd] as for [BUY], [AAPL], [USD]. *)
Theorem orders_case_insensitive (account_id side side' : string) (qty : Z)
    (symbol symbol' currency currency' phone : string) (limit_price : option Q)
    (price : Q) (days_till_expiration : Z) (log : list request) :
  upper side = upper side' → upper symbol = upper symbol' →
  upper currency = upper currency' →
  validate server today account_id side qty symbol currency phone limit_price
    days_till_expiration log
  = validate server today account_id side' qty symbol' currency' phone limit_price
      days_till_expiration log
  ∧ place_market_order server today symbol account_id currency side qty phone log
    = place_market_order server today symbol' account_id currency' side' qty phone log
  ∧ place_limit_order server today symbol account_id currency side qty phone price
      days_till_expiration log
    = place_limit_order server today symbol' account_id currency' side' qty phone price
        days_till_expiration log.
Proof.
  intros Hside Hsym Hcur.
  assert (Hv : ∀ lp d log,
             validate server today account_id side qty symbol currency phone lp d log
             = validate server today account_id side' qty symbol' currency' phone lp d log).
  { intros lp d l. rewrite !validate_run.
    by rewrite (validation_data_same_letters _ side side' _ symbol symbol' currency currency'). }
  split; [apply Hv|].
  unfold place_market_order, place_limit_order, mbind, M_bind. by rewrite !Hv.
Qed.


(** X4.  An offset that lands before 0001-01-01 or after 9999-12-31 stops
    [validate] with [OverflowError] before anything is sent, whatever the
    currency; [place_limit_order] then submits nothing either. *)
Theorem validate_offset_out_of_range (account_id side : string) (qty : Z)
    (symbol currency phone : string) (limit_price : option Q) (price : Q)
    (days_till_expiration : Z) (log : list request) :
  days_till_expiration ≠ 0 →
  toordinal today + days_till_expiration < 1
  ∨ MAXORDINAL < toordinal today + days_till_expiration →
  validate server today account_id side qty symbol currency phone limit_price
    days_till_expiration log = (Raise OverflowError, log)
  ∧ place_limit_order server today symbol account_id currency side qty phone price
      days_till_expiration log = (Raise OverflowError, log).
Proof.
  intros Hdays Hout.
  assert (Hadd : add_days today days_till_expiration = Raise OverflowError).
  { unfold add_days. destruct (Z.abs days_till_expiration <=? 999999999); [|reflexivity].
    destruct (Z.ltb_spec 0 (toordinal today + days_till_expiration)); [|reflexivity].
    destruct (Z.leb_spec (toordinal today + days_till_expiration) MAXORDINAL);
      [lia|reflexivity]. }
  assert (Hv : ∀ lp, validation_data today account_id side qty symbol currency lp
                       days_till_expiration = Raise OverflowError).
  { intros lp. unfold validation_data, expiry_of, expiry_datetime.
    destruct (Z.eqb_spec days_till_expiration 0); [done|]. by rewrite Hadd. }
  split.
  - by rewrite validate_run, Hv.
  - unfold place_limit_order, mbind, M_bind. by rewrite validate_run, Hv.
Qed.

End CaseOfArguments.

(** ** More on validate and the orders it precedes *)

Section ValidateMore.

Variable server : list request → request → result json.
Variable today : datetime.

Lemma getitem_dict (d : gmap string json) (key : string) :
  getitem (JDict d) key = match d !! key with Some v => Ok v | None => Raise KeyError end.
Proof. reflexivity. Qed.

Lemma collect_warnings_app (before rest warning_list : list json) :
  Forall (λ m, well_formed_message m ∧ mentions_representative m = false) before →
  collect_warnings (before ++ rest) warning_list
  = collect_warnings rest (warning_list ++ message_ids before).
Proof.
  intros Hbefore. revert warning_list.
  induction Hbefore as [|m before [[[text Htext] [id Hid]] Hno] _ IH]; intros warning_list.
  - cbn. by rewrite app_nil_r.
  - cbn [app collect_warnings]. unfold mentions_representative in Hno. rewrite Htext in Hno.
    rewrite (str_field_getitem _ _ _ Htext). cbn [mbind result_bind py_in]. rewrite Hno.
    apply any_field_getitem in Hid as Hget. rewrite Hget. cbn [mbind result_bind].
    rewrite IH. unfold message_ids. cbn [omap list_omap]. rewrite Hid.
    by rewrite <- app_assoc.
Qed.

(** What [validate] does with an answer that has an order and a message
    list. *)
Lemma validate_answer (account_id side : string) (qty : Z) (symbol currency phone : string)
    (limit_price : option Q) (days_till_expiration : Z) (log : list request)
    (req response stock_order : json) (items : list json) :
  validation_data today account_id side qty symbol currency limit_price
    days_till_expiration = Ok req →
  server log (POST validation_url req) = Ok response →
  field ["data"; "stockOrder"] response = Ok stock_order →
  field ["messageList"] response = Ok (JList items) →
  validate server today account_id side qty symbol currency phone limit_price
    days_till_expiration log
  = (warning_list ← collect_warnings items [];
     stock_order' ← setitem stock_order "phone" (JStr phone);
     Ok (JDict (<["stockOrder" := stock_order']>
                  (<["warnsNoList" := JList warning_list]> {[ "stockOrder" := stock_order ]}))),
     (log ++ [POST validation_url req])%list).
Proof.
  intros Hreq Hresp Hstock Hlist.
  rewrite validate_run, Hreq, Hresp. cbn [mbind result_bind].
  rewrite field_2 in Hstock. apply bind_ok in Hstock as (data & Hdata & Hstock).
  rewrite field_1 in Hlist. apply getitem_ok in Hlist as Hdict.
  destruct Hdict as (r & -> & Hr).
  unfold order_data_of. rewrite Hdata. cbn [mbind result_bind]. rewrite Hstock.
  cbn [mbind result_bind py_in]. rewrite Hr. rewrite bool_decide_eq_true_2 by eauto.
  rewrite Hlist. cbn [mbind result_bind iter].
  by destruct (collect_warnings items []).
Qed.

(** X6.  The first message that announces manual processing rejects the
    order, whatever follows it in the list, well-formed or not, and whether or
    not that message has a [msgId] itself. *)
Theorem rejection_short_circuits (account_id side : string) (qty : Z)
    (symbol currency phone : string) (limit_price : option Q) (days_till_expiration : Z)
    (log : list request) (req response stock_order notice : json)
    (before after : list json) :
  validation_data today account_id side qty symbol currency limit_price
    days_till_expiration = Ok req →
  server log (POST validation_url req) = Ok response →
  field ["data"; "stockOrder"] response = Ok stock_order →
  field ["messageList"] response = Ok (JList (before ++ notice :: after)) →
  Forall (λ m, well_formed_message m ∧ mentions_representative m = false) before →
  mentions_representative notice = true →
  validate server today account_id side qty symbol currency phone limit_price
    days_till_expiration log
  = (Raise OrderRejectedError, (log ++ [POST validation_url req])%list).
Proof.
  intros Hreq Hresp Hstock Hlist Hbefore Hnotice.
  rewrite (validate_answer _ _ _ _ _ _ _ _ _ _ _ _ _ Hreq Hresp Hstock Hlist).
  rewrite collect_warnings_app by assumption. cbn [collect_warnings].
  unfold mentions_representative in Hnotice.
  destruct (str_field "message" notice) as [text|] eqn:Htext; [|discriminate].
  rewrite (str_field_getitem _ _ _ Htext). cbn [mbind result_bind py_in].
  by rewrite Hnotice.
Qed.

(** X7.  A message without a [message] text, or a plain warning without a
    [msgId], stops [validate] with [KeyError] where the loop reaches it: a
    notice that comes later in the list is never seen, and the order is not
    reported as rejected. *)
Theorem malformed_message_masks_rejection (account_id side : string) (qty : Z)
    (symbol currency phone : string) (limit_price : option Q) (days_till_expiration : Z)
    (log : list request) (req response stock_order : json) (d : gmap string json)
    (before after : list json) :
  validation_data today account_id side qty symbol currency limit_price
    days_till_expiration = Ok req →
  server log (POST validation_url req) = Ok response →
  field ["data"; "stockOrder"] response = Ok stock_order →
  field ["messageList"] response = Ok (JList (before ++ JDict d :: after)) →
  Forall (λ m, well_formed_message m ∧ mentions_representative m = false) before →
  d !! "message" = None
  ∨ (is_Some (str_field "message" (JDict d))
     ∧ mentions_representative (JDict d) = false ∧ d !! "msgId" = None) →
  validate server today account_id side qty symbol currency phone limit_price
    days_till_expiration log
  = (Raise KeyError, (log ++ [POST validation_url req])%list).
Proof.
  intros Hreq Hresp Hstock Hlist Hbefore Hbad.
  rewrite (validate_answer _ _ _ _ _ _ _ _ _ _ _ _ _ Hreq Hresp Hstock Hlist).
  rewrite collect_warnings_app by assumption. cbn [collect_warnings].
  destruct Hbad as [Hnone|([text Htext] & Hno & Hid)].
  - by rewrite (getitem_dict d "message"), Hnone.
  - unfold mentions_representative in Hno. rewrite Htext in Hno.
    rewrite (str_field_getitem _ _ _ Htext). cbn [mbind result_bind py_in]. rewrite Hno.
    by rewrite (getitem_dict d "msgId"), Hid.
Qed.

(** X5.  When [validate] returns, the payload is the broker's own
    [stockOrder] with nothing but [phone] overwritten, next to [warnsNoList]
    exactly when the answer had a [messageList], and it has no other key. *)
Theorem validate_payload_frame (account_id side : string) (qty : Z)
    (symbol currency phone : string) (limit_price : option Q) (days_till_expiration : Z)
    (log log' : list request) (order_data : json) :
  validate server today account_id side qty symbol currency phone limit_price
    days_till_expiration log = (Ok order_data, log') →
  ∃ req response,
    log' = (log ++ [POST validation_url req])%list ∧
    server log (POST validation_url req) = Ok response ∧
    (∀ key, key ≠ "phone" →
       field ["stockOrder"; key] order_data = field ["data"; "stockOrder"; key] response) ∧
    (is_ok (field ["warnsNoList"] order_data) = true
     ↔ is_Some (any_field "messageList" response)) ∧
    (∀ key, key ≠ "stockOrder" → key ≠ "warnsNoList" →
       field [key] order_data = Raise KeyError).
Proof.
  rewrite validate_run.
  destruct (validation_data _ _ _ _ _ _ _ _) as [req|e]; [|discriminate].
  intros [= Hrun <-]. apply bind_ok in Hrun as (response & Hresp & Hrun).
  exists req, response. split; [reflexivity|]. split; [exact Hresp|].
  unfold order_data_of in Hrun.
  apply bind_ok in Hrun as (data & Hdata & Hrun).
  apply bind_ok in Hrun as (stock_order & Hstock & Hrun).
  apply bind_ok in Hrun as (has_messages & Hhas & Hrun).
  apply bind_ok in Hrun as (payload & Hpayload & Hrun).
  apply bind_ok in Hrun as (stock_order' & Hset & [= <-]).
  destruct stock_order as [| | | | | |so]; try discriminate. injection Hset as <-.
  apply getitem_ok in Hdata as Hdict. destruct Hdict as (r & -> & Hr).
  cbn [py_in] in Hhas. injection Hhas as <-.
  split; [|split].
  - intros key Hkey. rewrite field_3, Hdata. cbn [mbind result_bind].
    rewrite Hstock. cbn [mbind result_bind].
    rewrite field_2, getitem_dict, lookup_insert_eq. cbn [mbind result_bind].
    rewrite !getitem_dict. by rewrite lookup_insert_ne.
  - rewrite field_1, getitem_dict, lookup_insert_ne by done.
    cbn [any_field]. case_bool_decide as Hm.
    + apply bind_ok in Hpayload as (message_list & _ & Hpayload).
      apply bind_ok in Hpayload as (items & _ & Hpayload).
      apply bind_ok in Hpayload as (warning_list & _ & [= <-]).
      by rewrite lookup_insert_eq.
    + injection Hpayload as <-. rewrite lookup_singleton_ne by done.
      split; [discriminate|done].
  - intros key Hso Hwarn. rewrite field_1, getitem_dict, lookup_insert_ne by done.
    case_bool_decide as Hm.
    + apply bind_ok in Hpayload as (message_list & _ & Hpayload).
      apply bind_ok in Hpayload as (items & _ & Hpayload).
      apply bind_ok in Hpayload as (warning_list & _ & [= <-]).
      rewrite lookup_insert_ne by done. by rewrite lookup_singleton_ne.
    + injection Hpayload as <-. by rewrite lookup_singleton_ne.
Qed.

Lemma place_run (validate_call : M json) (log : list request) :
  (order_data ← validate_call;
   r ← send server (POST order_url order_data);
   lift (order_id_of r)) log
  = match validate_call log with
    | (Ok order_data, log1) =>
        (server log1 (POST order_url order_data) ≫= order_id_of,
         (log1 ++ [POST order_url order_data])%list)
    | (Raise e, log1) => (Raise e, log1)
    end.
Proof.
  unfold mbind at 1, M_bind at 1.
  destruct (validate_call log) as [[order_data|e] log1]; [|reflexivity].
  unfold mbind, M_bind, send, lift.
  by destruct (server log1 (POST order_url order_data)) as [r|e]; cbn;
    [destruct (order_id_of r)|].
Qed.

(** X15.  What [place_market_order] and [place_limit_order] submit, if they
    submit, is one order, and its phone field is the caller's number, never
    the placeholder of the validation request. *)
Theorem submitted_order_carries_phone (symbol account_id currency side : string)
    (qty : Z) (phone : string) (limit_price : Q) (days_till_expiration : Z)
    (log : list request) :
  let carries (run : result json * list request) :=
    ∃ sent,
      run.2 = (log ++ sent)%list ∧
      (length (submissions sent) ≤ 1)%nat ∧
      ∀ r, r ∈ submissions sent →
        ∃ body, r = POST order_url body
                ∧ field ["stockOrder"; "phone"] body = Ok (JStr phone) in
  carries (place_market_order server today symbol account_id currency side qty phone log)
  ∧ carries (place_limit_order server today symbol account_id currency side qty phone
               limit_price days_till_expiration log).
Proof.
  intros carries.
  assert (Hany : ∀ lp d,
             carries ((order_data ← validate server today account_id side qty symbol
                                      currency phone lp d;
                       r ← send server (POST order_url order_data);
                       lift (order_id_of r)) log)).
  { intros lp d. rewrite place_run, validate_run.
    destruct (validation_data _ _ _ _ _ _ _ _) as [req|e].
    - destruct (server log (POST validation_url req)) as [response|e]; cbn [mbind result_bind].
      + destruct (order_data_of response phone) as [order_data|e] eqn:Hod.
        * exists [POST validation_url req; POST order_url order_data]. cbn [snd].
          split; [by rewrite <- app_assoc|]. split; [vm_compute; lia|].
          intros r Hr. vm_compute in Hr. apply list_elem_of_singleton in Hr as ->.
          exists order_data. split; [reflexivity|]. by apply order_data_of_phone in Hod.
        * exists [POST validation_url req]. split; [reflexivity|]. split; [vm_compute; lia|].
          intros r Hr. vm_compute in Hr. by apply elem_of_nil in Hr.
      + exists [POST validation_url req]. split; [reflexivity|]. split; [vm_compute; lia|].
        intros r Hr. vm_compute in Hr. by apply elem_of_nil in Hr.
    - exists []. cbn [snd]. split; [by rewrite app_nil_r|]. split; [cbn; lia|].
      intros r Hr. by apply elem_of_nil in Hr. }
  split; apply Hany.
Qed.

End ValidateMore.

(** ** More on the order list *)

Section OrdersMore.

Variable server : list request → request → result json.

Lemma find_order_cases (orders : list json) (order_id : string) (order_info x : json) :
  find_order orders order_id order_info = Ok x →
  x = order_info
  ∨ (scan_status orders order_id = getitem x "orderOpen"
     ∧ getitem x "ordId" = Ok (JStr order_id)).
Proof.
  induction orders as [|item orders IH]; cbn [find_order scan_status].
  - intros [= <-]. by left.
  - destruct (getitem item "ordId") as [v|e] eqn:Hv; [|discriminate].
    cbn [mbind result_bind]. destruct (eq_str v order_id) eqn:Heq.
    + intros [= <-]. right. split; [reflexivity|].
      destruct v; try discriminate. cbn in Heq. by apply String.eqb_eq in Heq as ->.
    + exact IH.
Qed.

Lemma return_dict_of_fields (order_info d : json) :
  return_dict_of order_info = Ok d →
  getitem order_info "ordId" = field ["order_id"] d
  ∧ getitem order_info "orderOpen" = field ["order_open"] d
  ∧ is_ok (field ["order_open"] d) = true.
Proof.
  unfold return_dict_of. intros H.
  apply bind_ok in H as (order_id & Hid & H).
  apply bind_ok in H as (operation & _ & H).
  apply bind_ok in H as (order_quantity & _ & H).
  apply bind_ok in H as (filled_quantity & _ & H).
  apply bind_ok in H as (fill_price & _ & H).
  apply bind_ok in H as (order_open & Hopen & [= <-]).
  rewrite Hid, Hopen, !field_1, !getitem_dict. by simplify_map_eq.
Qed.

(** X8.  Whenever [get_order] returns, [get_order_status] on the same
    session returns too, with the very flag [get_order] reports as
    [order_open]; and the [order_id] reported is the id that was asked for. *)
Theorem get_order_status_agrees (account_id order_id : string) (log log' : list request)
    (d : json) :
  get_order server account_id order_id log = (Ok d, log') →
  get_order_status server account_id order_id log = (field ["order_open"] d, log')
  ∧ is_ok (field ["order_open"] d) = true
  ∧ field ["order_id"] d = Ok (JStr order_id).
Proof.
  intros Hrun.
  destruct (order_list server account_id log) as [[orders|e] log1] eqn:Hlist.
  - destruct (get_order_run server account_id order_id log log1 orders Hlist)
      as [Horder Hstatus].
    rewrite Horder in Hrun. injection Hrun as Hrun <-. rewrite Hstatus.
    apply bind_ok in Hrun as (order_info & Hfind & Hrun).
    apply bind_ok in Hrun as (n & Hlen & Hrun).
    apply find_order_cases in Hfind as [->|[Hscan Hid]].
    + injection Hlen as <-. discriminate Hrun.
    + destruct (n =? 0)%nat; [discriminate|].
      apply return_dict_of_fields in Hrun as (Hid' & Hopen & Hok).
      rewrite Hscan, Hopen. split; [reflexivity|]. split; [exact Hok|].
      by rewrite <- Hid'.
  - unfold get_order, mbind, M_bind in Hrun. rewrite Hlist in Hrun. discriminate Hrun.
Qed.

Lemma return_dict_of_incomplete (d : gmap string json) (key : string) :
  key ∈ ["ordId"; "operation"; "ordQty"; "execQty"; "avgExecPrice"; "orderOpen"] →
  d !! key = None →
  return_dict_of (JDict d) = Raise KeyError.
Proof.
  intros Hkey Hnone. unfold return_dict_of. rewrite !getitem_dict.
  destruct (d !! "ordId") eqn:H1; [|reflexivity]. cbn [mbind result_bind].
  destruct (d !! "operation") eqn:H2; [|reflexivity]. cbn [mbind result_bind].
  destruct (d !! "ordQty") eqn:H3; [|reflexivity]. cbn [mbind result_bind].
  destruct (d !! "execQty") eqn:H4; [|reflexivity]. cbn [mbind result_bind].
  destruct (d !! "avgExecPrice") eqn:H5; [|reflexivity]. cbn [mbind result_bind].
  destruct (d !! "orderOpen") eqn:H6; [|reflexivity].
  repeat (apply elem_of_cons in Hkey as [->|Hkey]; [congruence|]).
  by apply elem_of_nil in Hkey.
Qed.

(** X9.  The first entry with the requested id decides also when it is
    incomplete: if it lacks one of the fields [get_order] projects,
    [get_order] raises [KeyError], even when a later entry with the same id
    has them all, while [get_order_status] still returns as long as
    [orderOpen] is there. *)
Theorem get_order_incomplete_entry (account_id order_id key : string)
    (log : list request) (r : json) (before after : list json) (d : gmap string json) :
  server log (GET (orders_url account_id)) = Ok r →
  field ["data"; "orderList"] r = Ok (JList (before ++ JDict d :: after)) →
  Forall (λ o, is_Some (any_field "ordId" o) ∧ has_ord_id order_id o = false) before →
  has_ord_id order_id (JDict d) = true →
  key ∈ ["operation"; "ordQty"; "execQty"; "avgExecPrice"; "orderOpen"] →
  d !! key = None →
  get_order server account_id order_id log
  = (Raise KeyError, (log ++ [GET (orders_url account_id)])%list)
  ∧ (∀ order_open,
       d !! "orderOpen" = Some order_open →
       get_order_status server account_id order_id log
       = (Ok order_open, (log ++ [GET (orders_url account_id)])%list)).
Proof.
  intros Hr Hlist Hbefore Hitem Hkey Hnone.
  rewrite field_2 in Hlist. fold (order_list_of r) in Hlist.
  assert (Hrun : order_list server account_id log
                 = (Ok (before ++ JDict d :: after)%list,
                    (log ++ [GET (orders_url account_id)])%list)).
  { rewrite order_list_run, Hr. cbn [mbind result_bind]. by rewrite Hlist. }
  destruct (get_order_run server account_id order_id log _ _ Hrun) as [-> ->].
  destruct (orders_skip order_id before (JDict d :: after) (JList []) Hbefore)
    as [-> ->].
  cbn [find_order scan_status].
  pose proof (has_ord_id_str _ _ Hitem) as Hid.
  apply any_field_getitem in Hid as Hget. rewrite Hget. cbn [mbind result_bind].
  unfold eq_str, is_str. rewrite String.eqb_refl. cbn [mbind result_bind].
  destruct (len_of_order _ _ Hitem) as (n & ->). cbn [mbind result_bind Nat.eqb].
  split.
  - f_equal. apply (return_dict_of_incomplete d key); [|exact Hnone].
    by right.
  - intros order_open Hopen. by rewrite getitem_dict, Hopen.
Qed.

Lemma get_latest_order_run (account_id : string) (log : list request) :
  get_latest_order server account_id log
  = (r ← server log (GET (orders_url account_id));
     order_info ← order_list_of r;
     latest_of order_info,
     (log ++ [GET (orders_url account_id)])%list).
Proof.
  unfold get_latest_order, mbind at 1, M_bind, send, lift.
  destruct (server log (GET (orders_url account_id))) as [r|e]; [|reflexivity].
  cbn. by destruct (_ ≫= _).
Qed.

(** An order list whose first entry can be projected is a list. *)
Lemma latest_of_ok (order_info d : json) :
  latest_of order_info = Ok d →
  ∃ first rest, order_info = JList (first :: rest) ∧ return_dict_of first = Ok d.
Proof.
  unfold latest_of. intros H. apply bind_ok in H as (n & Hlen & H).
  destruct (n =? 0)%nat eqn:Hn; [discriminate|].
  apply bind_ok in H as (first & Hfirst & H).
  destruct order_info as [| | | |s|l|m]; try discriminate.
  - exfalso. unfold getindex, subscript, index in Hfirst. cbn [Z.ltb Z.compare] in Hfirst.
    change (Z.to_nat 0) with 0%nat in Hfirst.
    destruct (string_chars s) as [|[] chars] eqn:Hs; try discriminate.
    + destruct s; discriminate.
    + destruct s; discriminate.
    + destruct s; discriminate.
    + destruct s; discriminate.
    + injection Hfirst as <-. discriminate H.
    + destruct s; discriminate.
    + destruct s; discriminate.
  - destruct l as [|x rest]; [discriminate|].
    injection Hfirst as <-. eauto.
Qed.

(** X10.  The latest order can be looked up by the id it was reported
    under: when [get_latest_order] returns an order with a string id,
    [get_order] with that id returns the same order from the same order
    list, and [get_order_status] its flag. *)
Theorem get_order_of_latest (account_id order_id : string) (log log' other : list request)
    (r d : json) :
  server log (GET (orders_url account_id)) = Ok r →
  server other (GET (orders_url account_id)) = Ok r →
  get_latest_order server account_id log = (Ok d, log') →
  field ["order_id"] d = Ok (JStr order_id) →
  get_order server account_id order_id other
  = (Ok d, (other ++ [GET (orders_url account_id)])%list)
  ∧ get_order_status server account_id order_id other
    = (field ["order_open"] d, (other ++ [GET (orders_url account_id)])%list).
Proof.
  intros Hr Hother Hlatest Hid.
  rewrite get_latest_order_run, Hr in Hlatest. cbn [mbind result_bind] in Hlatest.
  injection Hlatest as Hlatest _.
  apply bind_ok in Hlatest as (order_info & Hlist & Hlatest).
  apply latest_of_ok in Hlatest as (first & rest & -> & Hd).
  assert (Hrun : order_list server account_id other
                 = (Ok (first :: rest), (other ++ [GET (orders_url account_id)])%list)).
  { rewrite order_list_run, Hother. cbn [mbind result_bind]. by rewrite Hlist. }
  destruct (get_order_run server account_id order_id other _ _ Hrun) as [-> ->].
  destruct (return_dict_of_fields _ _ Hd) as (Hget & Hopen & _).
  rewrite Hid in Hget. cbn [find_order scan_status]. rewrite Hget.
  cbn [mbind result_bind]. unfold eq_str, is_str. rewrite String.eqb_refl.
  cbn [mbind result_bind]. rewrite Hopen. split; [|reflexivity].
  assert (Hlen : ∃ n, len first = Ok (S n)).
  { apply (len_of_order order_id). unfold has_ord_id.
    apply any_field_getitem in Hget. rewrite Hget. cbn. apply String.eqb_refl. }
  destruct Hlen as (n & ->). cbn [mbind result_bind Nat.eqb]. by rewrite Hd.
Qed.

(** X11.  [get_latest_order] raises [OrderNotFoundError] on an empty order
    list, and otherwise reads the first entry only: what follows it in the
    list has no influence on the result. *)
Theorem get_latest_order_first_only (account_id : string) (log : list request) (r : json)
    (orders : list json) :
  server log (GET (orders_url account_id)) = Ok r →
  field ["data"; "orderList"] r = Ok (JList orders) →
  (orders = [] →
   get_latest_order server account_id log
   = (Raise OrderNotFoundError, (log ++ [GET (orders_url account_id)])%list))
  ∧
  (∀ first rest server' log' r' rest',
     orders = first :: rest →
     server' log' (GET (orders_url account_id)) = Ok r' →
     field ["data"; "orderList"] r' = Ok (JList (first :: rest')) →
     (get_latest_order server account_id log).1
     = (get_latest_order server' account_id log').1).
Proof.
  intros Hr Hlist. rewrite field_2 in Hlist. fold (order_list_of r) in Hlist.
  split.
  - intros ->. rewrite get_latest_order_run, Hr. cbn [mbind result_bind].
    by rewrite Hlist.
  - intros first rest server' log' r' rest' -> Hr' Hlist'.
    rewrite field_2 in Hlist'. fold (order_list_of r') in Hlist'.
    unfold get_latest_order, mbind, M_bind, send, lift. rewrite Hr, Hr', Hlist, Hlist'.
    reflexivity.
Qed.

End OrdersMore.

(** ** More on the queries *)

Section QueriesMore.

Variable server : list request → request → result json.


Lemma fill_positions_app (before rest : list json) (views : list (string * position))
    (return_dict : gmap string json) :
  Forall2 held_as before views →
  fill_positions (before ++ rest) return_dict
  = fill_positions rest (foldl (λ m sp, <[sp.1 := entry_of sp.2]> m) return_dict views).
Proof.
  intros Hheld. revert return_dict.
  induction Hheld as [|item sp before views Hitem _ IH]; intros return_dict; [reflexivity|].
  cbn [app fill_positions foldl]. rewrite (position_entry_held _ _ Hitem).
  cbn [mbind result_bind]. apply IH.
Qed.

(** X17.  One position whose instrument key has no second field makes
    [get_positions] raise [IndexError]: no mapping is returned, not even for
    the well-formed positions before it. *)
Theorem get_positions_all_or_nothing (account_id : string) (log : list request) (r : json)
    (before after : list json) (views : list (string * position)) (item fin : json)
    (key : string) :
  server log (GET (pos_url account_id)) = Ok r →
  pos_list_of r = Ok (JList (before ++ item :: after)) →
  Forall2 held_as before views →
  any_field "finInstrument" item = Some fin →
  str_field "quoteIdKey" fin = Some key →
  second_field key = None →
  get_positions server account_id log
  = (Raise IndexError, (log ++ [GET (pos_url account_id)])%list).
Proof.
  intros Hr Hlist Hheld Hfin Hkey Hsecond.
  rewrite get_positions_run, Hr. cbn [mbind result_bind]. rewrite Hlist.
  cbn [mbind result_bind]. f_equal. unfold positions_of. cbn [len mbind result_bind].
  rewrite length_app. cbn [length]. rewrite Nat.add_succ_r. cbn [Nat.eqb iter mbind result_bind].
  rewrite (fill_positions_app before (item :: after) views ∅ Hheld).
  cbn [fill_positions]. unfold position_entry.
  apply any_field_getitem in Hfin. rewrite Hfin. cbn [mbind result_bind].
  rewrite (str_field_getitem _ _ _ Hkey). cbn [mbind result_bind symbol_of].
  unfold index. cbn [Z.ltb Z.compare]. change (Z.to_nat 1) with 1%nat.
  unfold second_field in Hsecond. by rewrite Hsecond.
Qed.

Lemma balance_of_block (r : json) :
  balance_of r = (block ← native_block r; getitem block "cashAmt").
Proof.
  unfold balance_of, native_block.
  destruct (getitem r "data") as [data|]; [|reflexivity]. cbn [mbind result_bind].
  destruct (getitem data "accountAssetDetailList") as [details|]; [|reflexivity].
  cbn [mbind result_bind].
  destruct (getindex details 0) as [response|]; [|reflexivity]. cbn [mbind result_bind].
  destruct (getitem response "account") as [account|]; [|reflexivity].
  cbn [mbind result_bind].
  destruct (getitem account "acctCurrCd") as [currency|]; [|reflexivity].
  cbn [mbind result_bind].
  by destruct (getitem response "assetsDetailByCurrencyList").
Qed.

Lemma pos_list_of_block (r : json) :
  pos_list_of r = (block ← native_block r; getitem block "positionList").
Proof.
  unfold pos_list_of, native_block.
  destruct (getitem r "data") as [data|]; [|reflexivity]. cbn [mbind result_bind].
  destruct (getitem data "accountAssetDetailList") as [details|]; [|reflexivity].
  cbn [mbind result_bind].
  destruct (getindex details 0) as [response|]; [|reflexivity]. cbn [mbind result_bind].
  destruct (getitem response "account") as [account|]; [|reflexivity].
  cbn [mbind result_bind].
  destruct (getitem account "acctCurrCd") as [currency|]; [|reflexivity].
  cbn [mbind result_bind].
  by destruct (getitem response "assetsDetailByCurrencyList").
Qed.

Lemma get_account_balance_run (account_id : string) (log : list request) :
  get_account_balance server account_id log
  = (r ← server log (GET (pos_url account_id)); balance_of r,
     (log ++ [GET (pos_url account_id)])%list).
Proof.
  unfold get_account_balance, mbind at 1, M_bind, send, lift.
  destruct (server log (GET (pos_url account_id))) as [r|e]; [|reflexivity].
  cbn. by destruct (balance_of r).
Qed.

(** X18.  [get_account_balance] and [get_positions] ask the same question
    and read the same block of the answer, the one under the account's own
    currency, the blocks of other currencies playing no role: the first
    returns its [cashAmt], also for an account that holds cash only, where
    the second raises [NoPositionsError]; a block without [cashAmt] is a
    [KeyError]. *)
Theorem balance_and_positions_share_block (account_id : string) (log : list request)
    (r : json) (block : gmap string json) :
  server log (GET (pos_url account_id)) = Ok r →
  native_block r = Ok (JDict block) →
  let log' := (log ++ [GET (pos_url account_id)])%list in
  get_account_balance server account_id log
  = (match block !! "cashAmt" with Some cash => Ok cash | None => Raise KeyError end, log')
  ∧ (get_positions server account_id log).2 = log'
  ∧ (block !! "positionList" = Some (JList []) →
     get_positions server account_id log = (Raise NoPositionsError, log')).
Proof.
  intros Hr Hblock log'.
  rewrite get_account_balance_run, get_positions_run, Hr. cbn [mbind result_bind snd].
  rewrite balance_of_block, pos_list_of_block, Hblock. cbn [mbind result_bind].
  rewrite !getitem_dict. split; [reflexivity|]. split; [reflexivity|].
  by intros ->.
Qed.

Lemma split_plain (ticker rest : string) :
  plain ticker = true →
  split ";" (ticker +:+ String ";" rest) = ticker :: split ";" rest.
Proof.
  induction ticker as [|c ticker IH]; [reflexivity|].
  cbn [plain]. intros [Hc Hplain]%andb_true_iff. apply negb_true_iff in Hc.
  change (String c ticker +:+ String ";" rest)
    with (String c (ticker +:+ String ";" rest)).
  cbn [split]. rewrite Hc. by rewrite IH.
Qed.

(** X12.  The instrument key [get_quote] builds for a ticker without a
    semicolon is read back by [get_positions] as that ticker: its second
    semicolon-delimited field is the ticker, and with such a market its
    fields are [AC], the ticker, the market and an empty one. *)
Theorem quote_key_round_trip (ticker market : string) :
  plain ticker = true →
  second_field (quote_key ticker market) = Some ticker
  ∧ symbol_of (JStr (quote_key ticker market)) = Ok ticker
  ∧ (plain market = true →
     split ";" (quote_key ticker market) = ["AC"; ticker; market; ""]).
Proof.
  intros Hticker.
  assert (Hsplit : split ";" (quote_key ticker market)
                   = "AC" :: ticker :: split ";" (market +:+ ";")).
  { change (quote_key ticker market)
      with ("AC" +:+ String ";" (ticker +:+ String ";" (market +:+ ";"))).
    rewrite (split_plain "AC" _ eq_refl).
    by rewrite (split_plain ticker _ Hticker). }
  split; [|split].
  - unfold second_field. by rewrite Hsplit.
  - unfold symbol_of, index. cbn [Z.ltb Z.compare]. change (Z.to_nat 1) with 1%nat.
    by rewrite Hsplit.
  - intros Hmarket. rewrite Hsplit.
    change (market +:+ ";") with (market +:+ String ";" "").
    by rewrite (split_plain market "" Hmarket).
Qed.

Lemma get_quote_run (ticker market : string) (log : list request) :
  get_quote server ticker market log
  = (r ← server log (GET (quote_url +:+ quote_key ticker market));
     quote_of (quote_key ticker market) r,
     (log ++ [GET (quote_url +:+ quote_key ticker market)])%list).
Proof.
  unfold get_quote, mbind at 1, M_bind, send, lift.
  destruct (server log _) as [r|e]; [|reflexivity].
  cbn. by destruct (quote_of _ r).
Qed.

(** X13.  [get_quote] reads the answer under the very key it put in the
    URL: it returns the bid and ask of that instrument, whatever other
    instruments the answer carries, and raises [KeyError] when the answer
    does not carry the instrument asked for. *)
Theorem get_quote_reads_requested_instrument (ticker market : string)
    (log : list request) (r : json) (instruments : gmap string json) :
  server log (GET (quote_url +:+ quote_key ticker market)) = Ok r →
  field ["data"] r = Ok (JDict instruments) →
  let log' := (log ++ [GET (quote_url +:+ quote_key ticker market)])%list in
  (instruments !! quote_key ticker market = None →
   get_quote server ticker market log = (Raise KeyError, log'))
  ∧
  (∀ instrument bid ask,
     instruments !! quote_key ticker market = Some instrument →
     field ["finInstrumentPrice"; "bidPrice"] instrument = Ok bid →
     field ["finInstrumentPrice"; "askPrice"] instrument = Ok ask →
     get_quote server ticker market log
     = (Ok (JDict {[ "bid" := bid; "ask" := ask ]}), log')).
Proof.
  intros Hr Hdata log'. rewrite field_1 in Hdata.
  rewrite get_quote_run, Hr. cbn [mbind result_bind]. unfold quote_of. rewrite Hdata.
  cbn [mbind result_bind]. rewrite (getitem_dict instruments). split.
  - by intros ->.
  - intros instrument bid ask -> Hbid Hask. cbn [mbind result_bind].
    rewrite field_2 in Hbid, Hask.
    apply bind_ok in Hbid as (price & Hprice & Hbid). rewrite Hprice in Hask |- *.
    cbn [mbind result_bind] in Hask |- *. by rewrite Hbid, Hask.
Qed.

(** X14.  The seven queries are read-only on the wire: each sends exactly
    one request, a [GET] to its own URL, and sends it whether it then returns
    or raises. *)
Theorem queries_send_one_get (ticker market account_id order_id : string)
    (currency_type account_type : string) (log : list request) :
  (get_quote server ticker market log).2
  = (log ++ [GET (quote_url +:+ quote_key ticker market)])%list
  ∧ (get_account_id server currency_type account_type log).2
    = (log ++ [GET account_url])%list
  ∧ (get_account_balance server account_id log).2
    = (log ++ [GET (pos_url account_id)])%list
  ∧ (get_positions server account_id log).2 = (log ++ [GET (pos_url account_id)])%list
  ∧ (get_latest_order server account_id log).2
    = (log ++ [GET (orders_url account_id)])%list
  ∧ (get_order server account_id order_id log).2
    = (log ++ [GET (orders_url account_id)])%list
  ∧ (get_order_status server account_id order_id log).2
    = (log ++ [GET (orders_url account_id)])%list.
Proof.
  rewrite get_quote_run, get_account_id_run, get_account_balance_run, get_positions_run,
    get_latest_order_run.
  assert (Horders : (get_order server account_id order_id log).2
                    = (log ++ [GET (orders_url account_id)])%list
                    ∧ (get_order_status server account_id order_id log).2
                      = (log ++ [GET (orders_url account_id)])%list).
  { destruct (order_list server account_id log) as [[orders|e] log1] eqn:Hlist.
    - destruct (get_order_run server account_id order_id log log1 orders Hlist) as [-> ->].
      rewrite order_list_run in Hlist. by injection Hlist as _ <-.
    - unfold get_order, get_order_status, mbind, M_bind. rewrite Hlist.
      rewrite order_list_run in Hlist. by injection Hlist as _ <-. }
  destruct Horders as [Horder Hstatus]. by split_and!.
Qed.

(** X16.  [cancel_order] sends one [DELETE] to the submission URL followed
    by the order id and returns [None] as soon as the transport did not
    raise: the broker's answer is not looked at, so two brokers that both
    answer, whatever they answer, give the same result. *)
Theorem cancel_order_assumes_success (order_id : string) (log : list request)
    (server' : list request → request → result json) :
  (cancel_order server order_id log).2
  = (log ++ [DELETE (order_url +:+ "/" +:+ order_id)])%list
  ∧ (is_ok (server log (DELETE (cancel_url order_id))) = true →
     (cancel_order server order_id log).1 = Ok JNull)
  ∧ (is_ok (server log (DELETE (cancel_url order_id))) = true →
     is_ok (server' log (DELETE (cancel_url order_id))) = true →
     cancel_order server order_id log = cancel_order server' order_id log).
Proof.
  unfold cancel_order, mbind, M_bind, send, mret, M_ret.
  destruct (server log (DELETE (cancel_url order_id))) as [answer|e];
    destruct (server' log (DELETE (cancel_url order_id))) as [answer'|e'];
    split_and!; try done.
Qed.

End QueriesMore.

(** ** Logging in *)

Section LoginFacts.

Variable status : list request → request → result bool.
Variable server : list request → request → result json.
Variable fresh : scraper.
Variable str_of : json → string.

(** How [login] ends, path by path. *)
Lemma login_run (self : client) (log : list request) :
  let post := POST login_url (login_data self) in
  login status server fresh str_of self log
  = match status log post with
    | Raise e => (Raise e, self, (log ++ [post])%list)
    | Ok false => (Raise AuthenticationError, self, (log ++ [post])%list)
    | Ok true =>
        match server (log ++ [post])%list (GET token_url) ≫= access_token_of with
        | Raise e => (Raise e, self, (log ++ [post; GET token_url])%list)
        | Ok t =>
            (Ok (update_header "Authorization" ("Bearer " +:+ str_of t)
                   (update_header "Content-Type" "application/json" fresh)),
             set_token t self, (log ++ [post; GET token_url])%list)
        end
    end.
Proof.
  intros post. unfold login. fold post. destruct (status log post) as [[]|e]; try reflexivity.
  cbn [negb]. rewrite <- app_assoc. cbn [app].
  by destruct (_ ≫= access_token_of).
Qed.

(** X20.  When the broker does not accept the credentials, [login] raises
    [AuthenticationError] having sent the credentials and nothing else: the
    token endpoint is not contacted and the object is left as it was.
    [update_session] and the constructor fail the same way. *)
Theorem login_fails_closed (self : client) (log : list request) :
  status log (POST login_url (login_data self)) = Ok false →
  let log' := (log ++ [POST login_url (login_data self)])%list in
  login status server fresh str_of self log = (Raise AuthenticationError, self, log')
  ∧ update_session status server fresh str_of self log
    = (Raise AuthenticationError, self, log')
  ∧ __init__ status server fresh str_of (user self) (passw self) log
    = (Raise AuthenticationError, log').
Proof.
  intros Hstatus log'.
  assert (Hlogin : ∀ c, login_data c = login_data self →
                        login status server fresh str_of c log
                        = (Raise AuthenticationError, c, log')).
  { intros c Hc. rewrite login_run. cbv zeta. by rewrite Hc, Hstatus. }
  split; [by apply Hlogin|]. split.
  - unfold update_session. by rewrite Hlogin.
  - unfold __init__. by rewrite Hlogin.
Qed.

(** X21.  When the broker accepts the credentials and the token endpoint
    answers with an access token, [login] has sent two requests, the
    credentials to the session endpoint and a [GET] to the token endpoint;
    the object holds the token, and the session returned presents it as
    [Bearer] authorization and announces JSON content, every other header
    being the one the new session came with. *)
Theorem login_accepted (self : client) (log : list request) (r t : json) :
  status log (POST login_url (login_data self)) = Ok true →
  server (log ++ [POST login_url (login_data self)])%list (GET token_url) = Ok r →
  field ["data"; "accessToken"] r = Ok t →
  ∃ s,
    login status server fresh str_of self log
    = (Ok s, set_token t self,
       (log ++ [POST login_url (login_data self); GET token_url])%list) ∧
    field ["userid"] (login_data self) = Ok (JStr (user self)) ∧
    field ["password"] (login_data self) = Ok (JStr (passw self)) ∧
    headers s !! "Authorization" = Some ("Bearer " +:+ str_of t) ∧
    headers s !! "Content-Type" = Some "application/json" ∧
    ∀ name, name ≠ "Authorization" → name ≠ "Content-Type" →
      headers s !! name = headers fresh !! name.
Proof.
  intros Hstatus Hr Ht. rewrite field_2 in Ht. fold (access_token_of r) in Ht.
  rewrite login_run. cbv zeta. rewrite Hstatus, Hr. cbn [mbind result_bind]. rewrite Ht.
  eexists. split; [reflexivity|]. split; [reflexivity|]. split; [reflexivity|].
  cbn [update_header headers]. split; [apply lookup_insert_eq|]. split.
  - rewrite lookup_insert_ne by done. apply lookup_insert_eq.
  - intros name Hauth Hcontent. by rewrite !lookup_insert_ne.
Qed.

(** How [login] ends, whatever the broker does. *)
Lemma login_outcome (self self' : client) (log log' : list request)
    (res : result scraper) :
  login status server fresh str_of self log = (res, self', log') →
  (∃ e, res = Raise e ∧ self' = self)
  ∨ (∃ t s, res = Ok s ∧ self' = set_token t self
            ∧ headers s !! "Authorization" = Some ("Bearer " +:+ str_of t)).
Proof.
  rewrite login_run. cbv zeta.
  destruct (status log _) as [[]|e].
  - destruct (_ ≫= access_token_of) as [t|e]; intros [= <- <- <-].
    + right. eexists _, _. split; [reflexivity|]. split; [reflexivity|].
      cbn [update_header headers]. apply lookup_insert_eq.
    + left. eauto.
  - intros [= <- <- <-]. left. eauto.
  - intros [= <- <- <-]. left. eauto.
Qed.

(** X22.  [update_session] is all or nothing: if it raises, for whatever
    reason, the object still has the session and the token it had; if it
    returns, both are new and belong together.  Neither way does it touch
    the credentials. *)
Theorem update_session_all_or_nothing (self self' : client) (log log' : list request)
    (res : result json) :
  update_session status server fresh str_of self log = (res, self', log') →
  user self' = user self ∧ passw self' = passw self ∧
  ((∃ e, res = Raise e ∧ self' = self)
   ∨ (res = Ok JNull ∧
      ∃ t s, token self' = Some t ∧ session self' = Some s
             ∧ headers s !! "Authorization" = Some ("Bearer " +:+ str_of t))).
Proof.
  unfold update_session.
  destruct (login status server fresh str_of self log) as [[[s|e] self1] log1] eqn:Hlogin;
    intros [= <- <- <-].
  - apply login_outcome in Hlogin as [(e & [=] & _)|(t & s' & [= <-] & -> & Hauth)].
    split; [reflexivity|]. split; [reflexivity|]. right. split; [reflexivity|].
    by exists t, s.
  - apply login_outcome in Hlogin as [(e' & _ & ->)|(t & s' & [=] & _)].
    split; [reflexivity|]. split; [reflexivity|]. left. eauto.
Qed.

(** X23.  An object the constructor returns has the credentials it was
    given and is authenticated: it holds a session, and the token it holds is
    the one that session presents.  [update_session] keeps an object
    authenticated, whether it returns or raises. *)
Theorem authenticated_invariant :
  (∀ user passw log log' self,
     __init__ status server fresh str_of user passw log = (Ok self, log') →
     Login.user self = user ∧ Login.passw self = passw ∧ authenticated str_of self)
  ∧
  (∀ self self' log log' res,
     authenticated str_of self →
     update_session status server fresh str_of self log = (res, self', log') →
     authenticated str_of self').
Proof.
  split.
  - intros u p log log' self. unfold __init__.
    destruct (login _ _ _ _ _ log) as [[[s|e] self1] log1] eqn:Hlogin; intros [= <- <-].
    apply login_outcome in Hlogin as [(e & [=] & _)|(t & s' & [= <-] & -> & Hauth)].
    split; [reflexivity|]. split; [reflexivity|]. by exists t, s.
  - intros self self' log log' res Hself. unfold update_session.
    destruct (login _ _ _ _ self log) as [[[s|e] self1] log1] eqn:Hlogin; intros [= <- <- <-].
    + apply login_outcome in Hlogin as [(e & [=] & _)|(t & s' & [= <-] & -> & Hauth)].
      by exists t, s.
    + by apply login_outcome in Hlogin as [(e' & _ & ->)|(t & s' & [=] & _)].
Qed.

End LoginFacts.

(** ** Letters, requests and symbols *)

Section Letters.

Variable server : list request → request → result json.
Variable today : datetime.

Lemma prefix_has_lower (needle hay : string) :
  String.prefix needle hay = true → has_lower needle = true → has_lower hay = true.
Proof.
  revert hay. induction needle as [|c needle IH]; intros hay; [discriminate 2|].
  destruct hay as [|c' hay]; [discriminate|]. cbn [String.prefix has_lower].
  destruct (Ascii.ascii_dec c c') as [<-|Hne]; [|discriminate].
  intros Hprefix [Hc|Hrest]%orb_true_iff; apply orb_true_iff; [by left|right].
  by apply IH.
Qed.

Lemma contains_has_lower (needle hay : string) :
  contains needle hay = true → has_lower needle = true → has_lower hay = true.
Proof.
  induction hay as [|c hay IH]; cbn [contains].
  - rewrite orb_false_r. apply prefix_has_lower.
  - intros [Hprefix|Hrest]%orb_true_iff Hneedle.
    + by apply (prefix_has_lower needle).
    + cbn [has_lower]. apply orb_true_iff. right. by apply IH.
Qed.

(** Two letters in a row leave a lower-case letter in the title-cased
    text. *)
Lemma title_from_has_lower (previous_is_cased : bool) (c : ascii) (s : string) :
  previous_is_cased = true → is_lower c || is_upper c = true →
  has_lower (title_from previous_is_cased (String c s)) = true.
Proof.
  intros -> Hcased. cbn [title_from].
  destruct (is_lower c) eqn:Hl.
  - cbn [has_lower]. by rewrite Hl.
  - cbn [orb] in Hcased. rewrite Hcased. cbn [has_lower].
    apply orb_true_iff. left. revert Hl Hcased.
    by destruct c as [[] [] [] [] [] [] [] []].
Qed.

Lemma title_two_letters (a b : ascii) (s : string) :
  is_lower a || is_upper a = true → is_lower b || is_upper b = true →
  has_lower (title (String a (String b s))) = true.
Proof.
  intros Ha Hb. unfold title.
  pose proof (title_from_has_lower true b s eq_refl Hb) as Hrest.
  remember (String b s) as rest eqn:Erest. clear Erest. cbn [title_from].
  destruct (is_lower a); [|cbn [orb] in Ha; rewrite Ha];
    cbn [has_lower]; apply orb_true_iff; by right.
Qed.

(** X24.  The account type is searched for in title case, so whenever it
    starts with two letters, [TFSA] as much as [tfsa], it is not found in a
    description that has no lower-case letter: if no description of the list
    has one, [get_account_id] raises [AccountNotFoundError]. *)
Theorem get_account_id_misses_capitals (currency_type : string) (a b : ascii)
    (account_type : string) (log : list request) (r : json) (accounts : list json) :
  server log (GET account_url) = Ok r →
  account_list_of r = Ok (JList accounts) →
  is_lower a || is_upper a = true →
  is_lower b || is_upper b = true →
  Forall (λ item, ∃ desc, str_field "acctTypeDesc" item = Some desc
                          ∧ has_lower desc = false) accounts →
  get_account_id server currency_type (String a (String b account_type)) log
  = (Raise AccountNotFoundError, (log ++ [GET account_url])%list).
Proof.
  intros Hr Hlist Ha Hb Hcaps.
  rewrite get_account_id_run, Hr. cbn [mbind result_bind].
  rewrite Hlist. cbn [mbind result_bind iter]. clear Hr Hlist. f_equal.
  induction Hcaps as [|item accounts (desc & Hdesc & Hcaps) _ IH]; [reflexivity|].
  rewrite scan_accounts_skip; [exact IH|eauto|].
  unfold described_as. rewrite Hdesc. apply andb_false_iff. right.
  apply not_true_is_false. intros Hin.
  apply contains_has_lower in Hin; [congruence|]. by apply title_two_letters.
Qed.


Lemma split_fields_plain (s : string) : Forall (λ f, plain f = true) (split ";" s).
Proof.
  induction s as [|c s IH]; [by constructor|]. cbn [split].
  destruct (Ascii.eqb c ";") eqn:Hc; [by constructor|].
  destruct (split ";" s) as [|f fields]; [by constructor; [cbn; rewrite Hc|]|].
  apply Forall_cons in IH as [Hf Hfields]. constructor; [|exact Hfields].
  cbn [plain]. by rewrite Hc, Hf.
Qed.

(** X26.  No symbol [get_positions] reports contains a semicolon, so each
    of them can go straight into [get_quote]: the key built for it reads back
    as that symbol, on any market. *)
Theorem reported_symbols_quote (account_id : string) (log log' : list request)
    (return_dict : gmap string json) (symbol market : string) :
  get_positions server account_id log = (Ok return_dict, log') →
  is_Some (return_dict !! symbol) →
  plain symbol = true ∧ second_field (quote_key symbol market) = Some symbol.
Proof.
  rewrite get_positions_run. intros [= Hrun _] Hsymbol.
  assert (Hplain : plain symbol = true).
  { apply bind_ok in Hrun as (r & _ & Hrun).
    apply bind_ok in Hrun as (pos_list & _ & Hrun).
    unfold positions_of in Hrun. apply bind_ok in Hrun as (n & _ & Hrun).
    destruct (n =? 0)%nat; [discriminate|].
    apply bind_ok in Hrun as (items & _ & Hrun).
    assert (Hfill : ∀ items m m', fill_positions items m = Ok m' →
                      is_Some (m' !! symbol) → is_Some (m !! symbol) ∨ plain symbol = true).
    { clear. intros items. induction items as [|item items IH]; intros m m'.
      - intros [= <-]. by left.
      - cbn [fill_positions]. intros Hrun Hin.
        apply bind_ok in Hrun as ([s entry] & Hentry & Hrun).
        destruct (IH _ _ Hrun Hin) as [Hm|Hp]; [|by right].
        destruct (decide (s = symbol)) as [->|Hne];
          [|left; by rewrite lookup_insert_ne in Hm].
        right. unfold position_entry in Hentry.
        apply bind_ok in Hentry as (fin & _ & Hentry).
        apply bind_ok in Hentry as (key & _ & Hentry).
        apply bind_ok in Hentry as (symbol' & Hsym & Hentry).
        apply bind_ok in Hentry as (? & _ & Hentry).
        apply bind_ok in Hentry as (? & _ & Hentry).
        apply bind_ok in Hentry as (? & _ & Hentry).
        apply bind_ok in Hentry as (? & _ & Hentry).
        apply bind_ok in Hentry as (? & _ & Hentry).
        apply bind_ok in Hentry as (? & _ & [= -> _]).
        destruct key as [| | | |text| |]; try discriminate. cbn [symbol_of] in Hsym.
        unfold index in Hsym. cbn [Z.ltb Z.compare] in Hsym.
        change (Z.to_nat 1) with 1%nat in Hsym.
        destruct (split ";" text !! 1%nat) as [f|] eqn:Hf; [|discriminate].
        injection Hsym as ->.
        pose proof (split_fields_plain text) as Hall. rewrite Forall_lookup in Hall.
        by apply (Hall 1%nat). }
    destruct (Hfill _ _ _ Hrun Hsymbol) as [Hempty|Hp]; [|exact Hp].
    rewrite lookup_empty in Hempty. by destruct Hempty. }
  split; [exact Hplain|].
  change (quote_key symbol market)
    with ("AC" +:+ String ";" (symbol +:+ String ";" (market +:+ ";"))).
  unfold second_field. rewrite (split_plain "AC" _ eq_refl).
  by rewrite (split_plain symbol _ Hplain).
Qed.

End Letters.

(** ** The client at work, continued *)

Section MoreRuns.

Import Fixture Desk.

(** [usd]/[cASH] and [USD]/[Cash] find the same account. *)
Lemma get_account_id_case_insensitive_witness :
  get_account_id (broker []) "usd" "cASH" [] = get_account_id (broker []) "USD" "Cash" []
  ∧ (get_account_id (broker []) "USD" "Cash" []).1 = Ok (JStr "A2").
Proof.
  split; [|vm_compute; reflexivity].
  apply (get_account_id_case_insensitive (broker []) "usd" "USD" "cASH" "Cash" []);
    reflexivity.
Defined.

(** [buy aapl usd] and [BUY AAPL USD] are the same order. *)
Lemma orders_case_insensitive_witness :
  place_market_order (broker []) tuesday "aapl" "A2" "usd" "buy" 10 "514-555-0100" []
  = place_market_order (broker []) tuesday "AAPL" "A2" "USD" "BUY" 10 "514-555-0100" [].
Proof.
  apply (orders_case_insensitive (broker []) tuesday "A2" "buy" "BUY" 10 "aapl" "AAPL"
           "usd" "USD" "514-555-0100" None (1 # 1) 0 []); reflexivity.
Defined.


(** Three million days from now there is no date. *)
Lemma validate_offset_out_of_range_witness :
  validate (broker []) tuesday "A2" "sell" 3 "ry" "eur" "514-555-0100" (Some (5 # 2))
    3000000 [] = (Raise OverflowError, []).
Proof.
  apply (validate_offset_out_of_range (broker []) tuesday "A2" "sell" 3 "ry" "eur"
           "514-555-0100" (Some (5 # 2)) (5 # 2) 3000000 []).
  - discriminate.
  - right. reflexivity.
Defined.

(** The payload of a validated order has the order and the warnings, and
    nothing of the wrapper the request had. *)
Lemma validate_payload_frame_witness :
  ∃ order_data,
    (validate (broker [slow_market]) tuesday "A2" "buy" 10 "aapl" "usd" "514-555-0100"
       None 0 []).1 = Ok order_data ∧
    field ["mode"] order_data = Raise KeyError ∧
    field ["data"] order_data = Raise KeyError.
Proof.
  set (run := validate (broker [slow_market]) tuesday "A2" "buy" 10 "aapl" "usd"
                "514-555-0100" None 0 []).
  assert (Hrun : run = (Ok (returned JNull run.1), run.2)) by (vm_compute; reflexivity).
  destruct (validate_payload_frame (broker [slow_market]) tuesday "A2" "buy" 10 "aapl" "usd"
              "514-555-0100" None 0 [] _ _ Hrun)
    as (req & response & _ & _ & _ & _ & Hkeys).
  exists (returned JNull run.1). split; [by rewrite Hrun at 1|].
  split; apply Hkeys; discriminate.
Defined.

(** A notice without a [msgId], followed by something that is no message at
    all, rejects the order. *)
Lemma rejection_short_circuits_witness :
  let notice := JDict {[ "message" := JStr representative_notice ]} in
  (validate (broker [slow_market; notice; JInt 7]) tuesday "A2" "buy" 10 "aapl" "usd"
     "514-555-0100" None 0 []).1 = Raise OrderRejectedError.
Proof.
  intros notice.
  set (messages := [slow_market; notice; JInt 7]).
  set (req := returned JNull (validation_data tuesday "A2" "buy" 10 "aapl" "usd" None 0)).
  assert (Hreq : validation_data tuesday "A2" "buy" 10 "aapl" "usd" None 0 = Ok req)
    by (vm_compute; reflexivity).
  set (response := returned JNull (broker messages [] (POST validation_url req))).
  assert (Hresp : broker messages [] (POST validation_url req) = Ok response)
    by (vm_compute; reflexivity).
  assert (Hstock : field ["data"; "stockOrder"] response = Ok (echoed req))
    by (vm_compute; reflexivity).
  assert (Hlist : field ["messageList"] response = Ok (JList ([slow_market] ++ notice :: [JInt 7])))
    by (vm_compute; reflexivity).
  assert (Hbefore : Forall (λ m, well_formed_message m ∧ mentions_representative m = false)
                      [slow_market]).
  { constructor; [|constructor]. split; [split; eexists; reflexivity|reflexivity]. }
  assert (Hnotice : mentions_representative notice = true) by (vm_compute; reflexivity).
  by rewrite (rejection_short_circuits (broker messages) tuesday "A2" "buy" 10 "aapl" "usd"
                "514-555-0100" None 0 [] req response (echoed req) notice [slow_market]
                [JInt 7] Hreq Hresp Hstock Hlist Hbefore Hnotice).
Defined.

(** A warning without a [msgId] comes before the notice: [KeyError], not a
    rejection. *)
Lemma malformed_message_masks_rejection_witness :
  (validate (broker [slow_market; JDict {[ "message" := JStr "Odd lot order" ]};
                     manual_review])
     tuesday "A2" "buy" 10 "aapl" "usd" "514-555-0100" None 0 []).1 = Raise KeyError.
Proof.
  set (d := ({[ "message" := JStr "Odd lot order" ]} : gmap string json)).
  set (messages := [slow_market; JDict d; manual_review]).
  set (req := returned JNull (validation_data tuesday "A2" "buy" 10 "aapl" "usd" None 0)).
  assert (Hreq : validation_data tuesday "A2" "buy" 10 "aapl" "usd" None 0 = Ok req)
    by (vm_compute; reflexivity).
  set (response := returned JNull (broker messages [] (POST validation_url req))).
  assert (Hresp : broker messages [] (POST validation_url req) = Ok response)
    by (vm_compute; reflexivity).
  assert (Hstock : field ["data"; "stockOrder"] response = Ok (echoed req))
    by (vm_compute; reflexivity).
  assert (Hlist : field ["messageList"] response
                  = Ok (JList ([slow_market] ++ JDict d :: [manual_review])))
    by (vm_compute; reflexivity).
  assert (Hbefore : Forall (λ m, well_formed_message m ∧ mentions_representative m = false)
                      [slow_market]).
  { constructor; [|constructor]. split; [split; eexists; reflexivity|reflexivity]. }
  assert (Hbad : d !! "message" = None
                 ∨ (is_Some (str_field "message" (JDict d))
                    ∧ mentions_representative (JDict d) = false ∧ d !! "msgId" = None)).
  { right. split; [eexists; reflexivity|]. split; reflexivity. }
  by rewrite (malformed_message_masks_rejection (broker messages) tuesday "A2" "buy" 10
                "aapl" "usd" "514-555-0100" None 0 [] req response (echoed req) d
                [slow_market] [manual_review] Hreq Hresp Hstock Hlist Hbefore Hbad).
Defined.

(** The order O8 is closed, by [get_order] and by [get_order_status]. *)
Lemma get_order_status_agrees_witness :
  get_order_status (broker []) "A2" "O8" [] = (Ok (JBool false), [GET (orders_url "A2")]).
Proof.
  set (run := get_order (broker []) "A2" "O8" []).
  assert (Hrun : run = (Ok (returned JNull run.1), [GET (orders_url "A2")]))
    by (vm_compute; reflexivity).
  destruct (get_order_status_agrees (broker []) "A2" "O8" [] _ _ Hrun) as (-> & _ & _).
  vm_compute. reflexivity.
Defined.

(** The first O5 has no fill price; the second is complete and is not
    reached. *)
Lemma get_order_incomplete_entry_witness :
  get_order desk "A3" "O5" [] = (Raise KeyError, [GET (orders_url "A3")])
  ∧ get_order_status desk "A3" "O5" [] = (Ok (JBool true), [GET (orders_url "A3")]).
Proof.
  set (r := returned JNull (desk [] (GET (orders_url "A3")))).
  assert (Hr : desk [] (GET (orders_url "A3")) = Ok r) by (vm_compute; reflexivity).
  set (d := ({[ "ordId" := JStr "O5"; "operation" := JStr "BUY"; "ordQty" := JInt 10;
                "execQty" := JInt 0; "orderOpen" := JBool true ]} : gmap string json)).
  assert (Hlist : field ["data"; "orderList"] r
                  = Ok (JList ([] ++ JDict d :: [order "O5" "BUY" 0 true])))
    by (vm_compute; reflexivity).
  assert (Hitem : has_ord_id "O5" (JDict d) = true) by (vm_compute; reflexivity).
  assert (Hkey : "avgExecPrice" ∈ ["operation"; "ordQty"; "execQty"; "avgExecPrice"; "orderOpen"])
    by (do 3 right; left).
  assert (Hnone : d !! "avgExecPrice" = None) by (vm_compute; reflexivity).
  destruct (get_order_incomplete_entry desk "A3" "O5" "avgExecPrice" [] r [] _ d
              Hr Hlist (List.Forall_nil _) Hitem Hkey Hnone) as [Horder Hstatus].
  split; [exact Horder|]. apply Hstatus. vm_compute. reflexivity.
Defined.

(** The latest order of A2 is O7, and O7 is found again by its id later in
    the session. *)
Lemma get_order_of_latest_witness :
  get_order (broker []) "A2" "O7" [GET account_url]
  = ((get_latest_order (broker []) "A2" []).1, [GET account_url; GET (orders_url "A2")]).
Proof.
  set (r := returned JNull (broker [] [] (GET (orders_url "A2")))).
  assert (Hr : broker [] [] (GET (orders_url "A2")) = Ok r) by (vm_compute; reflexivity).
  assert (Hother : broker [] [GET account_url] (GET (orders_url "A2")) = Ok r)
    by (vm_compute; reflexivity).
  set (run := get_latest_order (broker []) "A2" []).
  assert (Hrun : run = (Ok (returned JNull run.1), run.2)) by (vm_compute; reflexivity).
  assert (Hid : field ["order_id"] (returned JNull run.1) = Ok (JStr "O7"))
    by (vm_compute; reflexivity).
  destruct (get_order_of_latest (broker []) "A2" "O7" [] _ [GET account_url] r _
              Hr Hother Hrun Hid) as [-> _].
  by rewrite Hrun at 1.
Defined.

(** No order in A1; and of the orders of A2 only O7 counts. *)
Lemma get_latest_order_first_only_witness :
  get_latest_order desk "A1" [] = (Raise OrderNotFoundError, [GET (orders_url "A1")])
  ∧ (get_latest_order (broker []) "A2" []).1
    = (get_latest_order
         (λ _ _, Ok (JDict {[ "data" := JDict {[ "orderList" :=
                       JList [order "O7" "BUY" 0 true] ]} ]})) "A2" []).1.
Proof.
  split.
  - set (r := returned JNull (desk [] (GET (orders_url "A1")))).
    assert (Hr : desk [] (GET (orders_url "A1")) = Ok r) by (vm_compute; reflexivity).
    assert (Hlist : field ["data"; "orderList"] r = Ok (JList []))
      by (vm_compute; reflexivity).
    by apply (proj1 (get_latest_order_first_only desk "A1" [] r [] Hr Hlist)).
  - set (r := returned JNull (broker [] [] (GET (orders_url "A2")))).
    assert (Hr : broker [] [] (GET (orders_url "A2")) = Ok r) by (vm_compute; reflexivity).
    assert (Hlist : field ["data"; "orderList"] r = Ok (JList orders))
      by (vm_compute; reflexivity).
    apply (proj2 (get_latest_order_first_only (broker []) "A2" [] r orders Hr Hlist)
             (order "O7" "BUY" 0 true)
             [order "O8" "SELL" 10 false; order "O8" "BUY" 3 true] _ []
             (JDict {[ "data" := JDict {[ "orderList" :=
                         JList [order "O7" "BUY" 0 true] ]} ]}) []);
      reflexivity.
Defined.

(** The key of AAPL on the US market names AAPL. *)
Lemma quote_key_round_trip_witness :
  second_field (quote_key "AAPL" "USA") = Some "AAPL"
  ∧ split ";" (quote_key "AAPL" "USA") = ["AC"; "AAPL"; "USA"; ""].
Proof.
  destruct (quote_key_round_trip "AAPL" "USA" eq_refl) as (Hsecond & _ & Hfields).
  split; [exact Hsecond|]. by apply Hfields.
Defined.

(** The answer carries RY as well; the quote is that of AAPL. *)
Lemma get_quote_reads_requested_instrument_witness :
  (get_quote desk "AAPL" "USA" []).1
  = Ok (JDict {[ "bid" := JFloat (3 # 2); "ask" := JFloat (8 # 5) ]}).
Proof.
  set (r := returned JNull (desk [] (GET (quote_url +:+ quote_key "AAPL" "USA")))).
  assert (Hr : desk [] (GET (quote_url +:+ quote_key "AAPL" "USA")) = Ok r)
    by (vm_compute; reflexivity).
  set (instruments := ({[ quote_key "AAPL" "USA" := quote (3 # 2) (8 # 5);
                          quote_key "RY" "CAN" := quote (9 # 1) (10 # 1) ]}
                       : gmap string json)).
  assert (Hdata : field ["data"] r = Ok (JDict instruments)) by (vm_compute; reflexivity).
  by rewrite (proj2 (get_quote_reads_requested_instrument desk "AAPL" "USA" [] r instruments
                       Hr Hdata) (quote (3 # 2) (8 # 5)) (JFloat (3 # 2)) (JFloat (8 # 5))
                eq_refl eq_refl eq_refl).
Defined.

(** Whatever the broker says to the [DELETE], the order counts as
    cancelled. *)
Lemma cancel_order_assumes_success_witness :
  cancel_order (broker []) "O9" [] = cancel_order (λ _ _, Ok (JStr "no such order")) "O9" []
  ∧ cancel_order (broker []) "O9" [] = (Ok JNull, [DELETE (cancel_url "O9")]).
Proof.
  destruct (cancel_order_assumes_success (broker []) "O9" []
              (λ _ _, Ok (JStr "no such order"))) as (Hlog & Hnone & Hsame).
  split; [by apply Hsame|].
  specialize (Hnone eq_refl). destruct (cancel_order (broker []) "O9" []) as [res log'].
  cbn [fst snd] in *. by rewrite Hlog, Hnone.
Defined.

(** RY is well-formed, the position after it is not: no mapping. *)
Lemma get_positions_all_or_nothing_witness :
  get_positions desk "A3" [] = (Raise IndexError, [GET (pos_url "A3")]).
Proof.
  set (r := returned JNull (desk [] (GET (pos_url "A3")))).
  assert (Hr : desk [] (GET (pos_url "A3")) = Ok r) by (vm_compute; reflexivity).
  assert (Hlist : pos_list_of r = Ok (JList ([holding "AC;RY;CAN;" 2 (9 # 1)] ++ stray :: [])))
    by (vm_compute; reflexivity).
  assert (Hheld : Forall2 held_as [holding "AC;RY;CAN;" 2 (9 # 1)]
                    [("RY", held "AC;RY;CAN;" 2 (9 # 1))]) by (repeat constructor).
  apply (get_positions_all_or_nothing desk "A3" [] r _ [] _ stray
           (JDict {[ "quoteIdKey" := JStr "AAPL" ]}) "AAPL" Hr Hlist Hheld);
    reflexivity.
Defined.

(** The account A1 holds 25 dollars and nothing else. *)
Lemma balance_and_positions_share_block_witness :
  get_account_balance desk "A1" [] = (Ok (JFloat (25 # 1)), [GET (pos_url "A1")])
  ∧ get_positions desk "A1" [] = (Raise NoPositionsError, [GET (pos_url "A1")]).
Proof.
  set (r := returned JNull (desk [] (GET (pos_url "A1")))).
  assert (Hr : desk [] (GET (pos_url "A1")) = Ok r) by (vm_compute; reflexivity).
  set (block := ({[ "cashAmt" := JFloat (25 # 1); "positionList" := JList [] ]}
                 : gmap string json)).
  assert (Hblock : native_block r = Ok (JDict block)) by (vm_compute; reflexivity).
  destruct (balance_and_positions_share_block desk "A1" [] r block Hr Hblock)
    as (Hbalance & _ & Hpositions).
  split; [exact Hbalance|]. by apply Hpositions.
Defined.


(** A wrong password: no token is asked for, and nothing changes. *)
Lemma login_fails_closed_witness :
  let self := {| user := "jdoe"; passw := "guess"; token := Some (JStr "OLD");
                 session := Some chrome |} in
  update_session (doorman "s3cret") desk chrome text self []
  = (Raise AuthenticationError, self, [POST login_url (login_data self)]).
Proof.
  intros self.
  apply (login_fails_closed (doorman "s3cret") desk chrome text self []).
  vm_compute. reflexivity.
Defined.

(** The right password: the session presents the token of the broker and
    keeps its user agent. *)
Lemma login_accepted_witness :
  let self := {| user := "jdoe"; passw := "s3cret"; token := None; session := None |} in
  ∃ s,
    (login (doorman "s3cret") desk chrome text self []).1.1 = Ok s ∧
    headers s !! "Authorization" = Some "Bearer T0K" ∧
    headers s !! "User-Agent" = Some "Mozilla/5.0".
Proof.
  intros self.
  set (r := returned JNull (desk [POST login_url (login_data self)] (GET token_url))).
  assert (Hstatus : doorman "s3cret" [] (POST login_url (login_data self)) = Ok true)
    by (vm_compute; reflexivity).
  assert (Hr : desk ([] ++ [POST login_url (login_data self)]) (GET token_url) = Ok r)
    by (vm_compute; reflexivity).
  assert (Ht : field ["data"; "accessToken"] r = Ok (JStr "T0K"))
    by (vm_compute; reflexivity).
  destruct (login_accepted (doorman "s3cret") desk chrome text self [] r (JStr "T0K")
              Hstatus Hr Ht) as (s & Hrun & _ & _ & Hauth & _ & Hother).
  exists s. rewrite Hrun. split; [reflexivity|]. split; [exact Hauth|].
  by rewrite Hother.
Defined.

(** A refresh that fails leaves the old session and the old token in
    place. *)
Lemma update_session_all_or_nothing_witness :
  let self := {| user := "jdoe"; passw := "guess"; token := Some (JStr "OLD");
                 session := Some chrome |} in
  (update_session (doorman "s3cret") desk chrome text self []).1.2 = self.
Proof.
  intros self.
  set (run := update_session (doorman "s3cret") desk chrome text self []).
  assert (Hrun : run = (run.1.1, run.1.2, run.2)) by (by destruct run as [[] ?]).
  destruct (update_session_all_or_nothing (doorman "s3cret") desk chrome text self _ []
              _ _ Hrun) as (_ & _ & [(e & _ & Hself)|(Hres & _)]).
  - exact Hself.
  - vm_compute in Hres. discriminate Hres.
Defined.

(** The object the constructor returns is authenticated, and stays so
    through a refresh. *)
Lemma authenticated_invariant_witness :
  ∃ self self',
    (__init__ (doorman "s3cret") desk chrome text "jdoe" "s3cret" []).1 = Ok self ∧
    user self = "jdoe" ∧ authenticated text self ∧
    (update_session (doorman "s3cret") desk chrome text self []).1.2 = self' ∧
    authenticated text self'.
Proof.
  set (run := __init__ (doorman "s3cret") desk chrome text "jdoe" "s3cret" []).
  set (self := returned {| user := ""; passw := ""; token := None; session := None |} run.1).
  assert (Hrun : run = (Ok self, run.2)) by (vm_compute; reflexivity).
  destruct (authenticated_invariant (doorman "s3cret") desk chrome text) as [Hinit Hkeep].
  destruct (Hinit "jdoe" "s3cret" [] _ _ Hrun) as (Huser & _ & Hself).
  set (again := update_session (doorman "s3cret") desk chrome text self []).
  assert (Hagain : again = (again.1.1, again.1.2, again.2)) by (by destruct again as [[] ?]).
  exists self, again.1.2. split; [by rewrite Hrun|]. split; [exact Huser|].
  split; [exact Hself|]. split; [reflexivity|].
  exact (Hkeep self _ [] _ _ Hself Hagain).
Defined.

(** Every account is described in capitals: the TFSA is not found. *)
Lemma get_account_id_misses_capitals_witness :
  let capitals : list request → request → result json :=
    λ _ _, Ok (JDict {[ "data" := JList [JDict {[ "accountList" :=
                 JList [account "CASH CAD" "A1"; account "TFSA CAD" "A4"] ]}] ]}) in
  get_account_id capitals "cad" "TFSA" [] = (Raise AccountNotFoundError, [GET account_url]).
Proof.
  intros capitals.
  set (r := returned JNull (capitals [] (GET account_url))).
  assert (Hr : capitals [] (GET account_url) = Ok r) by reflexivity.
  assert (Hlist : account_list_of r
                  = Ok (JList [account "CASH CAD" "A1"; account "TFSA CAD" "A4"]))
    by (vm_compute; reflexivity).
  apply (get_account_id_misses_capitals capitals "cad" "T" "F" "SA" [] r _ Hr Hlist).
  - reflexivity.
  - reflexivity.
  - repeat constructor; eexists; split; reflexivity.
Defined.


(** AAPL and RY, as reported for A2, can be quoted. *)
Lemma reported_symbols_quote_witness :
  second_field (quote_key "RY" "CAN") = Some "RY".
Proof.
  set (run := get_positions (broker []) "A2" []).
  set (return_dict := returned ∅ run.1).
  assert (Hrun : run = (Ok return_dict, run.2)) by (vm_compute; reflexivity).
  assert (Hsymbol : is_Some (return_dict !! "RY")) by (vm_compute; eauto).
  by destruct (reported_symbols_quote (broker []) "A2" [] _ return_dict "RY" "CAN"
                 Hrun Hsymbol).
Defined.

End MoreRuns.
